(** * StockShield simulation graph generator: a shallow embedding

    Embedding of [backend/generate_graphs.py].  The script reads one JSON
    document and renders five charts with matplotlib.  The embedding keeps

    - the JSON numbers as Python has them after [json.load]: arbitrary
      precision integers and IEEE-754 binary64 floats (Stdlib's [spec_float]
      at precision 53, emax 1024), with the operators the script applies to
      them and the exceptions those operators raise;
    - the effects of a run as explicit state: the lines printed, the
      plotting calls made on the current figure, the files saved;
    - exceptions as a result type threaded through a small state monad.

    matplotlib, numpy and the operating system are outside the repository:
    a plotting call is recorded as a drawing command on the current figure,
    [savefig] stores the figure under its path.  A call that is handed
    numbers of the document can be refused by the library: what it raises
    is a parameter of the embedding, known to be nothing when the numbers
    are of ordinary size. *)

From Stdlib Require Import ZArith Zpower List Permutation String Ascii Bool Lia.
From Stdlib Require Import SpecFloat DecimalString.
Import ListNotations.

Open Scope string_scope.
Open Scope Z_scope.

(** ** Exceptions and results *)

Inductive exn : Type :=
| IndexError
| ZeroDivisionError
| OverflowError
| ValueError
| TypeError
| OSError
| LoadError.

Inductive res (A : Type) : Type :=
| Ok (a : A)
| Raise (e : exn).

Arguments Ok {A} a.
Arguments Raise {A} e.

Definition res_bind {A B : Type} (r : res A) (k : A -> res B) : res B :=
  match r with
  | Ok a => k a
  | Raise e => Raise e
  end.

Declare Scope res_scope.
Delimit Scope res_scope with res.
Notation "'let?' x ':=' r 'in' k" := (res_bind r (fun x => k))
  (at level 10, x name, r at level 100, k at level 200) : res_scope.

(** ** Binary64 floats *)

Abbreviation prec64 := 53 (only parsing).
Abbreviation emax64 := 1024 (only parsing).

Definition f64_add : spec_float -> spec_float -> spec_float := SFadd prec64 emax64.
Definition f64_sub : spec_float -> spec_float -> spec_float := SFsub prec64 emax64.
Definition f64_mul : spec_float -> spec_float -> spec_float := SFmul prec64 emax64.
Definition f64_div : spec_float -> spec_float -> spec_float := SFdiv prec64 emax64.

(** The float nearest to the integer [z] (ties to even). *)
Definition f64_of_Z (z : Z) : spec_float := binary_normalize prec64 emax64 z 0 false.

(** The float nearest to the exact quotient [a / b], for [b <> 0] (ties to
    even): what [json.load] returns for the decimal literal [a / 10^k], and
    what Python's [/] returns on two integers. *)
Definition f64_of_quotient (a b : Z) : spec_float :=
  let '(q, e, l) := SFdiv_core_binary prec64 emax64 (Z.abs a) 0 (Z.abs b) 0 in
  binary_round_aux prec64 emax64 (xorb (a <? 0) (b <? 0)) q e l.

Definition f64_is_zero (f : spec_float) : bool :=
  match f with
  | S754_zero _ => true
  | _ => false
  end.

(** Truncation toward zero of a finite float ([None] on nan and infinities). *)
Definition f64_trunc (f : spec_float) : option Z :=
  match f with
  | S754_zero _ => Some 0
  | S754_finite s m e =>
      let v := if 0 <=? e then Zpos m * 2 ^ e else Zpos m / 2 ^ (- e) in
      Some (if s then - v else v)
  | _ => None
  end.

(** Rounding of [n / d] to an integer, ties to even ([0 <= n], [0 < d]). *)
Definition div_half_even (n d : Z) : Z :=
  let q := n / d in
  match 2 * (n mod d) ?= d with
  | Lt => q
  | Gt => q + 1
  | Eq => if Z.even q then q else q + 1
  end.

(** Rounding of a finite float to an integer, ties to even. *)
Definition f64_round_half_even (f : spec_float) : option Z :=
  match f with
  | S754_zero _ => Some 0
  | S754_finite s m e =>
      let v := if 0 <=? e then Zpos m * 2 ^ e else div_half_even (Zpos m) (2 ^ (- e)) in
      Some (if s then - v else v)
  | _ => None
  end.

(** ** Python numbers *)

Inductive pynum : Type :=
| PInt (z : Z)
| PFloat (f : spec_float).

(** [float(x)]: an integer beyond the binary64 range raises OverflowError. *)
Definition to_float (x : pynum) : res spec_float :=
  match x with
  | PFloat f => Ok f
  | PInt z =>
      match f64_of_Z z with
      | S754_infinity _ => Raise OverflowError
      | f => Ok f
      end
  end.

Definition py_arith (int_op : Z -> Z -> Z) (float_op : spec_float -> spec_float -> spec_float)
  (a b : pynum) : res pynum :=
  match a, b with
  | PInt x, PInt y => Ok (PInt (int_op x y))
  | _, _ =>
      (let? fa := to_float a in
       let? fb := to_float b in
       Ok (PFloat (float_op fa fb)))%res
  end.

Definition py_add : pynum -> pynum -> res pynum := py_arith Z.add f64_add.
Definition py_sub : pynum -> pynum -> res pynum := py_arith Z.sub f64_sub.
Definition py_mul : pynum -> pynum -> res pynum := py_arith Z.mul f64_mul.

(** True division [a / b]: always a float.  Two integers give the correctly
    rounded quotient, or OverflowError when it is beyond the binary64 range. *)
Definition py_truediv (a b : pynum) : res spec_float :=
  match a, b with
  | PInt x, PInt y =>
      if y =? 0 then Raise ZeroDivisionError
      else match f64_of_quotient x y with
           | S754_infinity _ => Raise OverflowError
           | f => Ok f
           end
  | _, _ =>
      (let? fa := to_float a in
       let? fb := to_float b in
       if f64_is_zero fb then Raise ZeroDivisionError
       else Ok (f64_div fa fb))%res
  end.

(** Unary minus. *)
Definition py_neg (a : pynum) : pynum :=
  match a with
  | PInt z => PInt (- z)
  | PFloat f => PFloat (SFopp f)
  end.

(** Comparison of an integer with a float, exact as in Python. *)
Definition compare_Z_f64 (z : Z) (f : spec_float) : option comparison :=
  match f with
  | S754_nan => None
  | S754_infinity s => Some (if s then Gt else Lt)
  | S754_zero _ => Some (z ?= 0)
  | S754_finite s m e =>
      let v := if s then Zneg m else Zpos m in
      Some (if 0 <=? e then z ?= v * 2 ^ e else z * 2 ^ (- e) ?= v)
  end.

Definition py_compare (a b : pynum) : option comparison :=
  match a, b with
  | PInt x, PInt y => Some (x ?= y)
  | PFloat f, PFloat g => SFcompare f g
  | PInt x, PFloat g => compare_Z_f64 x g
  | PFloat f, PInt y => option_map CompOpp (compare_Z_f64 y f)
  end.

(** [a > b], [a < b], [a >= b]: false on an unordered pair (a nan). *)
Definition py_gt (a b : pynum) : bool :=
  match py_compare a b with
  | Some Gt => true
  | _ => false
  end.

Definition py_lt (a b : pynum) : bool :=
  match py_compare a b with
  | Some Lt => true
  | _ => false
  end.

Definition py_ge (a b : pynum) : bool :=
  match py_compare a b with
  | Some Gt | Some Eq => true
  | _ => false
  end.

(** The builtin [max] on two arguments: the first one unless the second is
    greater. *)
Definition py_max2 (a b : pynum) : pynum := if py_gt b a then b else a.

(** The builtin [max] on a list. *)
Definition py_max (l : list pynum) : res pynum :=
  match l with
  | [] => Raise ValueError
  | x :: rest => Ok (fold_left py_max2 rest x)
  end.

(** The builtin [sum]: the items added from left to right onto the integer 0. *)
Fixpoint py_sum_from (acc : pynum) (l : list pynum) : res pynum :=
  match l with
  | [] => Ok acc
  | x :: rest => (let? acc' := py_add acc x in py_sum_from acc' rest)%res
  end.

Definition py_sum (l : list pynum) : res pynum := py_sum_from (PInt 0) l.

(** List indexing [l[i]], negative indices counting from the end. *)
Definition py_index {A : Type} (l : list A) (i : Z) : res A :=
  let n := Z.of_nat (List.length l) in
  let j := if i <? 0 then i + n else i in
  if (0 <=? j) && (j <? n)
  then match nth_error l (Z.to_nat j) with
       | Some a => Ok a
       | None => Raise IndexError
       end
  else Raise IndexError.

(** ** Text and number formatting *)

Definition nl : string := String (ascii_of_nat 10) EmptyString.

(** [s * n] on a string. *)
Fixpoint str_repeat (s : string) (n : nat) : string :=
  match n with
  | O => EmptyString
  | S k => s ++ str_repeat s k
  end.

(** Decimal digits of a natural number. *)
Definition digits (n : Z) : string := NilZero.string_of_uint (N.to_uint (Z.to_N n)).

Fixpoint group3 (ds : list ascii) : list ascii :=
  match ds with
  | a :: b :: c :: ((_ :: _) as rest) => a :: b :: c :: ","%char :: group3 rest
  | _ => ds
  end.

(** The [,] option of a format spec: a comma between groups of three digits. *)
Definition thousands (s : string) : string :=
  string_of_list_ascii (rev (group3 (rev (list_ascii_of_string s)))).

Definition zero_pad (width : nat) (s : string) : string :=
  string_of_list_ascii (repeat "0"%char (width - String.length s)) ++ s.

(** [str(z)] and [format(z, ',')] on an integer. *)
Definition format_int (grouped : bool) (z : Z) : string :=
  (if z <? 0 then "-" else "") ++
  (if grouped then thousands (digits (Z.abs z)) else digits (Z.abs z)).

(** [|m * 2^e| * 10^places] rounded to an integer, ties to even: the digits
    the [f] presentation type prints, correctly rounded from the exact binary
    value. *)
Definition fixed_scaled (places : nat) (m : positive) (e : Z) : Z :=
  let n := Zpos m * 10 ^ Z.of_nat places in
  if 0 <=? e then n * 2 ^ e else div_half_even n (2 ^ (- e)).

Definition fixed_body (grouped : bool) (places : nat) (n : Z) : string :=
  let scale := 10 ^ Z.of_nat places in
  let ip := digits (n / scale) in
  (if grouped then thousands ip else ip) ++
  match places with
  | O => EmptyString
  | _ => "." ++ zero_pad places (digits (n mod scale))
  end.

(** [format(f, '.<places>f')], with [,] when [grouped]. *)
Definition format_fixed_f64 (grouped : bool) (places : nat) (f : spec_float) : string :=
  match f with
  | S754_nan => "nan"
  | S754_infinity s => if s then "-inf" else "inf"
  | S754_zero s => (if s then "-" else "") ++ fixed_body grouped places 0
  | S754_finite s m e => (if s then "-" else "") ++ fixed_body grouped places (fixed_scaled places m e)
  end.

(** The same on a Python number: an integer is converted to a float first. *)
Definition format_fixed (grouped : bool) (places : nat) (x : pynum) : res string :=
  (let? f := to_float x in Ok (format_fixed_f64 grouped places f))%res.

(** [os.path.join] of a directory with a relative name. *)
Definition ends_with_slash (s : string) : bool :=
  match rev (list_ascii_of_string s) with
  | c :: _ => Ascii.eqb c "/"%char
  | [] => true
  end.

Definition path_join (dir name : string) : string :=
  if ends_with_slash dir then dir ++ name else dir ++ "/" ++ name.

(** ** The simulation document *)

Record price_point : Type := {
  price_timestamp : pynum;
  price : pynum;
  regime : string }.

Record vpin_point : Type := {
  vpin_timestamp : pynum;
  vpin : pynum }.

Record trade : Type := {
  volume : pynum;
  isInformed : bool;
  isBuy : bool }.

(** Both scenario variants; [gapAuctionGains] is read for the protected
    variant only. *)
Record scenario : Type := {
  feesEarned : pynum;
  impermanentLoss : pynum;
  adverseSelectionLoss : pynum;
  gapLoss : pynum;
  gapAuctionGains : pynum;
  netPnL : pynum }.

Record comparison_data : Type := {
  feeImprovement : pynum;
  adverseSelectionReduction : pynum;
  gapProtectionValue : pynum }.

Record config_data : Type := {
  simulationDays : pynum;
  initialLPBalance : pynum }.

Record document : Type := {
  config : config_data;
  priceData : list price_point;
  vpinData : list vpin_point;
  tradeData : list trade;
  withoutProtection : scenario;
  withProtection : scenario;
  comparison : comparison_data }.

(** ** Time axis points

    A [datetime] object, kept as the local wall-clock second count from
    1970-01-01T00:00:00 and the microsecond: the calendar fields are a
    bijective reading of these two numbers between year 1 and year 9999. *)

Record datetime : Type := {
  dt_second : Z;
  dt_microsecond : Z }.

(** 0001-01-01T00:00:00 and 9999-12-31T23:59:59, the bounds of [datetime]. *)
Definition MIN_SECOND : Z := -62135596800.
Definition MAX_SECOND : Z := 253402300799.

(** ** The figure and the world of a run *)

Inductive draw : Type :=
| Plot (xs : list datetime) (ys : list pynum)
| FillBetween (xs : list datetime) (ys : list pynum)
| AxHLine (y : pynum) (label : option string)
| AxVSpan (x0 x1 : datetime) (color : string) (label : option string)
| Bar (heights : list pynum) (colors : list string) (label : option string)
| Annotate (text : string) (y : pynum)
| Pie (sizes : list pynum) (labels : list string)
| SetTitle (text : string).

Record world : Type := {
  disk : string -> option (res document);
  directories : list string;
  artifacts : list (string * list draw);
  stdout : list string;
  figure : list draw }.

(** State and exceptions: a computation returns a value or raises, and
    leaves the world it reached either way. *)
Definition M (A : Type) : Type := world -> res A * world.

Definition ret {A : Type} (a : A) : M A := fun w => (Ok a, w).

Definition bind {A B : Type} (m : M A) (k : A -> M B) : M B :=
  fun w =>
    match m w with
    | (Ok a, w') => k a w'
    | (Raise e, w') => (Raise e, w')
    end.

Definition lift {A : Type} (r : res A) : M A := fun w => (r, w).

Declare Scope monad_scope.
Delimit Scope monad_scope with M.
Notation "x <- m ;; k" := (bind m (fun x => k))
  (at level 61, m at next level, right associativity) : monad_scope.
Notation "m ;; k" := (bind m (fun _ => k))
  (at level 61, right associativity) : monad_scope.

(** Field updates of the world. *)
Definition set_stdout (lines : list string) (w : world) : world :=
  {| disk := disk w; directories := directories w; artifacts := artifacts w;
     stdout := lines; figure := figure w |}.

Definition set_figure (fig : list draw) (w : world) : world :=
  {| disk := disk w; directories := directories w; artifacts := artifacts w;
     stdout := stdout w; figure := fig |}.

Definition set_artifacts (files : list (string * list draw)) (w : world) : world :=
  {| disk := disk w; directories := directories w; artifacts := files;
     stdout := stdout w; figure := figure w |}.

Definition set_directories (dirs : list string) (w : world) : world :=
  {| disk := disk w; directories := dirs; artifacts := artifacts w;
     stdout := stdout w; figure := figure w |}.

(** [print(line)]. *)
Definition print (line : string) : M unit :=
  fun w => (Ok tt, set_stdout (stdout w ++ [line]) w).

(** [plt.subplots(...)]: a new, empty current figure. *)
Definition plt_subplots : M unit :=
  fun w => (Ok tt, set_figure [] w).

(** A plotting call on the current figure. *)
Definition emit (d : draw) : M unit :=
  fun w => (Ok tt, set_figure (figure w ++ [d]) w).

(** [plt.savefig(path)]: the current figure stored under [path]. *)
Definition plt_savefig (path : string) : M unit :=
  fun w => (Ok tt, set_artifacts (artifacts w ++ [(path, figure w)]) w).

(** [plt.close()]. *)
Definition plt_close : M unit :=
  fun w => (Ok tt, set_figure [] w).

(** [os.makedirs(path, exist_ok=True)]. *)
Definition os_makedirs (path : string) : M unit :=
  fun w => (Ok tt, set_directories (if existsb (String.eqb path) (directories w)
                                    then directories w else directories w ++ [path]) w).

Definition os_path_exists (path : string) : M bool :=
  fun w => (Ok (match disk w path with Some _ => true | None => false end), w).

Fixpoint for_each {A : Type} (l : list A) (body : A -> M unit) : M unit :=
  match l with
  | [] => ret tt
  | a :: rest => (body a ;; for_each rest body)%M
  end.

Fixpoint map_res {A B : Type} (f : A -> res B) (l : list A) : res (list B) :=
  match l with
  | [] => Ok []
  | a :: rest => (let? b := f a in let? bs := map_res f rest in Ok (b :: bs))%res
  end.

(** * The program *)

Section Program.

(** The platform the script runs on: the C library's [localtime], as whether
    it can break a second count down and, when it can, the offset of the
    local zone from UTC in seconds at that second; and the shortest-repr
    printing of a float ([str(f)], and [format(f, ',')] when the flag is
    set). *)
Variable localtime_ok : Z -> bool.
Variable utc_offset : Z -> Z.
Variable float_repr : bool -> spec_float -> string.

(** [localtime] breaks down every second count whose year fits its [int]
    field, those up to [2 ^ 55] in magnitude among them. *)
Hypothesis localtime_ok_range : forall s, - 2 ^ 55 <= s <= 2 ^ 55 -> localtime_ok s = true.

(** A UTC offset is strictly between -24 h and +24 h. *)
Hypothesis utc_offset_range : forall s, -86400 < utc_offset s < 86400.

(** [str(x)] and [format(x, ',')]. *)
Definition format_general (grouped : bool) (x : pynum) : string :=
  match x with
  | PInt z => format_int grouped z
  | PFloat f => float_repr grouped f
  end.

(** The local wall-clock second count of the epoch second [s]: [localtime]
    fails with OSError where it cannot break the second count down, and a
    local time outside year 1 .. 9999 has no calendar fields in [datetime]
    and raises ValueError. *)
Definition local_second (s : Z) : res Z :=
  if localtime_ok s then
    let local := s + utc_offset s in
    if (local <? MIN_SECOND) || (MAX_SECOND <? local) then Raise ValueError
    else Ok local
  else Raise OSError.

(** The span [fromtimestamp] looks back over to detect a repeated local
    time. *)
Definition max_fold_seconds : Z := 86400.

(** [datetime.fromtimestamp(t)] on a float: the fraction is rounded to a
    microsecond, ties to even; a second count beyond the platform's [time_t]
    raises OverflowError; the local time is computed at the second itself,
    again a day earlier and, when the zone's offset dropped in between, at
    the second moved back by the drop (the fold detection, whose outcome
    the time axis does not use): each of these can raise. *)
Definition fromtimestamp (t : spec_float) : res datetime :=
  match f64_trunc t with
  | None =>
      match t with
      | S754_nan => Raise ValueError
      | _ => Raise OverflowError
      end
  | Some intpart =>
      let floatpart := f64_mul (f64_sub t (f64_of_Z intpart)) (f64_of_Z 1000000) in
      let us := match f64_round_half_even floatpart with
                | Some u => u
                | None => 0
                end in
      let '(sec, us) :=
        if 1000000 <=? us then (intpart + 1, us - 1000000)
        else if us <? 0 then (intpart - 1, us + 1000000)
        else (intpart, us) in
      if (sec <? - 2 ^ 63) || (2 ^ 63 - 1 <? sec) then Raise OverflowError
      else
        (let? local := local_second sec in
         let? probe := local_second (sec - max_fold_seconds) in
         let transition := local - probe - max_fold_seconds in
         let? _ := (if transition <? 0 then local_second (sec + transition) else Ok local) in
         Ok {| dt_second := local; dt_microsecond := us |})%res
  end.

(** [timestamp_to_datetime(ts)]: [datetime.fromtimestamp(ts / 1000)]. *)
Definition timestamp_to_datetime (ts : pynum) : res datetime :=
  (let? t := py_truediv ts (PInt 1000) in fromtimestamp t)%res.

(** ** matplotlib and numpy *)

(** A number of ordinary size: an integer below [2 ^ 62] in magnitude, or a
    float that is zero or of magnitude from [2 ^ (-62)] up to, not
    including, [2 ^ 62]. *)
Definition ordinary_f64 (f : spec_float) : Prop :=
  match f with
  | S754_zero _ => True
  | S754_finite _ m e => -61 <= Zdigits2 (Zpos m) + e <= 62
  | _ => False
  end.

Definition ordinary (x : pynum) : Prop :=
  match x with
  | PInt z => Z.abs z < 2 ^ 62
  | PFloat f => ordinary_f64 f
  end.

(** Pie sizes matplotlib can lay out: none negative, and a positive sum. *)
Definition pie_drawable (sizes : list pynum) : bool :=
  forallb (fun x => negb (py_lt x (PInt 0))) sizes &&
  match py_sum sizes with
  | Ok t => py_gt t (PInt 0)
  | Raise _ => false
  end.

(** The calls matplotlib is known to accept: the numbers are of ordinary
    size, the two coordinate lists of a line are of one length, and the
    sizes of a pie can be laid out. *)
Definition accepted (d : draw) : Prop :=
  match d with
  | Plot xs ys | FillBetween xs ys =>
      List.length xs = List.length ys /\ Forall ordinary ys
  | AxHLine y _ => ordinary y
  | Bar heights _ _ => Forall ordinary heights
  | Annotate _ y => ordinary y
  | Pie sizes _ => Forall ordinary sizes /\ pie_drawable sizes = true
  | AxVSpan _ _ _ _ | SetTitle _ => True
  end.

(** What matplotlib raises on a plotting call, if anything, and what numpy
    raises when it turns a list of numbers into an array and compares it
    with a constant. *)
Variable mpl_error : draw -> option exn.
Variable np_error : list pynum -> option exn.

Hypothesis mpl_accepts : forall d, accepted d -> mpl_error d = None.
Hypothesis np_accepts : forall ys, Forall ordinary ys -> np_error ys = None.

(** A plotting call on numbers of the document: recorded on the current
    figure unless matplotlib refuses it. *)
Definition plot_call (d : draw) : M unit :=
  fun w =>
    match mpl_error d with
    | None => (Ok tt, set_figure (figure w ++ [d]) w)
    | Some e => (Raise e, w)
    end.

(** [np.array(ys) > c], whose result the script does not use. *)
Definition np_greater (ys : list pynum) : M unit :=
  fun w =>
    match np_error ys with
    | None => (Ok tt, w)
    | Some e => (Raise e, w)
    end.

(** [ax.pie(sizes, labels=labels, autopct=...)]: unless matplotlib refuses
    the sizes, it calls the [autopct] function on the percentage of each
    wedge; the function multiplies the percentage, a float, by [scale], which
    raises OverflowError when [scale] is an integer beyond the float range
    (the texts it returns depend on matplotlib's percentages and are not
    recorded). *)
Definition ax_pie (sizes : list pynum) (labels : list string) (scale : res pynum) : M unit :=
  fun w =>
    match mpl_error (Pie sizes labels) with
    | Some e => (Raise e, w)
    | None =>
        match (let? total := scale in to_float total)%res with
        | Raise e => (Raise e, w)
        | Ok _ => (Ok tt, set_figure (figure w ++ [Pie sizes labels]) w)
        end
    end.

(** [bar.get_height()]: matplotlib stores the height as [(0 + v) - 0], which
    is [v] with a float minus zero turned into plus zero. *)
Definition bar_height (v : pynum) : pynum :=
  match v with
  | PFloat (S754_zero true) => PFloat (S754_zero false)
  | _ => v
  end.

(** ** create_price_chart *)

Definition regime_colors : list (string * string) :=
  [ ("CORE_SESSION", "#27ae60");
    ("SOFT_OPEN", "#f39c12");
    ("PRE_MARKET", "#3498db");
    ("AFTER_HOURS", "#9b59b6");
    ("OVERNIGHT", "#34495e");
    ("WEEKEND", "#95a5a6") ].

(** [d.get(key, default)]. *)
Fixpoint dict_get (d : list (string * string)) (key default : string) : string :=
  match d with
  | [] => default
  | (k, v) :: rest => if String.eqb k key then v else dict_get rest key default
  end.

(** One [axvspan] call of the regime loop: the two indices into
    [timestamps], the regime whose colour is used, and the legend label. *)
Record span : Type := {
  span_start : Z;
  span_end : Z;
  span_regime : string;
  span_label : option string }.

Definition regime_changed (regime : string) (prev_regime : option string) : bool :=
  match prev_regime with
  | None => true
  | Some p => negb (String.eqb regime p)
  end.

(** The loop over [enumerate(regimes)], from index [i] on, with the loop
    variables [prev_regime] and [start_idx]; [n] is [len(regimes)]. *)
Fixpoint regime_loop (n : Z) (regimes : list string) (i : Z)
  (prev_regime : option string) (start_idx : Z) : list span :=
  match regimes with
  | [] => []
  | regime :: rest =>
      if regime_changed regime prev_regime then
        match prev_regime with
        | Some p =>
            [ {| span_start := start_idx; span_end := i - 1; span_regime := p;
                 span_label := if i =? n - 1 then Some p else None |} ]
        | None => []
        end ++ regime_loop n rest (i + 1) (Some regime) i
      else regime_loop n rest (i + 1) prev_regime start_idx
  end.

Definition regime_spans (regimes : list string) : list span :=
  regime_loop (Z.of_nat (List.length regimes)) regimes 0 None 0.

Definition draw_span (timestamps : list datetime) (s : span) : M unit :=
  (t0 <- lift (py_index timestamps (span_start s)) ;;
   t1 <- lift (py_index timestamps (span_end s)) ;;
   emit (AxVSpan t0 t1 (dict_get regime_colors (span_regime s) "#cccccc") (span_label s)))%M.

Definition create_price_chart (data : document) (output_dir : string) : M unit :=
  (plt_subplots ;;
   let price_data := priceData data in
   timestamps <- lift (map_res (fun p => timestamp_to_datetime (price_timestamp p)) price_data) ;;
   let prices := map price price_data in
   let regimes := map regime price_data in
   plot_call (Plot timestamps prices) ;;
   for_each (regime_spans regimes) (draw_span timestamps) ;;
   initial_price <- lift (py_index prices 0) ;;
   shown <- lift (format_fixed false 2 initial_price) ;;
   plot_call (AxHLine initial_price (Some ("Initial: $" ++ shown))) ;;
   emit (SetTitle "AAPL Tokenized Stock Price Over Trading Week") ;;
   plt_savefig (path_join output_dir "price_chart.png") ;;
   plt_close ;;
   print "‚úÖ Created: price_chart.png")%M.

(** ** create_vpin_chart *)

Definition f64_lit (a b : Z) : pynum := PFloat (f64_of_quotient a b).

(** The loop over [range(len(timestamps))], from index [i] on: the index
    pair of each [axvspan] call; [n] is [len(timestamps)], and [vpins] holds
    [vpins[i]], [vpins[i+1]], ... *)
Fixpoint vpin_loop (n : Z) (vpins : list pynum) (i : Z) : list (Z * Z) :=
  match vpins with
  | [] => []
  | v :: rest =>
      (if py_gt v (f64_lit 5 10)
       then [ (Z.max 0 (i - 1), Z.min (n - 1) (i + 1)) ]
       else []) ++ vpin_loop n rest (i + 1)
  end.

Definition vpin_bands (vpins : list pynum) : list (Z * Z) :=
  vpin_loop (Z.of_nat (List.length vpins)) vpins 0.

Definition draw_band (timestamps : list datetime) (b : Z * Z) : M unit :=
  (t0 <- lift (py_index timestamps (fst b)) ;;
   t1 <- lift (py_index timestamps (snd b)) ;;
   emit (AxVSpan t0 t1 "red" None))%M.

Definition create_vpin_chart (data : document) (output_dir : string) : M unit :=
  (plt_subplots ;;
   let vpin_data := vpinData data in
   timestamps <- lift (map_res (fun p => timestamp_to_datetime (vpin_timestamp p)) vpin_data) ;;
   let vpins := map vpin vpin_data in
   plot_call (Plot timestamps vpins) ;;
   plot_call (FillBetween timestamps vpins) ;;
   emit (AxHLine (f64_lit 3 10) (Some "Elevated (30%)")) ;;
   emit (AxHLine (f64_lit 5 10) (Some "High Risk (50%)")) ;;
   emit (AxHLine (f64_lit 7 10) (Some "Extreme (70%)")) ;;
   np_greater vpins ;;
   for_each (vpin_bands vpins) (draw_band timestamps) ;;
   emit (SetTitle "VPIN (Order Flow Toxicity) Over Trading Week") ;;
   plt_savefig (path_join output_dir "vpin_chart.png") ;;
   plt_close ;;
   print "‚úÖ Created: vpin_chart.png")%M.

(** ** create_comparison_chart *)

(** The signed five-category vectors of the left panel. *)
Definition without_vals (without : scenario) : list pynum :=
  [ feesEarned without;
    py_neg (impermanentLoss without);
    py_neg (adverseSelectionLoss without);
    py_neg (gapLoss without);
    PInt 0 ].

Definition with_vals (with_prot : scenario) : list pynum :=
  [ feesEarned with_prot;
    py_neg (impermanentLoss with_prot);
    py_neg (adverseSelectionLoss with_prot);
    py_neg (gapLoss with_prot);
    gapAuctionGains with_prot ].

(** The value label of a bar of the left panel: the text shows the bar's
    height and stands at that height. *)
Definition annotate_height (v : pynum) : M unit :=
  (shown <- lift (format_fixed true 0 (bar_height v)) ;;
   emit (Annotate ("$" ++ shown) (bar_height v)))%M.

(** The value label of a bar of the right panel: the text shows the value
    itself and stands at the bar's height. *)
Definition annotate_value (v : pynum) : M unit :=
  (shown <- lift (format_fixed true 0 v) ;;
   emit (Annotate ("$" ++ shown) (bar_height v)))%M.

Definition net_color (v : pynum) : string :=
  if py_lt v (PInt 0) then "#e74c3c" else "#27ae60".

(** Lines 212 and 213. *)
Definition improvement_of (data : document) : res pynum :=
  py_sub (netPnL (withProtection data)) (netPnL (withoutProtection data)).

Definition improvement_pct_of (data : document) (improvement : pynum) : res pynum :=
  (let? ratio := py_truediv improvement (initialLPBalance (config data)) in
   py_mul (PFloat ratio) (PInt 100))%res.

Definition improvement_text (shown_improvement shown_pct : string) : string :=
  "üõ°Ô∏è +$" ++ shown_improvement ++ nl ++ "(" ++ shown_pct ++ "% of capital)".

Definition create_comparison_chart (data : document) (output_dir : string) : M unit :=
  (plt_subplots ;;
   let without := withoutProtection data in
   let with_prot := withProtection data in
   plot_call (Bar (without_vals without) ["#e74c3c"] (Some "Without Protection")) ;;
   plot_call (Bar (with_vals with_prot) ["#27ae60"] (Some "With StockShield")) ;;
   emit (SetTitle "LP P&L Component Breakdown") ;;
   emit (AxHLine (PInt 0) None) ;;
   for_each (without_vals without) annotate_height ;;
   for_each (with_vals with_prot) annotate_height ;;
   let values := [netPnL without; netPnL with_prot] in
   plot_call (Bar values (map net_color values) None) ;;
   emit (SetTitle "Total LP Performance Comparison") ;;
   emit (AxHLine (PInt 0) None) ;;
   for_each values annotate_value ;;
   improvement <- lift (improvement_of data) ;;
   improvement_pct <- lift (improvement_pct_of data improvement) ;;
   shown <- lift (format_fixed true 0 improvement) ;;
   shown_pct <- lift (format_fixed false 1 improvement_pct) ;;
   top <- lift (py_max values) ;;
   y <- lift (py_mul top (f64_lit 7 10)) ;;
   emit (Annotate (improvement_text shown shown_pct) y) ;;
   plt_savefig (path_join output_dir "comparison_chart.png") ;;
   plt_close ;;
   print "‚úÖ Created: comparison_chart.png")%M.

(** ** create_protection_value_pie *)

Definition protection_sizes (comp : comparison_data) : list pynum :=
  [ py_max2 (PInt 0) (feeImprovement comp);
    py_max2 (PInt 0) (adverseSelectionReduction comp);
    py_max2 (PInt 0) (gapProtectionValue comp) ].

Definition protection_labels : list string :=
  [ "Higher Fees" ++ nl ++ "(Dynamic Pricing)";
    "Adverse Selection" ++ nl ++ "Reduction";
    "Gap Auction" ++ nl ++ "Gains" ].

Definition protection_title (shown_total : string) : string :=
  "Sources of StockShield Protection Value" ++ nl ++ "(Total: $" ++ shown_total ++ ")".

Definition create_protection_value_pie (data : document) (output_dir : string) : M unit :=
  (plt_subplots ;;
   let comp := comparison data in
   let sizes := protection_sizes comp in
   total <- lift (py_sum sizes) ;;
   (if py_gt total (PInt 0) then ax_pie sizes protection_labels (Ok total) else ret tt) ;;
   shown <- lift (format_fixed true 0 total) ;;
   emit (SetTitle (protection_title shown)) ;;
   plt_savefig (path_join output_dir "protection_value_pie.png") ;;
   plt_close ;;
   print "‚úÖ Created: protection_value_pie.png")%M.

(** ** create_trade_distribution_chart *)

Definition informed_vol (trades : list trade) : res pynum :=
  py_sum (map volume (filter isInformed trades)).

Definition retail_vol (trades : list trade) : res pynum :=
  py_sum (map volume (filter (fun t => negb (isInformed t)) trades)).

Definition buy_vol (trades : list trade) : res pynum :=
  py_sum (map volume (filter isBuy trades)).

Definition sell_vol (trades : list trade) : res pynum :=
  py_sum (map volume (filter (fun t => negb (isBuy t)) trades)).

Definition create_trade_distribution_chart (data : document) (output_dir : string) : M unit :=
  (plt_subplots ;;
   let trades := tradeData data in
   informed <- lift (informed_vol trades) ;;
   retail <- lift (retail_vol trades) ;;
   ax_pie [informed; retail] ["Informed Traders"; "Retail Traders"]
          (py_sum [informed; retail]) ;;
   emit (SetTitle "Trading Volume by Trader Type") ;;
   buy <- lift (buy_vol trades) ;;
   sell <- lift (sell_vol trades) ;;
   ax_pie [buy; sell] ["Buy Orders"; "Sell Orders"] (py_sum [buy; sell]) ;;
   emit (SetTitle "Trading Volume by Direction") ;;
   plt_savefig (path_join output_dir "trade_distribution.png") ;;
   plt_close ;;
   print "‚úÖ Created: trade_distribution.png")%M.

(** ** main *)

Definition load_data (filepath : string) : M document :=
  fun w =>
    match disk w filepath with
    | Some r => (r, w)
    | None => (Raise LoadError, w)
    end.

Definition banner : string := "üìä StockShield Simulation Graph Generator" ++ nl.
Definition rule : string := str_repeat "‚ïê" 50.
Definition remediation : string :=
  "   Run the simulation first: npx ts-node src/yellow/e2e-simulation.ts".

(** [script_dir] is the directory of the script file. *)
Definition main (script_dir : string) : M unit :=
  (print banner ;;
   print rule ;;
   let data_path :=
     path_join (path_join script_dir "simulation_results") "simulation_data.json" in
   present <- os_path_exists data_path ;;
   if negb present then
     print ("‚ùå Data file not found: " ++ data_path) ;;
     print remediation
   else
     print (nl ++ "üìÇ Loading: " ++ data_path) ;;
     data <- load_data data_path ;;
     print ("   Config: " ++ format_general false (simulationDays (config data)) ++
            " days, $" ++ format_general true (initialLPBalance (config data)) ++ " initial") ;;
     let output_dir := path_join (path_join script_dir "simulation_results") "graphs" in
     os_makedirs output_dir ;;
     print (nl ++ "üìà Generating charts...") ;;
     create_price_chart data output_dir ;;
     create_vpin_chart data output_dir ;;
     create_comparison_chart data output_dir ;;
     create_protection_value_pie data output_dir ;;
     create_trade_distribution_chart data output_dir ;;
     print (nl ++ rule) ;;
     print ("‚úÖ All charts saved to: " ++ output_dir) ;;
     print (rule ++ nl))%M.

(** Binary64's [fexp]: the exponent of the last mantissa bit of a number of
    magnitude [2 ^ d]. *)
Definition fexp64 (d : Z) : Z := Z.max (d - 53) (-1074).

(** * Binary64 rounding: bounds

    The facts about Stdlib's rounding that the exception analysis needs: a
    conversion or quotient of moderate size does not overflow, and a rounded
    quotient stays within one unit of the exact one. *)

Lemma digits2_pos_size (p : positive) : digits2_pos p = Pos.size p.
Proof. induction p; simpl; congruence. Qed.

Lemma Zdigits2_nonneg (m : Z) : 0 <= Zdigits2 m.
Proof. destruct m; simpl; lia. Qed.

(** [m < 2 ^ Zdigits2 m] and, for a positive [m], [2 ^ (Zdigits2 m - 1) <= m]. *)
Lemma Zdigits2_upper (m : Z) : 0 <= m -> m < 2 ^ Zdigits2 m.
Proof.
  destruct m as [|p|p]; simpl; intros H; try lia.
  rewrite digits2_pos_size. 
  pose proof (Pos.size_gt p) as G.
  apply Pos2Z.pos_lt_pos in G. rewrite Pos2Z.inj_pow in G. exact G.
Qed.

Lemma Zdigits2_le (m k : Z) : 0 <= m -> 0 <= k -> m < 2 ^ k -> Zdigits2 m <= k.
Proof.
  intros Hm Hk H.
  destruct m as [|p|p]; simpl; try lia.
  rewrite digits2_pos_size.
  pose proof (Pos.size_le p) as G.
  apply Pos2Z.pos_le_pos in G. rewrite Pos2Z.inj_pow in G.
  change (Z.pos p~0) with (2 * Z.pos p) in G.
  destruct (Z_lt_le_dec k (Z.pos (Pos.size p))) as [L|L]; [|exact L].
  exfalso.
  assert (2 ^ (k + 1) <= 2 ^ Z.pos (Pos.size p)) by (apply Z.pow_le_mono_r; lia).
  rewrite Z.pow_add_r in H0 by lia. lia.
Qed.

Lemma shr_1_m (mrs : shr_record) : 0 <= shr_m mrs -> shr_m (shr_1 mrs) = shr_m mrs / 2.
Proof.
  destruct mrs as [m r s]; simpl; intros H.
  destruct m as [|p|p]; try lia; [reflexivity|].
  destruct p; simpl shr_m.
  - rewrite Pos2Z.inj_xI. apply Z.div_unique with 1; lia.
  - rewrite Pos2Z.inj_xO. apply Z.div_unique with 0; lia.
  - reflexivity.
Qed.

Lemma pow2_xO (p : positive) : 2 ^ Zpos p~0 = 2 ^ Zpos p * 2 ^ Zpos p.
Proof. rewrite Pos2Z.inj_xO, <- Z.pow_add_r by lia. f_equal; lia. Qed.

Lemma pow2_xI (p : positive) : 2 ^ Zpos p~1 = 2 * (2 ^ Zpos p * 2 ^ Zpos p).
Proof.
  rewrite Pos2Z.inj_xI, <- Z.pow_add_r by lia.
  replace (2 * Z.pos p + 1) with (Z.succ (Z.pos p + Z.pos p)) by lia.
  rewrite Z.pow_succ_r by lia. reflexivity.
Qed.

Lemma pow2_pos (k : Z) : 0 <= k -> 0 < 2 ^ k.
Proof. intros; apply Z.pow_pos_nonneg; lia. Qed.

Lemma iter_shr_1_m (p : positive) :
  forall mrs, 0 <= shr_m mrs ->
    shr_m (iter_pos shr_1 p mrs) = shr_m mrs / 2 ^ Zpos p.
Proof.
  induction p as [p IH|p IH|]; intros mrs H; simpl iter_pos.
  - assert (H1 : 0 <= shr_m (shr_1 mrs)) by (rewrite shr_1_m by assumption; apply Z.div_pos; lia).
    assert (H2 : 0 <= shr_m (iter_pos shr_1 p (shr_1 mrs)))
      by (rewrite IH by assumption; apply Z.div_pos; [assumption|apply pow2_pos; lia]).
    rewrite IH, IH, shr_1_m by assumption.
    pose proof (pow2_pos (Zpos p) ltac:(lia)).
    rewrite !Z.div_div by lia.
    rewrite pow2_xI. reflexivity.
  - assert (H2 : 0 <= shr_m (iter_pos shr_1 p mrs))
      by (rewrite IH by assumption; apply Z.div_pos; [assumption|apply pow2_pos; lia]).
    rewrite IH, IH by assumption.
    pose proof (pow2_pos (Zpos p) ltac:(lia)).
    rewrite Z.div_div by lia.
    rewrite pow2_xO. reflexivity.
  - rewrite shr_1_m by assumption. reflexivity.
Qed.


(** The exponent [shr_fexp] leaves rises to [fexp64] of the magnitude, and the
    mantissa loses the bits shifted out. *)
Lemma fexp64_eq (d : Z) : fexp 53 1024 d = fexp64 d.
Proof. reflexivity. Qed.

Lemma shr_fexp_spec (m e : Z) (l : location) :
  0 <= m ->
  let E := Z.max e (fexp64 (Zdigits2 m + e)) in
  snd (shr_fexp 53 1024 m e l) = E /\
  shr_m (fst (shr_fexp 53 1024 m e l)) = m / 2 ^ (E - e).
Proof.
  intros Hm E. unfold shr_fexp. rewrite fexp64_eq.
  assert (Hr : shr_m (shr_record_of_loc m l) = m) by (destruct l as [|[]]; reflexivity).
  unfold shr. destruct (fexp64 (Zdigits2 m + e) - e) as [|p|p] eqn:Hn; simpl fst; simpl snd.
  - split; [unfold E; lia|]. rewrite Hr. replace (E - e) with 0 by (unfold E; lia).
    rewrite Z.pow_0_r, Z.div_1_r. reflexivity.
  - split; [unfold E; lia|]. rewrite iter_shr_1_m by (rewrite Hr; assumption).
    rewrite Hr. f_equal. f_equal. unfold E; lia.
  - split; [unfold E; lia|]. rewrite Hr. replace (E - e) with 0 by (unfold E; lia).
    rewrite Z.pow_0_r, Z.div_1_r. reflexivity.
Qed.

Lemma round_nearest_even_bounds (m : Z) (l : location) :
  m <= round_nearest_even m l <= m + 1.
Proof. destruct l as [|[]]; simpl; try lia. destruct (Z.even m); lia. Qed.

(** What [binary_round_aux] returns on a non-negative mantissa: a zero, an
    infinity, or a finite float whose mantissa and exponent are bounded by
    the input's. *)
Lemma binary_round_aux_spec (s : bool) (m e : Z) (l : location) :
  0 <= m ->
  exists E1 R E2 M2,
    E1 = Z.max e (fexp64 (Zdigits2 m + e)) /\
    m / 2 ^ (E1 - e) <= R <= m / 2 ^ (E1 - e) + 1 /\
    E2 = Z.max E1 (fexp64 (Zdigits2 R + E1)) /\
    M2 = R / 2 ^ (E2 - E1) /\
    binary_round_aux 53 1024 s m e l =
      match M2 with
      | Z0 => S754_zero s
      | Zpos p => if E2 <=? 971 then S754_finite s p E2 else S754_infinity s
      | Zneg _ => S754_nan
      end.
Proof.
  intros Hm. unfold binary_round_aux.
  destruct (shr_fexp_spec m e l Hm) as [He1 Hm1].
  destruct (shr_fexp 53 1024 m e l) as [mrs1 e1]. simpl in He1, Hm1.
  set (R := round_nearest_even (shr_m mrs1) (loc_of_shr_record mrs1)).
  pose proof (round_nearest_even_bounds (shr_m mrs1) (loc_of_shr_record mrs1)) as HR.
  fold R in HR.
  assert (H0 : 0 <= shr_m mrs1).
  { rewrite Hm1. apply Z.div_pos; [assumption|apply pow2_pos; lia]. }
  assert (HR0 : 0 <= R) by lia.
  destruct (shr_fexp_spec R e1 loc_Exact HR0) as [He2 Hm2].
  destruct (shr_fexp 53 1024 R e1 loc_Exact) as [mrs2 e2]. simpl in He2, Hm2.
  exists e1, R, e2, (shr_m mrs2).
  subst e1. rewrite <- Hm1.
  split; [reflexivity|]. split; [exact HR|]. split; [exact He2|].
  split; [rewrite Hm2, He2; reflexivity|].
  reflexivity.
Qed.

Lemma pow2_split (a b : Z) : 0 <= a -> 0 <= b -> 2 ^ (a + b) = 2 ^ a * 2 ^ b.
Proof. intros; apply Z.pow_add_r; assumption. Qed.

Lemma div_pow2_lt (m k j : Z) : 0 <= j <= k -> m < 2 ^ k -> m / 2 ^ j < 2 ^ (k - j).
Proof.
  intros Hj H. pose proof (pow2_pos j ltac:(lia)).
  apply Z.div_lt_upper_bound; [lia|].
  rewrite <- pow2_split by lia. replace (j + (k - j)) with k by lia. exact H.
Qed.

(** No overflow below [2 ^ 1023]: the result is a zero or a finite float. *)
Lemma binary_round_aux_finite (s : bool) (m e : Z) (l : location) :
  0 <= m -> e <= 971 -> m < 2 ^ (1023 - e) ->
  binary_round_aux 53 1024 s m e l = S754_zero s \/
  exists p E, binary_round_aux 53 1024 s m e l = S754_finite s p E.
Proof.
  intros Hm He Hlt.
  destruct (binary_round_aux_spec s m e l Hm) as (E1 & R & E2 & M2 & HE1 & HR & HE2 & HM2 & Heq).
  rewrite Heq.
  assert (Hd : Zdigits2 m <= 1023 - e) by (apply Zdigits2_le; lia).
  assert (HE1b : e <= E1 <= 971) by (subst E1; unfold fexp64; lia).
  assert (Hm1 : m / 2 ^ (E1 - e) < 2 ^ (1023 - E1)).
  { replace (1023 - E1) with (1023 - e - (E1 - e)) by lia. apply div_pow2_lt; lia. }
  assert (Hm1' : 0 <= m / 2 ^ (E1 - e)) by (apply Z.div_pos; [lia|apply pow2_pos; lia]).
  assert (HR2 : R < 2 ^ (1024 - E1)).
  { replace (1024 - E1) with (Z.succ (1023 - E1)) by lia. rewrite Z.pow_succ_r by lia. lia. }
  assert (HdR : Zdigits2 R <= 1024 - E1) by (apply Zdigits2_le; lia).
  assert (HE2b : E1 <= E2 <= 971) by (subst E2; unfold fexp64; lia).
  assert (HM2' : 0 <= M2) by (subst M2; apply Z.div_pos; [lia|apply pow2_pos; lia]).
  destruct M2 as [|p|p]; [left; reflexivity| |lia].
  right. exists p, E2. destruct (Z.leb_spec E2 971); [reflexivity|lia].
Qed.

(** Below [2 ^ 53] the rounded value exceeds the exact one by less than one
    unit: [p * 2 ^ E <= m * 2 ^ e + 1], both sides scaled by [2 ^ (- e)]. *)
Lemma binary_round_aux_value (s : bool) (m e : Z) (l : location) :
  0 <= m -> e <= 0 -> m < 2 ^ (53 - e) ->
  binary_round_aux 53 1024 s m e l = S754_zero s \/
  exists p E, binary_round_aux 53 1024 s m e l = S754_finite s p E /\
              e <= E /\ Zpos p * 2 ^ (E - e) <= m + 2 ^ (- e).
Proof.
  intros Hm He Hlt.
  destruct (binary_round_aux_spec s m e l Hm) as (E1 & R & E2 & M2 & HE1 & HR & HE2 & HM2 & Heq).
  rewrite Heq.
  assert (Hd : Zdigits2 m <= 53 - e) by (apply Zdigits2_le; lia).
  assert (HE1b : e <= E1 <= 0) by (subst E1; unfold fexp64; lia).
  pose proof (pow2_pos (E1 - e) ltac:(lia)) as Hk.
  assert (Hm1 : m / 2 ^ (E1 - e) < 2 ^ (53 - E1)).
  { replace (53 - E1) with (53 - e - (E1 - e)) by lia. apply div_pow2_lt; lia. }
  assert (Hm1' : 0 <= m / 2 ^ (E1 - e)) by (apply Z.div_pos; lia).
  assert (HR2 : R < 2 ^ (54 - E1)).
  { replace (54 - E1) with (Z.succ (53 - E1)) by lia. rewrite Z.pow_succ_r by lia. lia. }
  assert (HdR : Zdigits2 R <= 54 - E1) by (apply Zdigits2_le; lia).
  assert (HE2b : E1 <= E2 <= 971) by (subst E2; unfold fexp64; lia).
  pose proof (pow2_pos (E2 - E1) ltac:(lia)) as Hj.
  assert (HM2' : 0 <= M2) by (subst M2; apply Z.div_pos; lia).
  destruct M2 as [|p|p]; [left; reflexivity| |lia].
  right. exists p, E2. destruct (Z.leb_spec E2 971); [|lia].
  split; [reflexivity|]. split; [lia|].
  replace (E2 - e) with ((E2 - E1) + (E1 - e)) by lia.
  rewrite pow2_split by lia.
  assert (A1 : Z.pos p * 2 ^ (E2 - E1) <= R).
  { rewrite HM2. rewrite Z.mul_comm. apply Z.mul_div_le. lia. }
  assert (A2 : m / 2 ^ (E1 - e) * 2 ^ (E1 - e) <= m).
  { rewrite Z.mul_comm. apply Z.mul_div_le. lia. }
  assert (A3 : 2 ^ (E1 - e) <= 2 ^ (- e)) by (apply Z.pow_le_mono_r; lia).
  nia.
Qed.

Lemma shl_align_spec (m : positive) (e e' : Z) :
  exists mz ez, shl_align m e e' = (mz, ez) /\ ez <= e /\
                (e' <= e -> ez = e') /\ Zpos mz = Zpos m * 2 ^ (e - ez).
Proof.
  unfold shl_align. destruct (e' - e) as [|d|d] eqn:Hd.
  - exists m, e. repeat split; try lia. rewrite Z.sub_diag; simpl; lia.
  - exists m, e. repeat split; try lia. rewrite Z.sub_diag; simpl; lia.
  - exists (Pos.iter xO m d), e'. repeat split; try lia.
    change (Pos.iter xO m d) with (shift_pos d m).
    rewrite shift_pos_correct, Z.pow_pos_fold.
    replace (e - e') with (Zpos d) by lia. lia.
Qed.

Lemma binary_round_finite (s : bool) (m : positive) :
  Zpos m < 2 ^ 1023 ->
  binary_round 53 1024 s m 0 = S754_zero s \/
  exists p E, binary_round 53 1024 s m 0 = S754_finite s p E.
Proof.
  intros H. unfold binary_round.
  destruct (shl_align_spec m 0 (fexp 53 1024 (Z.pos (digits2_pos m) + 0)))
    as (mz & ez & Heq & Hez & _ & Hmz).
  rewrite Heq. apply binary_round_aux_finite; try lia.
  rewrite Hmz. replace (1023 - ez) with (1023 + (0 - ez)) by lia.
  rewrite pow2_split by lia. pose proof (pow2_pos (0 - ez) ltac:(lia)). nia.
Qed.

(** [float(z)] is defined below [2 ^ 1023] in magnitude. *)
Lemma to_float_int_ok (z : Z) : Z.abs z < 2 ^ 1023 -> exists f, to_float (PInt z) = Ok f.
Proof.
  intros H. unfold to_float, f64_of_Z, binary_normalize.
  destruct z as [|m|m].
  - eexists; reflexivity.
  - destruct (binary_round_finite false m) as [E|(p & E' & E)]; [exact H| |];
      rewrite E; eexists; reflexivity.
  - destruct (binary_round_finite true m) as [E|(p & E' & E)]; [exact H| |];
      rewrite E; eexists; reflexivity.
Qed.

(** The quotient and exponent [SFdiv_core_binary] hands to the rounding, on
    two integers. *)
Lemma div_core_spec (a b : Z) :
  0 <= a -> 0 < b ->
  exists q e l, SFdiv_core_binary 53 1024 a 0 b 0 = (q, e, l) /\
                e <= 0 /\ q = (a * 2 ^ (- e)) / b.
Proof.
  intros Ha Hb. unfold SFdiv_core_binary.
  set (e' := Z.min (fexp 53 1024 (Zdigits2 a + 0 - (Zdigits2 b + 0))) (0 - 0)).
  assert (He' : e' <= 0) by (unfold e'; lia).
  assert (Hm : match 0 - 0 - e' with
               | 0 => a
               | Z.pos _ => Z.shiftl a (0 - 0 - e')
               | Z.neg _ => 0
               end = a * 2 ^ (- e')).
  { destruct (0 - 0 - e') as [|p|p] eqn:Hs; try lia.
    - replace (- e') with 0 by lia. simpl; lia.
    - rewrite Z.shiftl_mul_pow2 by lia. f_equal. f_equal. lia. }
  rewrite Hm.
  destruct (Z.div_eucl (a * 2 ^ (- e')) b) as [q r] eqn:Hde.
  exists q, e', (new_location b r).
  split; [reflexivity|]. split; [exact He'|].
  unfold Z.div. rewrite Hde. reflexivity.
Qed.

Lemma f64_of_quotient_finite (a b : Z) :
  Z.abs a < 2 ^ 1023 -> b <> 0 ->
  let s := xorb (a <? 0) (b <? 0) in
  f64_of_quotient a b = S754_zero s \/ exists p E, f64_of_quotient a b = S754_finite s p E.
Proof.
  intros Ha Hb s. unfold f64_of_quotient. fold s.
  destruct (div_core_spec (Z.abs a) (Z.abs b)) as (q & e & l & Heq & He & Hq); try lia.
  rewrite Heq.
  pose proof (pow2_pos (- e) ltac:(lia)) as Hp.
  assert (Hq0 : 0 <= q) by (subst q; apply Z.div_pos; nia).
  apply binary_round_aux_finite; try lia.
  replace (1023 - e) with (1023 + - e) by lia. rewrite pow2_split by lia.
  assert (q <= Z.abs a * 2 ^ (- e)).
  { subst q. apply Z.div_le_upper_bound; [lia|]. nia. }
  nia.
Qed.

(** Integer true division is defined once the dividend is below [2 ^ 1023]
    in magnitude and the divisor is not zero. *)
Lemma py_truediv_int_ok (a b : Z) :
  Z.abs a < 2 ^ 1023 -> b <> 0 -> exists f, py_truediv (PInt a) (PInt b) = Ok f.
Proof.
  intros Ha Hb. unfold py_truediv.
  destruct (Z.eqb_spec b 0); [contradiction|].
  destruct (f64_of_quotient_finite a b Ha Hb) as [E|(p & E' & E)];
    rewrite E; eexists; reflexivity.
Qed.

(** The quotient of a non-negative integer by a positive one, below
    [2 ^ 53]: a non-negative float whose integer part is at most one above
    the integer quotient. *)
Lemma f64_of_quotient_trunc (a b : Z) :
  0 <= a -> 0 < b -> a / b + 1 < 2 ^ 53 ->
  exists f v, f64_of_quotient a b = f /\ f64_trunc f = Some v /\ 0 <= v <= a / b + 1 /\
              (forall s, f <> S754_infinity s).
Proof.
  intros Ha Hb Hlt. unfold f64_of_quotient.
  assert (Hab : 0 <= a / b) by (apply Z.div_pos; lia).
  replace (a <? 0) with false by (symmetry; apply Z.ltb_ge; lia).
  replace (b <? 0) with false by (symmetry; apply Z.ltb_ge; lia).
  rewrite !Z.abs_eq by lia. simpl xorb.
  destruct (div_core_spec a b) as (q & e & l & Heq & He & Hq); try lia.
  rewrite Heq.
  pose proof (pow2_pos (- e) ltac:(lia)) as Hp.
  assert (Hq0 : 0 <= q) by (subst q; apply Z.div_pos; nia).
  assert (Hqu : q < (a / b + 1) * 2 ^ (- e)).
  { subst q. apply Z.div_lt_upper_bound; [lia|].
    pose proof (Z.mul_succ_div_gt a b Hb). nia. }
  assert (Hq53 : q < 2 ^ (53 - e)).
  { replace (53 - e) with (53 + - e) by lia. rewrite pow2_split by lia. nia. }
  destruct (binary_round_aux_value false q e l Hq0 He Hq53) as [E|(p & E' & E & HE & Hv)]; rewrite E.
  - exists (S754_zero false), 0.
    split; [reflexivity|]. split; [reflexivity|]. split; [lia|]. intros ? ?; discriminate.
  - eexists _, (if 0 <=? E' then Z.pos p * 2 ^ E' else Z.pos p / 2 ^ (- E')).
    split; [reflexivity|]. split; [reflexivity|]. split; [|intros ? ?; discriminate].
    destruct (Z.leb_spec 0 E').
    + split; [apply Z.mul_nonneg_nonneg; [lia|apply Z.pow_nonneg; lia]|].
      replace (E' - e) with (E' + - e) in Hv by lia. rewrite pow2_split in Hv by lia.
      assert (Z.pos p * 2 ^ E' < a / b + 2) by nia. lia.
    + pose proof (pow2_pos (- E') ltac:(lia)) as Hp'.
      split; [apply Z.div_pos; lia|].
      assert (Z.pos p / 2 ^ (- E') < a / b + 2); [|lia].
      apply Z.div_lt_upper_bound; [lia|].
      replace (- e) with ((- E') + (E' - e)) in Hv, Hqu by lia.
      rewrite pow2_split in Hv, Hqu by lia.
      pose proof (pow2_pos (E' - e) ltac:(lia)). nia.
Qed.

(** * The time normalizer *)

(** The largest millisecond timestamp the bound below covers: a date in
    year 9892, whatever the zone. *)
Definition MAX_TIMESTAMP_MS : Z := 250000000000000.

Lemma local_second_ok (s : Z) :
  -259200 <= s <= 250000000002 ->
  local_second s = Ok (s + utc_offset s) /\ s - 86400 < s + utc_offset s < s + 86400.
Proof.
  intros Hs. pose proof (utc_offset_range s) as Ho. unfold local_second.
  rewrite localtime_ok_range by (change (2 ^ 55) with 36028797018963968; lia).
  assert (H : (s + utc_offset s <? MIN_SECOND) || (MAX_SECOND <? s + utc_offset s) = false).
  { unfold MIN_SECOND, MAX_SECOND. apply orb_false_iff; split; apply Z.ltb_ge; lia. }
  rewrite H. split; [reflexivity|lia].
Qed.

(** From a second count not below zero and in range, the three local times
    [fromtimestamp] computes are all defined. *)
Lemma fromtimestamp_seconds (sec us : Z) :
  -1 <= sec <= 250000000002 ->
  (let? local := local_second sec in
   let? probe := local_second (sec - max_fold_seconds) in
   let transition := local - probe - max_fold_seconds in
   let? _ := (if transition <? 0 then local_second (sec + transition) else Ok local) in
   Ok {| dt_second := local; dt_microsecond := us |})%res
  = Ok {| dt_second := sec + utc_offset sec; dt_microsecond := us |}.
Proof.
  intros Hs. unfold max_fold_seconds.
  destruct (local_second_ok sec ltac:(lia)) as [-> H1]. cbn [res_bind].
  destruct (local_second_ok (sec - 86400) ltac:(lia)) as [-> H2]. cbn [res_bind].
  cbv zeta.
  destruct (sec + utc_offset sec - (sec - 86400 + utc_offset (sec - 86400)) - 86400 <? 0) eqn:E.
  - apply Z.ltb_lt in E.
    destruct (local_second_ok
                (sec + (sec + utc_offset sec - (sec - 86400 + utc_offset (sec - 86400)) - 86400))
                ltac:(lia)) as [-> _].
    reflexivity.
  - reflexivity.
Qed.

Lemma fromtimestamp_ok (f : spec_float) (v : Z) :
  f64_trunc f = Some v -> 0 <= v <= 250000000001 ->
  exists d, fromtimestamp f = Ok d.
Proof.
  intros Hv Hb. unfold fromtimestamp. rewrite Hv.
  set (us := match f64_round_half_even _ with Some u => u | None => 0 end).
  assert (Hsec : exists sec us',
    (if 1000000 <=? us then (v + 1, us - 1000000)
     else if us <? 0 then (v - 1, us + 1000000) else (v, us)) = (sec, us') /\
    v - 1 <= sec <= v + 1).
  { destruct (1000000 <=? us); [|destruct (us <? 0)]; eexists _, _; (split; [reflexivity|lia]). }
  destruct Hsec as (sec & us' & -> & Hs).
  assert (H1 : (sec <? - 2 ^ 63) || (2 ^ 63 - 1 <? sec) = false).
  { apply orb_false_iff; split; apply Z.ltb_ge; lia. }
  rewrite H1. rewrite fromtimestamp_seconds by lia. eexists; reflexivity.
Qed.

(** Every integer millisecond timestamp from 0 to [MAX_TIMESTAMP_MS] has a
    time axis point. *)
Lemma timestamp_to_datetime_ok (ts : Z) :
  0 <= ts <= MAX_TIMESTAMP_MS -> exists d, timestamp_to_datetime (PInt ts) = Ok d.
Proof.
  unfold MAX_TIMESTAMP_MS. intros Hts.
  assert (Hq : 0 <= ts / 1000 <= 250000000000).
  { split; [apply Z.div_pos; lia|]. apply Z.div_le_upper_bound; lia. }
  destruct (f64_of_quotient_trunc ts 1000) as (f & v & Hf & Hv & Hvb & Hinf); try lia.
  unfold timestamp_to_datetime, py_truediv. change (1000 =? 0) with false. cbv iota.
  rewrite Hf.
  destruct (fromtimestamp_ok f v Hv ltac:(lia)) as (d & Hd).
  exists d. destruct f; exact Hd.
Qed.

(** * The regime and VPIN loops *)

(** [range(n)]. *)
Definition range (n : nat) : list Z := map Z.of_nat (seq 0 n).

(** Index [i] is a breach: [vpins[i] > 0.5]. *)
Definition breach (vpins : list pynum) (i : Z) : bool :=
  match py_index vpins i with
  | Ok v => py_gt v (f64_lit 5 10)
  | Raise _ => false
  end.

(** The band around index [i] of a sequence of length [n]: one sample before
    and one after, clamped to the sequence. *)
Definition band_of (n i : Z) : Z * Z := (Z.max 0 (i - 1), Z.min (n - 1) (i + 1)).

(** The bands as the specification words them: one per breach index, in
    index order. *)
Definition spec_vpin_bands (vpins : list pynum) : list (Z * Z) :=
  map (band_of (Z.of_nat (List.length vpins)))
      (filter (breach vpins) (range (List.length vpins))).

Lemma py_index_app {A : Type} (pre : list A) (a : A) (rest : list A) :
  py_index (pre ++ a :: rest) (Z.of_nat (List.length pre)) = Ok a.
Proof.
  unfold py_index. rewrite length_app. cbn [List.length].
  destruct (Z.ltb_spec (Z.of_nat (List.length pre)) 0) as [H|H]; [lia|].
  replace ((0 <=? Z.of_nat (List.length pre)) &&
           (Z.of_nat (List.length pre) <? Z.of_nat (List.length pre + S (List.length rest))))
    with true by (symmetry; apply andb_true_iff; split; [apply Z.leb_le|apply Z.ltb_lt]; lia).
  rewrite Nat2Z.id, nth_error_app2, Nat.sub_diag by lia. reflexivity.
Qed.

Lemma vpin_loop_spec (n : Z) (rest : list pynum) :
  forall pre : list pynum,
    vpin_loop n rest (Z.of_nat (List.length pre)) =
    map (band_of n)
        (filter (breach (pre ++ rest))
                (map Z.of_nat (seq (List.length pre) (List.length rest)))).
Proof.
  induction rest as [|v rest IH]; intros pre; [reflexivity|].
  cbn [vpin_loop List.length seq map filter].
  unfold breach at 1. rewrite py_index_app.
  specialize (IH (pre ++ [v])%list).
  rewrite length_app, <- app_assoc in IH. cbn [List.length app] in IH.
  replace (Z.of_nat (List.length pre + 1)) with (Z.of_nat (List.length pre) + 1) in IH by lia.
  replace (List.length pre + 1)%nat with (S (List.length pre)) in IH by lia.
  rewrite IH.
  destruct (py_gt v (f64_lit 5 10)); reflexivity.
Qed.

Lemma vpin_bands_spec (vpins : list pynum) : vpin_bands vpins = spec_vpin_bands vpins.
Proof. exact (vpin_loop_spec (Z.of_nat (List.length vpins)) vpins []). Qed.

Lemma in_range (n : nat) (i : Z) : In i (range n) <-> 0 <= i < Z.of_nat n.
Proof.
  unfold range. rewrite in_map_iff. split.
  - intros (k & <- & Hk). apply in_seq in Hk. lia.
  - intros H. exists (Z.to_nat i). split; [lia|]. apply in_seq. lia.
Qed.

Lemma py_index_ok {A : Type} (l : list A) (i : Z) :
  0 <= i < Z.of_nat (List.length l) -> exists a, py_index l i = Ok a.
Proof.
  intros H. unfold py_index.
  destruct (Z.ltb_spec i 0); [lia|].
  replace ((0 <=? i) && (i <? Z.of_nat (List.length l)))
    with true by (symmetry; apply andb_true_iff; split; [apply Z.leb_le|apply Z.ltb_lt]; lia).
  destruct (nth_error l (Z.to_nat i)) eqn:E; [eexists; reflexivity|].
  apply nth_error_None in E. lia.
Qed.

(** Every band lies inside the sequence. *)
Lemma vpin_bands_in_range (vpins : list pynum) (b : Z * Z) :
  In b (vpin_bands vpins) ->
  0 <= fst b < Z.of_nat (List.length vpins) /\ 0 <= snd b < Z.of_nat (List.length vpins).
Proof.
  rewrite vpin_bands_spec. unfold spec_vpin_bands. rewrite in_map_iff.
  intros (i & <- & Hi). apply filter_In in Hi. destruct Hi as [Hi _].
  apply in_range in Hi. unfold band_of; cbn [fst snd]. lia.
Qed.

(** * Runs of the renderers *)

(** The world after a renderer has succeeded: one more artifact, one more
    line, no current figure. *)
Definition rendered (path : string) (fig : list draw) (line : string) (w : world) : world :=
  {| disk := disk w; directories := directories w;
     artifacts := artifacts w ++ [(path, fig)];
     stdout := stdout w ++ [line]; figure := [] |}.

(** [l[i]] for an index known to be valid. *)
Definition at_index (l : list datetime) (i : Z) : datetime :=
  match py_index l i with
  | Ok t => t
  | Raise _ => {| dt_second := 0; dt_microsecond := 0 |}
  end.

Definition band_draw (timestamps : list datetime) (b : Z * Z) : draw :=
  AxVSpan (at_index timestamps (fst b)) (at_index timestamps (snd b)) "red" None.

(** Symbolic execution of a computation on a world given as a record
    literal: the monad's operations and the field updates are evaluated,
    innermost first, up to the first result that is not known. *)
Ltac run_simpl :=
  cbv beta iota zeta delta
    [bind lift ret print emit plt_subplots plt_savefig plt_close os_makedirs
     os_path_exists load_data
     rendered set_stdout set_figure set_artifacts set_directories
     disk directories artifacts stdout figure fst snd];
  cbn [app].

Lemma plot_call_run (d : draw) (w : world) :
  accepted d -> plot_call d w = (Ok tt, set_figure (figure w ++ [d]) w).
Proof. intros H. unfold plot_call. rewrite (mpl_accepts d H). reflexivity. Qed.

Lemma np_greater_run (ys : list pynum) (w : world) :
  Forall ordinary ys -> np_greater ys w = (Ok tt, w).
Proof. intros H. unfold np_greater. rewrite (np_accepts ys H). reflexivity. Qed.

Lemma ax_pie_run (sizes : list pynum) (labels : list string) (scale : res pynum)
  (total : pynum) (f : spec_float) (w : world) :
  accepted (Pie sizes labels) -> scale = Ok total -> to_float total = Ok f ->
  ax_pie sizes labels scale w = (Ok tt, set_figure (figure w ++ [Pie sizes labels]) w).
Proof.
  intros H -> Hf. unfold ax_pie. rewrite (mpl_accepts _ H). cbn [res_bind]. rewrite Hf.
  reflexivity.
Qed.

Lemma for_each_emit {A : Type} (body : A -> M unit) (f : A -> draw) (l : list A) :
  (forall a w, In a l -> body a w = (Ok tt, set_figure (figure w ++ [f a]) w)) ->
  forall w, for_each l body w = (Ok tt, set_figure (figure w ++ map f l) w).
Proof.
  induction l as [|a l IH]; intros Hbody w.
  - destruct w; cbn. rewrite app_nil_r. reflexivity.
  - cbn [for_each]. unfold bind. rewrite Hbody by (left; reflexivity).
    rewrite IH by (intros; apply Hbody; right; assumption).
    destruct w; cbn. rewrite <- app_assoc. reflexivity.
Qed.

Lemma map_res_length {A B : Type} (f : A -> res B) (l : list A) :
  forall bs, map_res f l = Ok bs -> List.length bs = List.length l.
Proof.
  induction l as [|a l IH]; cbn; intros bs H.
  - injection H as <-. reflexivity.
  - destruct (f a); [|discriminate]. cbn in H.
    destruct (map_res f l); [|discriminate]. cbn in H.
    injection H as <-. cbn. f_equal. apply IH. reflexivity.
Qed.

Lemma draw_band_run (timestamps : list datetime) (b : Z * Z) (w : world) :
  0 <= fst b < Z.of_nat (List.length timestamps) ->
  0 <= snd b < Z.of_nat (List.length timestamps) ->
  draw_band timestamps b w = (Ok tt, set_figure (figure w ++ [band_draw timestamps b]) w).
Proof.
  intros H0 H1. unfold draw_band, band_draw, at_index, bind, lift, emit.
  destruct (py_index_ok timestamps (fst b) H0) as (t0 & ->).
  destruct (py_index_ok timestamps (snd b) H1) as (t1 & ->).
  reflexivity.
Qed.

(** The highlighting loop of the VPIN chart draws one band per entry of
    [vpin_bands], at the time points of its two indices, and never fails. *)
Lemma vpin_bands_run (vpins : list pynum) (timestamps : list datetime) (w : world) :
  List.length timestamps = List.length vpins ->
  for_each (vpin_bands vpins) (draw_band timestamps) w =
  (Ok tt, set_figure (figure w ++ map (band_draw timestamps) (vpin_bands vpins)) w).
Proof.
  intros Hlen. apply for_each_emit. intros b w' Hb.
  apply vpin_bands_in_range in Hb. rewrite <- Hlen in Hb.
  apply draw_band_run; tauto.
Qed.

Definition vpin_figure (timestamps : list datetime) (vpins : list pynum) : list draw :=
  [ Plot timestamps vpins;
    FillBetween timestamps vpins;
    AxHLine (f64_lit 3 10) (Some "Elevated (30%)");
    AxHLine (f64_lit 5 10) (Some "High Risk (50%)");
    AxHLine (f64_lit 7 10) (Some "Extreme (70%)") ] ++
  map (band_draw timestamps) (vpin_bands vpins) ++
  [ SetTitle "VPIN (Order Flow Toxicity) Over Trading Week" ].

Lemma create_vpin_chart_run (data : document) (output_dir : string) (w : world)
  (timestamps : list datetime) :
  map_res (fun p => timestamp_to_datetime (vpin_timestamp p)) (vpinData data) = Ok timestamps ->
  Forall ordinary (map vpin (vpinData data)) ->
  create_vpin_chart data output_dir w =
  (Ok tt, rendered (path_join output_dir "vpin_chart.png")
                   (vpin_figure timestamps (map vpin (vpinData data)))
                   "‚úÖ Created: vpin_chart.png" w).
Proof.
  intros Hts Hord. pose proof (map_res_length _ _ _ Hts) as Hlen.
  assert (Hacc : List.length timestamps = List.length (map vpin (vpinData data)) /\
                 Forall ordinary (map vpin (vpinData data)))
    by (split; [rewrite length_map; exact Hlen|exact Hord]).
  destruct w. unfold create_vpin_chart. run_simpl. rewrite Hts. run_simpl.
  rewrite (plot_call_run (Plot _ _)) by exact Hacc. run_simpl.
  rewrite (plot_call_run (FillBetween _ _)) by exact Hacc. run_simpl.
  rewrite np_greater_run by exact Hord. run_simpl.
  rewrite vpin_bands_run by (rewrite length_map; exact Hlen).
  run_simpl. reflexivity.
Qed.

Lemma regime_loop_bounds (n : Z) (regimes : list string) :
  forall (i : Z) (prev_regime : option string) (start_idx : Z) (s : span),
    0 <= i -> 0 <= start_idx -> (prev_regime <> None -> start_idx < i) ->
    In s (regime_loop n regimes i prev_regime start_idx) ->
    0 <= span_start s <= span_end s /\
    span_end s < i + Z.of_nat (List.length regimes) - 1.
Proof.
  induction regimes as [|regime rest IH]; intros i prev start s Hi Hs Hp Hin; [contradiction|].
  cbn [regime_loop] in Hin. cbn [List.length].
  destruct (regime_changed regime prev).
  - apply in_app_or in Hin. destruct Hin as [Hin|Hin].
    + destruct prev as [p|]; [|contradiction].
      destruct Hin as [<-|[]]. cbn [span_start span_end].
      assert (start < i) by (apply Hp; discriminate). lia.
    + apply IH in Hin; try lia; intros _; lia.
  - apply IH in Hin; try lia; intros H; specialize (Hp H); lia.
Qed.

(** Every span of the regime loop lies inside the sequence. *)
Lemma regime_spans_in_range (regimes : list string) (s : span) :
  In s (regime_spans regimes) ->
  0 <= span_start s < Z.of_nat (List.length regimes) /\
  0 <= span_end s < Z.of_nat (List.length regimes).
Proof.
  intros Hin. apply regime_loop_bounds in Hin; try lia; intros H; contradiction H; reflexivity.
Qed.

Definition span_draw (timestamps : list datetime) (s : span) : draw :=
  AxVSpan (at_index timestamps (span_start s)) (at_index timestamps (span_end s))
          (dict_get regime_colors (span_regime s) "#cccccc") (span_label s).

Lemma draw_span_run (timestamps : list datetime) (s : span) (w : world) :
  0 <= span_start s < Z.of_nat (List.length timestamps) ->
  0 <= span_end s < Z.of_nat (List.length timestamps) ->
  draw_span timestamps s w = (Ok tt, set_figure (figure w ++ [span_draw timestamps s]) w).
Proof.
  intros H0 H1. unfold draw_span, span_draw, at_index, bind, lift, emit.
  destruct (py_index_ok timestamps (span_start s) H0) as (t0 & ->).
  destruct (py_index_ok timestamps (span_end s) H1) as (t1 & ->).
  reflexivity.
Qed.

(** The shading loop of the price chart draws one span per entry of
    [regime_spans] and never fails. *)
Lemma regime_spans_run (regimes : list string) (timestamps : list datetime) (w : world) :
  List.length timestamps = List.length regimes ->
  for_each (regime_spans regimes) (draw_span timestamps) w =
  (Ok tt, set_figure (figure w ++ map (span_draw timestamps) (regime_spans regimes)) w).
Proof.
  intros Hlen. apply for_each_emit. intros s w' Hs.
  apply regime_spans_in_range in Hs. rewrite <- Hlen in Hs.
  apply draw_span_run; tauto.
Qed.

Definition price_figure (timestamps : list datetime) (prices : list pynum)
  (regimes : list string) (initial_price : pynum) (shown : string) : list draw :=
  [ Plot timestamps prices ] ++
  map (span_draw timestamps) (regime_spans regimes) ++
  [ AxHLine initial_price (Some ("Initial: $" ++ shown));
    SetTitle "AAPL Tokenized Stock Price Over Trading Week" ].

Lemma create_price_chart_run (data : document) (output_dir : string) (w : world)
  (timestamps : list datetime) (p0 : price_point) (rest : list price_point) (shown : string) :
  priceData data = p0 :: rest ->
  map_res (fun p => timestamp_to_datetime (price_timestamp p)) (priceData data) = Ok timestamps ->
  Forall ordinary (map price (priceData data)) ->
  format_fixed false 2 (price p0) = Ok shown ->
  create_price_chart data output_dir w =
  (Ok tt, rendered (path_join output_dir "price_chart.png")
                   (price_figure timestamps (map price (priceData data))
                                 (map regime (priceData data)) (price p0) shown)
                   "‚úÖ Created: price_chart.png" w).
Proof.
  intros Hdata Hts Hord Hshown. pose proof (map_res_length _ _ _ Hts) as Hlen.
  assert (Hacc : List.length timestamps = List.length (map price (priceData data)) /\
                 Forall ordinary (map price (priceData data)))
    by (split; [rewrite length_map; exact Hlen|exact Hord]).
  assert (Hp0 : ordinary (price p0)).
  { rewrite Hdata in Hord. cbn [map] in Hord. inversion Hord; assumption. }
  destruct w. unfold create_price_chart. run_simpl. rewrite Hts. run_simpl.
  rewrite (plot_call_run (Plot _ _)) by exact Hacc. run_simpl.
  rewrite regime_spans_run by (rewrite length_map; exact Hlen). run_simpl.
  rewrite Hdata. cbn [map].
  change (py_index (price p0 :: map price rest) 0) with (Ok (price p0)).
  cbv iota. rewrite Hshown. run_simpl.
  rewrite (plot_call_run (AxHLine _ _)) by exact Hp0. run_simpl.
  unfold price_figure. cbn [app]. rewrite <- !app_assoc. reflexivity.
Qed.

(** * Sums of clipped contributions *)

(** A float whose sign bit is clear (nan counted in): what a sum of
    non-negative terms can be. *)
Definition unsigned_f64 (f : spec_float) : Prop :=
  match f with
  | S754_zero s | S754_infinity s | S754_finite s _ _ => s = false
  | S754_nan => True
  end.

Definition unsigned_num (x : pynum) : Prop :=
  match x with
  | PInt z => 0 <= z
  | PFloat f => unsigned_f64 f
  end.

Definition positive_num (x : pynum) : bool := py_gt x (PInt 0).

Lemma binary_round_aux_unsigned (m e : Z) (l : location) :
  unsigned_f64 (binary_round_aux 53 1024 false m e l).
Proof.
  unfold binary_round_aux.
  destruct (shr_fexp 53 1024 m e l) as [mrs1 e1].
  destruct (shr_fexp 53 1024 _ e1 loc_Exact) as [mrs2 e2].
  destruct (shr_m mrs2); [reflexivity| |exact I].
  destruct (e2 <=? 1024 - 53); reflexivity.
Qed.

Lemma binary_normalize_unsigned (z e : Z) :
  0 <= z -> unsigned_f64 (binary_normalize 53 1024 z e false).
Proof.
  intros H. unfold binary_normalize. destruct z as [|m|m]; [exact eq_refl| |lia].
  unfold binary_round. destruct (shl_align m e _) as [mz ez].
  apply binary_round_aux_unsigned.
Qed.

Lemma f64_of_Z_unsigned (z : Z) : 0 <= z -> unsigned_f64 (f64_of_Z z).
Proof. apply binary_normalize_unsigned. Qed.

Lemma f64_add_unsigned (f g : spec_float) :
  unsigned_f64 f -> unsigned_f64 g -> unsigned_f64 (f64_add f g).
Proof.
  destruct f as [s|s| |s m e], g as [s'|s'| |s' m' e']; intros Hf Hg;
    cbn [unsigned_f64] in Hf, Hg; subst; try exact eq_refl; try exact I.
  unfold f64_add, SFadd. apply binary_normalize_unsigned. cbn [cond_Zopp]. lia.
Qed.

Lemma f64_add_zero_r (f : spec_float) : unsigned_f64 f -> f64_add f (S754_zero false) = f.
Proof. destruct f as [s|s| |s m e]; cbn; intros H; subst; reflexivity. Qed.

Lemma to_float_unsigned (x : pynum) (f : spec_float) :
  unsigned_num x -> to_float x = Ok f -> unsigned_f64 f.
Proof.
  destruct x as [z|g]; cbn [unsigned_num to_float]; intros H E.
  - pose proof (f64_of_Z_unsigned z H) as U.
    destruct (f64_of_Z z); cbn in E; try discriminate; injection E as <-; exact U.
  - injection E as <-. exact H.
Qed.

Lemma py_add_unsigned (a b c : pynum) :
  unsigned_num a -> unsigned_num b -> py_add a b = Ok c -> unsigned_num c.
Proof.
  intros Ha Hb. unfold py_add, py_arith.
  destruct a as [x|f], b as [y|g]; cbn [unsigned_num] in *.
  - intros E; injection E as <-. cbn; lia.
  - destruct (to_float (PInt x)) as [fx|] eqn:Ex; [|discriminate].
    cbn. intros E; injection E as <-. cbn.
    apply f64_add_unsigned; [eapply to_float_unsigned; [|exact Ex]; exact Ha|exact Hb].
  - destruct (to_float (PInt y)) as [fy|] eqn:Ey; [|discriminate].
    cbn. intros E; injection E as <-. cbn.
    apply f64_add_unsigned; [exact Ha|eapply to_float_unsigned; [|exact Ey]; exact Hb].
  - cbn. intros E; injection E as <-. cbn. apply f64_add_unsigned; assumption.
Qed.

Lemma py_add_zero_r (a : pynum) : unsigned_num a -> py_add a (PInt 0) = Ok a.
Proof.
  destruct a as [x|f]; cbn [unsigned_num]; intros H.
  - unfold py_add, py_arith. rewrite Z.add_0_r. reflexivity.
  - unfold py_add, py_arith.
    change (to_float (PInt 0)) with (@Ok spec_float (S754_zero false)).
    cbn [to_float res_bind]. rewrite f64_add_zero_r by exact H. reflexivity.
Qed.

Lemma compare_zero_f64_lt (f : spec_float) :
  compare_Z_f64 0 f = Some Lt -> unsigned_f64 f.
Proof.
  destruct f as [s|s| |s m e]; unfold compare_Z_f64; cbn [unsigned_f64]; intros H.
  - discriminate.
  - destruct s; [discriminate|reflexivity].
  - exact I.
  - destruct s; [exfalso|reflexivity].
    change (Some (if 0 <=? e then 0 ?= Z.neg m * 2 ^ e else 0 * 2 ^ (- e) ?= Z.neg m) = Some Lt) in H.
    destruct (0 <=? e).
    + assert (H' : 0 < Z.neg m * 2 ^ e) by (unfold Z.lt; congruence).
      pose proof (Z.pow_nonneg 2 e ltac:(lia)).
      assert (Z.neg m * 2 ^ e <= 0) by (apply Z.mul_nonpos_nonneg; lia). lia.
    + assert (H' : 0 * 2 ^ (- e) < Z.neg m) by (unfold Z.lt; congruence).
      lia.
Qed.

(** A number greater than zero is unsigned. *)
Lemma positive_num_unsigned (x : pynum) : positive_num x = true -> unsigned_num x.
Proof.
  unfold positive_num, py_gt, py_compare.
  destruct x as [z|f]; cbn [unsigned_num].
  - destruct (z ?= 0) eqn:E; try discriminate. intros _. apply Z.compare_gt_iff in E. lia.
  - intros H. apply compare_zero_f64_lt.
    destruct (compare_Z_f64 0 f) as [[| |]|]; cbn in H; try discriminate. reflexivity.
Qed.

Lemma py_max2_zero (x : pynum) :
  py_max2 (PInt 0) x = if positive_num x then x else PInt 0.
Proof. reflexivity. Qed.

Lemma py_max2_zero_unsigned (x : pynum) : unsigned_num (py_max2 (PInt 0) x).
Proof.
  rewrite py_max2_zero. destruct (positive_num x) eqn:E.
  - apply positive_num_unsigned; exact E.
  - cbn; lia.
Qed.

(** Clipping at zero and then summing is summing the positive items only. *)
Lemma py_sum_from_clipped (raw : list pynum) :
  forall acc, unsigned_num acc ->
    py_sum_from acc (map (py_max2 (PInt 0)) raw) = py_sum_from acc (filter positive_num raw).
Proof.
  induction raw as [|x raw IH]; intros acc Hacc; [reflexivity|].
  cbn [map filter py_sum_from]. rewrite py_max2_zero.
  destruct (positive_num x) eqn:E.
  - cbn [py_sum_from]. destruct (py_add acc x) as [acc'|] eqn:Ea; [|reflexivity].
    cbn [res_bind]. apply IH.
    eapply py_add_unsigned; [exact Hacc| |exact Ea]. apply positive_num_unsigned; exact E.
  - rewrite py_add_zero_r by exact Hacc. cbn [res_bind]. apply IH; exact Hacc.
Qed.

Lemma py_sum_from_unsigned (l : list pynum) :
  forall acc total, unsigned_num acc -> Forall unsigned_num l ->
    py_sum_from acc l = Ok total -> unsigned_num total.
Proof.
  induction l as [|x l IH]; intros acc total Hacc Hl E.
  - injection E as <-. exact Hacc.
  - cbn [py_sum_from] in E. inversion Hl as [|? ? Hx Hl']; subst.
    destruct (py_add acc x) as [acc'|] eqn:Ea; [|discriminate].
    cbn [res_bind] in E.
    eapply IH; [|exact Hl'|exact E]. exact (py_add_unsigned acc x acc' Hacc Hx Ea).
Qed.

(** * Numbers of moderate size *)

(** An integer below [2 ^ k] in magnitude, or any float. *)
Definition bounded (k : Z) (x : pynum) : Prop :=
  match x with
  | PInt z => Z.abs z < 2 ^ k
  | PFloat _ => True
  end.

(** The size the theorems on whole runs ask of the document's numbers: far
    inside the binary64 range, where no conversion to float overflows. *)
Definition moderate (x : pynum) : Prop := bounded 1000 x.

(** Not zero, as the division tests it. *)
Definition nonzero (x : pynum) : Prop :=
  match x with
  | PInt z => z <> 0
  | PFloat f => f64_is_zero f = false
  end.

(** The text of a number that formats without error. *)
Definition shown_fixed (grouped : bool) (places : nat) (x : pynum) : string :=
  match format_fixed grouped places x with
  | Ok s => s
  | Raise _ => EmptyString
  end.

Lemma bounded_weaken (j k : Z) (x : pynum) : j <= k -> bounded j x -> bounded k x.
Proof.
  intros Hjk. destruct x as [z|f]; cbn; [|trivial].
  intros H. destruct (Z_lt_le_dec j 0) as [Hj|Hj].
  - rewrite Z.pow_neg_r in H by lia. lia.
  - assert (2 ^ j <= 2 ^ k) by (apply Z.pow_le_mono_r; lia). lia.
Qed.

Lemma to_float_bounded (x : pynum) : bounded 1023 x -> exists f, to_float x = Ok f.
Proof.
  destruct x as [z|f]; cbn [bounded]; intros H.
  - apply to_float_int_ok; exact H.
  - eexists; reflexivity.
Qed.

Lemma format_fixed_bounded (grouped : bool) (places : nat) (x : pynum) :
  bounded 1023 x -> format_fixed grouped places x = Ok (shown_fixed grouped places x).
Proof.
  intros H. unfold shown_fixed, format_fixed.
  destruct (to_float_bounded x H) as (f & ->). reflexivity.
Qed.

Lemma py_neg_bounded (k : Z) (x : pynum) : bounded k x -> bounded k (py_neg x).
Proof. destruct x as [z|f]; cbn; [rewrite Z.abs_opp|]; trivial. Qed.

Lemma py_arith_bounded (int_op : Z -> Z -> Z) (float_op : spec_float -> spec_float -> spec_float)
  (k : Z) (a b : pynum) :
  0 <= k < 1023 ->
  (forall x y, Z.abs (int_op x y) <= Z.abs x + Z.abs y) ->
  bounded k a -> bounded k b ->
  exists c, py_arith int_op float_op a b = Ok c /\ bounded (k + 1) c.
Proof.
  intros Hk Hop Ha Hb. unfold py_arith.
  destruct (to_float_bounded a) as (fa & Efa); [apply (bounded_weaken k); [lia|exact Ha]|].
  destruct (to_float_bounded b) as (fb & Efb); [apply (bounded_weaken k); [lia|exact Hb]|].
  destruct a as [x|f], b as [y|g]; try rewrite Efa; try rewrite Efb;
    cbn [to_float res_bind]; eexists; (split; [reflexivity|]); cbn [bounded]; trivial.
  cbn [bounded] in Ha, Hb. specialize (Hop x y).
  rewrite Z.pow_add_r by lia. change (2 ^ 1) with 2. lia.
Qed.

Lemma py_sub_bounded (k : Z) (a b : pynum) :
  0 <= k < 1023 -> bounded k a -> bounded k b ->
  exists c, py_sub a b = Ok c /\ bounded (k + 1) c.
Proof. intros; apply py_arith_bounded; try assumption. intros; lia. Qed.

Lemma py_add_bounded (k : Z) (a b : pynum) :
  0 <= k < 1023 -> bounded k a -> bounded k b ->
  exists c, py_add a b = Ok c /\ bounded (k + 1) c.
Proof. intros; apply py_arith_bounded; try assumption. intros; lia. Qed.

(** Multiplication by a float never overflows into an exception. *)
Lemma py_mul_float_ok (a : pynum) (g : spec_float) :
  bounded 1023 a -> exists f, py_mul a (PFloat g) = Ok (PFloat f).
Proof.
  intros Ha. destruct (to_float_bounded a Ha) as (fa & Efa).
  unfold py_mul, py_arith. destruct a as [x|f]; [rewrite Efa|]; cbn; eexists; reflexivity.
Qed.

Lemma float_mul_int_ok (f : spec_float) (z : Z) :
  Z.abs z < 2 ^ 1023 -> exists g, py_mul (PFloat f) (PInt z) = Ok (PFloat g).
Proof.
  intros Hz. destruct (to_float_int_ok z Hz) as (fz & Efz).
  unfold py_mul, py_arith. cbn [to_float res_bind]. 
  change (match f64_of_Z z with
          | S754_infinity _ => Raise OverflowError
          | f0 => Ok f0
          end) with (to_float (PInt z)).
  rewrite Efz. eexists; reflexivity.
Qed.

Lemma Zdigits2_lower (m : Z) : 0 < m -> 2 ^ (Zdigits2 m - 1) <= m.
Proof.
  destruct m as [|p|p]; try lia. intros _. cbn [Zdigits2]. rewrite digits2_pos_size.
  pose proof (Pos.size_le p) as G.
  apply Pos2Z.pos_le_pos in G. rewrite Pos2Z.inj_pow in G.
  change (Z.pos p~0) with (2 * Z.pos p) in G.
  replace (Z.pos (Pos.size p)) with (Z.succ (Z.pos (Pos.size p) - 1)) in G by lia.
  rewrite Z.pow_succ_r in G by lia. lia.
Qed.

(** No underflow to zero above the least subnormal magnitude. *)
Lemma binary_round_aux_nonzero (s : bool) (m e : Z) (l : location) :
  0 < m -> -1073 <= Zdigits2 m + e ->
  f64_is_zero (binary_round_aux 53 1024 s m e l) = false.
Proof.
  intros Hm He.
  destruct (binary_round_aux_spec s m e l ltac:(lia)) as (E1 & R & E2 & M2 & HE1 & HR & HE2 & HM2 & Heq).
  rewrite Heq.
  pose proof (Zdigits2_lower m Hm) as Hd. pose proof (Zdigits2_nonneg m) as Hd0.
  assert (Hd1 : 1 <= Zdigits2 m).
  { destruct m as [|p|p]; try lia. cbn. lia. }
  assert (HE1b : 0 <= E1 - e <= Zdigits2 m - 1) by (subst E1; unfold fexp64; lia).
  assert (HM1 : 1 <= m / 2 ^ (E1 - e)).
  { apply Z.div_le_lower_bound; [apply pow2_pos; lia|].
    rewrite Z.mul_1_r. etransitivity; [|exact Hd]. apply Z.pow_le_mono_r; lia. }
  assert (HR1 : 0 < R) by lia.
  pose proof (Zdigits2_lower R HR1) as HdR.
  assert (HdR1 : 1 <= Zdigits2 R).
  { destruct R as [|p|p]; try lia. cbn. lia. }
  assert (HE1min : -1074 <= E1) by (subst E1; unfold fexp64; lia).
  assert (HE2b : 0 <= E2 - E1 <= Zdigits2 R - 1) by (subst E2; unfold fexp64; lia).
  assert (HM2' : 1 <= M2).
  { subst M2. apply Z.div_le_lower_bound; [apply pow2_pos; lia|].
    rewrite Z.mul_1_r. etransitivity; [|exact HdR]. apply Z.pow_le_mono_r; lia. }
  destruct M2 as [|p|p]; try lia.
  destruct (E2 <=? 971); reflexivity.
Qed.

(** [float(z)] is not zero for [z <> 0]. *)
Lemma to_float_int_nonzero (z : Z) (f : spec_float) :
  z <> 0 -> to_float (PInt z) = Ok f -> f64_is_zero f = false.
Proof.
  intros Hz. unfold to_float.
  assert (H : f64_is_zero (f64_of_Z z) = false).
  { unfold f64_of_Z, binary_normalize. destruct z as [|m|m]; [contradiction| |];
      unfold binary_round;
      destruct (shl_align_spec m 0 (fexp 53 1024 (Z.pos (digits2_pos m) + 0)))
        as (mz & ez & Heq & Hez & _ & Hmz);
      rewrite Heq; apply binary_round_aux_nonzero; try lia;
      pose proof (Zdigits2_upper (Z.pos mz) ltac:(lia)) as Hu;
      pose proof (Zdigits2_nonneg (Z.pos mz)) as Hn;
      set (d := Zdigits2 (Z.pos mz)) in *;
      destruct (Z_lt_le_dec d (- ez)) as [Hlt|Hge]; try lia;
      exfalso;
      assert (2 ^ d <= 2 ^ (- ez)) by (apply Z.pow_le_mono_r; lia);
      rewrite Hmz in Hu; replace (0 - ez) with (- ez) in Hu by lia;
      pose proof (pow2_pos (- ez) ltac:(lia)); nia. }
  destruct (f64_of_Z z); intros E; try discriminate; injection E as <-; exact H.
Qed.

(** True division is defined on moderate numbers with a divisor that is not
    zero. *)
Lemma py_truediv_ok (a b : pynum) :
  bounded 1023 a -> bounded 1023 b -> nonzero b -> exists f, py_truediv a b = Ok f.
Proof.
  intros Ha Hb Hnz.
  destruct (to_float_bounded a Ha) as (fa & Efa).
  destruct (to_float_bounded b Hb) as (fb & Efb).
  assert (Hfb : f64_is_zero fb = false).
  { destruct b as [y|g]; cbn [nonzero] in Hnz.
    - eapply to_float_int_nonzero; eassumption.
    - injection Efb as <-. exact Hnz. }
  destruct a as [x|f], b as [y|g].
  - apply py_truediv_int_ok; assumption.
  - unfold py_truediv. rewrite Efa, Efb. cbn [res_bind]. rewrite Hfb. eexists; reflexivity.
  - unfold py_truediv. rewrite Efa, Efb. cbn [res_bind]. rewrite Hfb. eexists; reflexivity.
  - unfold py_truediv. rewrite Efa, Efb. cbn [res_bind]. rewrite Hfb. eexists; reflexivity.
Qed.

(** * The comparison chart *)

(** The label of a bar of the left panel, and of a bar of the right panel. *)
Definition height_label (v : pynum) : draw :=
  Annotate ("$" ++ shown_fixed true 0 (bar_height v)) (bar_height v).

Definition value_label (v : pynum) : draw :=
  Annotate ("$" ++ shown_fixed true 0 v) (bar_height v).

Definition net_values (data : document) : list pynum :=
  [netPnL (withoutProtection data); netPnL (withProtection data)].

Definition comparison_bars (data : document) : list draw :=
  [ Bar (without_vals (withoutProtection data)) ["#e74c3c"] (Some "Without Protection");
    Bar (with_vals (withProtection data)) ["#27ae60"] (Some "With StockShield") ].

(** Everything the comparison chart draws after its two bar groups, up to
    the improvement note. *)
Definition comparison_labels (data : document) : list draw :=
  [ SetTitle "LP P&L Component Breakdown"; AxHLine (PInt 0) None ] ++
  map height_label (without_vals (withoutProtection data)) ++
  map height_label (with_vals (withProtection data)) ++
  [ Bar (net_values data) (map net_color (net_values data)) None;
    SetTitle "Total LP Performance Comparison";
    AxHLine (PInt 0) None ] ++
  map value_label (net_values data).

Definition comparison_figure (data : document) (note : string) (y : pynum) : list draw :=
  comparison_bars data ++ comparison_labels data ++ [ Annotate note y ].

Lemma ordinary_bounded (x : pynum) : ordinary x -> bounded 62 x.
Proof. destruct x as [z|f]; cbn; trivial. Qed.

Lemma ordinary_moderate (x : pynum) : ordinary x -> moderate x.
Proof. intros H. apply (bounded_weaken 62); [lia|apply ordinary_bounded; exact H]. Qed.

Lemma ordinary_1023 (x : pynum) : ordinary x -> bounded 1023 x.
Proof. intros H. apply (bounded_weaken 62); [lia|apply ordinary_bounded; exact H]. Qed.

Lemma py_neg_ordinary (x : pynum) : ordinary x -> ordinary (py_neg x).
Proof.
  destruct x as [z|f]; cbn [py_neg ordinary]; [rewrite Z.abs_opp; trivial|].
  destruct f; cbn; trivial.
Qed.

Lemma bar_height_bounded (k : Z) (x : pynum) : bounded k x -> bounded k (bar_height x).
Proof. destruct x as [z|[[]| | |]]; cbn; trivial. Qed.

Lemma annotate_height_run (v : pynum) (w : world) :
  bounded 1023 v ->
  annotate_height v w = (Ok tt, set_figure (figure w ++ [height_label v]) w).
Proof.
  intros H. unfold annotate_height, bind, lift, height_label.
  rewrite (format_fixed_bounded true 0 _ (bar_height_bounded _ _ H)). reflexivity.
Qed.

Lemma annotate_heights_run (vs : list pynum) (w : world) :
  Forall (bounded 1023) vs ->
  for_each vs annotate_height w = (Ok tt, set_figure (figure w ++ map height_label vs) w).
Proof.
  intros H. apply for_each_emit. intros v w' Hv.
  apply annotate_height_run. rewrite Forall_forall in H. apply H; exact Hv.
Qed.

Lemma annotate_value_run (v : pynum) (w : world) :
  bounded 1023 v ->
  annotate_value v w = (Ok tt, set_figure (figure w ++ [value_label v]) w).
Proof.
  intros H. unfold annotate_value, bind, lift, value_label.
  rewrite (format_fixed_bounded true 0 v H). reflexivity.
Qed.

Lemma annotate_values_run (vs : list pynum) (w : world) :
  Forall (bounded 1023) vs ->
  for_each vs annotate_value w = (Ok tt, set_figure (figure w ++ map value_label vs) w).
Proof.
  intros H. apply for_each_emit. intros v w' Hv.
  apply annotate_value_run. rewrite Forall_forall in H. apply H; exact Hv.
Qed.

(** The numbers of a scenario that the comparison chart plots are of
    ordinary size. *)
Definition scenario_ordinary (s : scenario) : Prop :=
  ordinary (feesEarned s) /\ ordinary (impermanentLoss s) /\
  ordinary (adverseSelectionLoss s) /\ ordinary (gapLoss s) /\ ordinary (netPnL s).

(** What the comparison chart needs of a document: plotted numbers of
    ordinary size, and a balance of moderate size that is not zero. *)
Definition comparison_inputs_ok (data : document) : Prop :=
  scenario_ordinary (withoutProtection data) /\
  scenario_ordinary (withProtection data) /\
  ordinary (gapAuctionGains (withProtection data)) /\
  moderate (initialLPBalance (config data)) /\
  nonzero (initialLPBalance (config data)).

Lemma moderate_1023 (x : pynum) : moderate x -> bounded 1023 x.
Proof. apply bounded_weaken; lia. Qed.

Lemma scenario_vectors_ordinary (data : document) :
  scenario_ordinary (withoutProtection data) ->
  scenario_ordinary (withProtection data) ->
  ordinary (gapAuctionGains (withProtection data)) ->
  Forall ordinary (without_vals (withoutProtection data)) /\
  Forall ordinary (with_vals (withProtection data)) /\
  Forall ordinary (net_values data).
Proof.
  intros (F1 & I1 & A1 & G1 & N1) (F2 & I2 & A2 & G2 & N2) GA.
  unfold without_vals, with_vals, net_values.
  repeat split; repeat constructor;
    try assumption; try (apply py_neg_ordinary; assumption).
Qed.

Lemma comparison_values_ordinary (data : document) :
  comparison_inputs_ok data ->
  Forall ordinary (without_vals (withoutProtection data)) /\
  Forall ordinary (with_vals (withProtection data)) /\
  Forall ordinary (net_values data).
Proof. intros (H1 & H2 & H3 & _). apply scenario_vectors_ordinary; assumption. Qed.

Lemma ordinary_all_1023 (l : list pynum) : Forall ordinary l -> Forall (bounded 1023) l.
Proof. apply Forall_impl. exact ordinary_1023. Qed.

Lemma create_comparison_chart_run (data : document) (output_dir : string) (w : world)
  (improvement improvement_pct y : pynum) (shown shown_pct : string) :
  Forall ordinary (without_vals (withoutProtection data)) ->
  Forall ordinary (with_vals (withProtection data)) ->
  Forall ordinary (net_values data) ->
  improvement_of data = Ok improvement ->
  improvement_pct_of data improvement = Ok improvement_pct ->
  format_fixed true 0 improvement = Ok shown ->
  format_fixed false 1 improvement_pct = Ok shown_pct ->
  py_mul (py_max2 (netPnL (withoutProtection data)) (netPnL (withProtection data)))
         (f64_lit 7 10) = Ok y ->
  create_comparison_chart data output_dir w =
  (Ok tt, rendered (path_join output_dir "comparison_chart.png")
                   (comparison_figure data (improvement_text shown shown_pct) y)
                   "‚úÖ Created: comparison_chart.png" w).
Proof.
  intros H1 H2 H3 Himp Hpct Hs Hsp Hy.
  destruct w. unfold create_comparison_chart. run_simpl.
  rewrite (plot_call_run (Bar _ _ _)) by exact H1. run_simpl.
  rewrite (plot_call_run (Bar _ _ _)) by exact H2. run_simpl.
  rewrite (annotate_heights_run _ _ (ordinary_all_1023 _ H1)). run_simpl.
  rewrite (annotate_heights_run _ _ (ordinary_all_1023 _ H2)). run_simpl.
  fold (net_values data).
  rewrite (plot_call_run (Bar _ _ _)) by exact H3. run_simpl.
  rewrite (annotate_values_run _ _ (ordinary_all_1023 _ H3)). run_simpl.
  rewrite Himp, Hpct, Hs, Hsp. unfold net_values at 1. cbn [py_max fold_left]. rewrite Hy.
  run_simpl.
  unfold comparison_figure, comparison_labels, comparison_bars. cbn [app].
  rewrite <- ?app_assoc. reflexivity.
Qed.

(** On plotted numbers of ordinary size with a balance that is not zero
    every step of the improvement annotation is defined. *)
Lemma improvement_defined (data : document) :
  comparison_inputs_ok data ->
  exists improvement ratio improvement_pct y,
    py_sub (netPnL (withProtection data)) (netPnL (withoutProtection data)) = Ok improvement /\
    py_truediv improvement (initialLPBalance (config data)) = Ok ratio /\
    py_mul (PFloat ratio) (PInt 100) = Ok improvement_pct /\
    bounded 1023 improvement /\ bounded 1023 improvement_pct /\
    py_mul (py_max2 (netPnL (withoutProtection data)) (netPnL (withProtection data)))
           (f64_lit 7 10) = Ok y.
Proof.
  intros ((F1 & I1 & A1 & G1 & N1) & (F2 & I2 & A2 & G2 & N2) & GA & Hb & Hnz).
  apply ordinary_moderate in N1, N2.
  destruct (py_sub_bounded 1000 _ _ ltac:(lia) N2 N1) as (imp & Himp & Hib).
  assert (Hib' : bounded 1023 imp) by (eapply bounded_weaken; [|exact Hib]; lia).
  destruct (py_truediv_ok imp _ Hib' (moderate_1023 _ Hb) Hnz) as (ratio & Hr).
  destruct (float_mul_int_ok ratio 100) as (pct & Hp).
  { change (Z.abs 100) with 100. apply Z.lt_trans with (2 ^ 7); [reflexivity|].
    apply Z.pow_lt_mono_r; lia. }
  assert (Hmax : bounded 1023 (py_max2 (netPnL (withoutProtection data))
                                       (netPnL (withProtection data)))).
  { unfold py_max2. destruct (py_gt _ _); apply moderate_1023; assumption. }
  destruct (py_mul_float_ok _ (f64_of_quotient 7 10) Hmax) as (y & Hy).
  exists imp, ratio, (PFloat pct), (PFloat y).
  repeat split; assumption.
Qed.

(** * The protection-value pie and the trade distribution chart *)

Definition raw_contributions (comp : comparison_data) : list pynum :=
  [feeImprovement comp; adverseSelectionReduction comp; gapProtectionValue comp].

(** What the protection-value chart holds when it is saved: the pie only
    when the clipped total is positive, and the title. *)
Definition protection_figure (comp : comparison_data) (total : pynum) : list draw :=
  (if py_gt total (PInt 0) then [Pie (protection_sizes comp) protection_labels] else []) ++
  [SetTitle (protection_title (shown_fixed true 0 total))].

Definition trade_figure (informed retail buy sell : pynum) : list draw :=
  [ Pie [informed; retail] ["Informed Traders"; "Retail Traders"];
    SetTitle "Trading Volume by Trader Type";
    Pie [buy; sell] ["Buy Orders"; "Sell Orders"];
    SetTitle "Trading Volume by Direction" ].

Lemma protection_sizes_map (comp : comparison_data) :
  protection_sizes comp = map (py_max2 (PInt 0)) (raw_contributions comp).
Proof. reflexivity. Qed.

Lemma py_gt_not_lt (a b : pynum) : py_gt a b = true -> py_lt a b = false.
Proof. unfold py_gt, py_lt. destruct (py_compare a b) as [[| |]|]; congruence. Qed.

Lemma py_gt_ge (a b : pynum) : py_gt a b = true -> py_ge a b = true.
Proof. unfold py_gt, py_ge. destruct (py_compare a b) as [[| |]|]; congruence. Qed.

(** A clipped size is never below zero. *)
Lemma clipped_not_negative (x : pynum) : py_lt (py_max2 (PInt 0) x) (PInt 0) = false.
Proof.
  rewrite py_max2_zero. destruct (positive_num x) eqn:E; [|reflexivity].
  apply py_gt_not_lt. exact E.
Qed.

Lemma clipped_ge_zero (x : pynum) : py_ge (py_max2 (PInt 0) x) (PInt 0) = true.
Proof.
  rewrite py_max2_zero. destruct (positive_num x) eqn:E; [|reflexivity].
  apply py_gt_ge. exact E.
Qed.

Lemma protection_pie_drawable (comp : comparison_data) (total : pynum) :
  py_sum (protection_sizes comp) = Ok total -> py_gt total (PInt 0) = true ->
  pie_drawable (protection_sizes comp) = true.
Proof.
  intros Hsum Hgt. unfold pie_drawable. rewrite Hsum, Hgt.
  unfold protection_sizes. cbn [forallb]. rewrite !clipped_not_negative. reflexivity.
Qed.

Lemma clipped_ordinary (x : pynum) : ordinary x -> ordinary (py_max2 (PInt 0) x).
Proof.
  intros H. unfold py_max2. destruct (py_gt x (PInt 0)); [exact H|exact eq_refl].
Qed.

Lemma protection_sizes_ordinary (comp : comparison_data) :
  Forall ordinary (raw_contributions comp) -> Forall ordinary (protection_sizes comp).
Proof.
  intros H. rewrite protection_sizes_map. apply Forall_map.
  eapply Forall_impl; [|exact H]. exact clipped_ordinary.
Qed.

(** The renderer on a clipped total that is not positive: no pie. *)
Lemma create_protection_value_pie_run_flat (data : document) (output_dir : string)
  (w : world) (total : pynum) :
  py_sum (protection_sizes (comparison data)) = Ok total ->
  py_gt total (PInt 0) = false ->
  bounded 1023 total ->
  create_protection_value_pie data output_dir w =
  (Ok tt, rendered (path_join output_dir "protection_value_pie.png")
                   [SetTitle (protection_title (shown_fixed true 0 total))]
                   "‚úÖ Created: protection_value_pie.png" w).
Proof.
  intros Hsum Hgt Hb.
  destruct w. unfold create_protection_value_pie. run_simpl.
  rewrite Hsum. rewrite (format_fixed_bounded true 0 total Hb). rewrite Hgt.
  run_simpl. reflexivity.
Qed.

(** The renderer on a positive clipped total of sizes of ordinary size: the
    pie of the clipped sizes, then the title. *)
Lemma create_protection_value_pie_run_pie (data : document) (output_dir : string)
  (w : world) (total : pynum) :
  py_sum (protection_sizes (comparison data)) = Ok total ->
  py_gt total (PInt 0) = true ->
  Forall ordinary (protection_sizes (comparison data)) ->
  bounded 1023 total ->
  create_protection_value_pie data output_dir w =
  (Ok tt, rendered (path_join output_dir "protection_value_pie.png")
                   [Pie (protection_sizes (comparison data)) protection_labels;
                    SetTitle (protection_title (shown_fixed true 0 total))]
                   "‚úÖ Created: protection_value_pie.png" w).
Proof.
  intros Hsum Hgt Hord Hb.
  destruct (to_float_bounded total Hb) as (f & Hf).
  assert (Hacc : accepted (Pie (protection_sizes (comparison data)) protection_labels))
    by (split; [exact Hord|exact (protection_pie_drawable _ _ Hsum Hgt)]).
  destruct w. unfold create_protection_value_pie. run_simpl.
  rewrite Hsum. rewrite (format_fixed_bounded true 0 total Hb). rewrite Hgt.
  rewrite (ax_pie_run _ _ _ total f _ Hacc eq_refl Hf). run_simpl. reflexivity.
Qed.

Lemma create_protection_value_pie_run (data : document) (output_dir : string) (w : world)
  (total : pynum) :
  Forall ordinary (raw_contributions (comparison data)) ->
  py_sum (protection_sizes (comparison data)) = Ok total ->
  bounded 1023 total ->
  create_protection_value_pie data output_dir w =
  (Ok tt, rendered (path_join output_dir "protection_value_pie.png")
                   (protection_figure (comparison data) total)
                   "‚úÖ Created: protection_value_pie.png" w).
Proof.
  intros Hraw Hsum Hb. unfold protection_figure.
  destruct (py_gt total (PInt 0)) eqn:Hgt.
  - apply create_protection_value_pie_run_pie; try assumption.
    apply protection_sizes_ordinary; exact Hraw.
  - apply create_protection_value_pie_run_flat; assumption.
Qed.

Lemma protection_sizes_unsigned (comp : comparison_data) :
  Forall unsigned_num (protection_sizes comp).
Proof. unfold protection_sizes. repeat constructor; apply py_max2_zero_unsigned. Qed.

Lemma protection_total_unsigned (comp : comparison_data) (total : pynum) :
  py_sum (protection_sizes comp) = Ok total -> unsigned_num total.
Proof.
  intros H. eapply py_sum_from_unsigned; [| |exact H].
  - cbn; lia.
  - apply protection_sizes_unsigned.
Qed.

Lemma compare_zero_finite (s : bool) (m : positive) (e : Z) :
  compare_Z_f64 0 (S754_finite s m e) <> Some Eq.
Proof.
  unfold compare_Z_f64. cbv zeta. intros H.
  destruct (Z.leb_spec 0 e) as [He|He].
  - assert (H' : 0 = (if s then Z.neg m else Z.pos m) * 2 ^ e) by (apply Z.compare_eq; congruence).
    pose proof (pow2_pos e He). destruct s; nia.
  - assert (H' : 0 * 2 ^ (- e) = (if s then Z.neg m else Z.pos m)) by (apply Z.compare_eq; congruence).
    destruct s; lia.
Qed.

(** A clipped total equal to zero is the integer 0 or the float 0.0, and
    prints as [0]. *)
Lemma zero_total_shown (total : pynum) :
  unsigned_num total -> py_compare total (PInt 0) = Some Eq ->
  bounded 1023 total /\ shown_fixed true 0 total = "0" /\ py_gt total (PInt 0) = false.
Proof.
  intros Hu Hc.
  assert (Hgt : py_gt total (PInt 0) = false) by (unfold py_gt; rewrite Hc; reflexivity).
  destruct total as [z|f]; cbn [py_compare unsigned_num] in Hu, Hc.
  - assert (z = 0) by (apply Z.compare_eq; congruence). subst z.
    repeat split; try reflexivity; exact Hgt.
  - destruct f as [s|s| |s m e]; cbn [unsigned_f64] in Hu; subst.
    + repeat split; try reflexivity; exact Hgt.
    + cbn in Hc. discriminate.
    + cbn in Hc. discriminate.
    + exfalso. destruct (compare_Z_f64 0 (S754_finite false m e)) as [c|] eqn:E;
        [|discriminate].
      destruct c; cbn [option_map CompOpp] in Hc; try discriminate.
      exact (compare_zero_finite _ _ _ E).
Qed.

Lemma protection_sizes_bounded (comp : comparison_data) :
  Forall moderate (raw_contributions comp) -> Forall (bounded 1000) (protection_sizes comp).
Proof.
  intros H. rewrite protection_sizes_map. apply Forall_map.
  eapply Forall_impl; [|exact H]. intros x Hx.
  unfold py_max2. destruct (py_gt x (PInt 0)); [exact Hx|exact eq_refl].
Qed.

(** The clipped total of three contributions of ordinary size is defined and
    far from the float range's end. *)
Lemma protection_total_defined (comp : comparison_data) :
  Forall ordinary (raw_contributions comp) ->
  exists total, py_sum (protection_sizes comp) = Ok total /\ bounded 1023 total.
Proof.
  intros H. apply (Forall_impl _ ordinary_moderate) in H.
  apply protection_sizes_bounded in H.
  unfold protection_sizes in *. 
  inversion H as [|s1 ? B1 H1]; subst. inversion H1 as [|s2 ? B2 H2]; subst.
  inversion H2 as [|s3 ? B3 H3]; subst. clear H H1 H2 H3.
  unfold py_sum. cbn [py_sum_from].
  destruct (py_add_bounded 1000 (PInt 0) _ ltac:(lia) (eq_refl : bounded 1000 (PInt 0)) B1)
    as (c1 & -> & C1). cbn [res_bind].
  destruct (py_add_bounded 1001 c1 _ ltac:(lia) C1 (bounded_weaken 1000 1001 _ ltac:(lia) B2))
    as (c2 & -> & C2). cbn [res_bind].
  destruct (py_add_bounded 1002 c2 _ ltac:(lia) C2 (bounded_weaken 1000 1002 _ ltac:(lia) B3))
    as (c3 & -> & C3). cbn [res_bind].
  exists c3. split; [reflexivity|]. eapply bounded_weaken; [|exact C3]. lia.
Qed.

(** The sum of two numbers of ordinary size is defined and converts to a
    float: the product in the [autopct] function of a two-wedge pie is
    defined. *)
Lemma pair_sum_defined (a b : pynum) :
  ordinary a -> ordinary b ->
  exists t f, py_sum [a; b] = Ok t /\ to_float t = Ok f.
Proof.
  intros Ha Hb. apply ordinary_bounded in Ha, Hb.
  unfold py_sum. cbn [py_sum_from].
  destruct (py_add_bounded 62 (PInt 0) a ltac:(lia) (eq_refl : bounded 62 (PInt 0)) Ha)
    as (c1 & -> & C1). cbn [res_bind].
  destruct (py_add_bounded 63 c1 b ltac:(lia) C1 (bounded_weaken 62 63 _ ltac:(lia) Hb))
    as (c2 & -> & C2). cbn [res_bind].
  destruct (to_float_bounded c2 (bounded_weaken 64 1023 _ ltac:(lia) C2)) as (f & Hf).
  exists c2, f. split; [reflexivity|exact Hf].
Qed.

Lemma pair_pie_run (a b : pynum) (labels : list string) (w : world) :
  ordinary a -> ordinary b -> pie_drawable [a; b] = true ->
  ax_pie [a; b] labels (py_sum [a; b]) w =
  (Ok tt, set_figure (figure w ++ [Pie [a; b] labels]) w).
Proof.
  intros Ha Hb Hp. destruct (pair_sum_defined a b Ha Hb) as (t & f & Ht & Hf).
  apply (ax_pie_run _ _ _ t f); [|exact Ht|exact Hf].
  split; [repeat constructor; assumption|exact Hp].
Qed.

Lemma create_trade_distribution_chart_run (data : document) (output_dir : string) (w : world)
  (informed retail buy sell : pynum) :
  informed_vol (tradeData data) = Ok informed ->
  retail_vol (tradeData data) = Ok retail ->
  buy_vol (tradeData data) = Ok buy ->
  sell_vol (tradeData data) = Ok sell ->
  Forall ordinary [informed; retail; buy; sell] ->
  pie_drawable [informed; retail] = true ->
  pie_drawable [buy; sell] = true ->
  create_trade_distribution_chart data output_dir w =
  (Ok tt, rendered (path_join output_dir "trade_distribution.png")
                   (trade_figure informed retail buy sell)
                   "‚úÖ Created: trade_distribution.png" w).
Proof.
  intros Hi Hr Hb Hs Hord Hp1 Hp2.
  inversion Hord as [|? ? O1 Hord1]; subst. inversion Hord1 as [|? ? O2 Hord2]; subst.
  inversion Hord2 as [|? ? O3 Hord3]; subst. inversion Hord3 as [|? ? O4 _]; subst.
  destruct w. unfold create_trade_distribution_chart. run_simpl.
  rewrite Hi, Hr. rewrite (pair_pie_run _ _ _ _ O1 O2 Hp1). run_simpl.
  rewrite Hb, Hs. rewrite (pair_pie_run _ _ _ _ O3 O4 Hp2). run_simpl. reflexivity.
Qed.

(** * Volume splits *)

(** [sum(t['volume'] for t in trades)]: the grand total the splits are
    checked against. *)
Definition total_vol (trades : list trade) : res pynum := py_sum (map volume trades).

(** [a == b] on numbers. *)
Definition py_eq (a b : pynum) : bool :=
  match py_compare a b with
  | Some Eq => true
  | _ => false
  end.

(** The cross-check of the two splits against the grand total: every sum is
    defined, and [informed + retail == buy + sell == total]. *)
Definition cross_check (trades : list trade) : Prop :=
  exists informed retail buy sell by_type by_direction total,
    informed_vol trades = Ok informed /\ retail_vol trades = Ok retail /\
    buy_vol trades = Ok buy /\ sell_vol trades = Ok sell /\
    py_add informed retail = Ok by_type /\ py_add buy sell = Ok by_direction /\
    total_vol trades = Ok total /\
    py_eq by_type by_direction = true /\ py_eq by_type total = true.

Definition int_volume (t : trade) : Prop := exists z, volume t = PInt z.

(** The integer value of an integer volume. *)
Definition int_of (x : pynum) : Z :=
  match x with
  | PInt z => z
  | PFloat _ => 0
  end.

Definition int_sum (l : list pynum) : Z := fold_right (fun x s => int_of x + s) 0 l.

Lemma py_sum_from_ints (l : list pynum) :
  Forall (fun x => exists z, x = PInt z) l ->
  forall acc, py_sum_from (PInt acc) l = Ok (PInt (acc + int_sum l)).
Proof.
  induction 1 as [|x l (z & ->) _ IH]; intros acc; cbn [py_sum_from int_sum fold_right].
  - rewrite Z.add_0_r. reflexivity.
  - unfold py_add, py_arith. cbn [res_bind]. rewrite IH. cbn [int_of]. do 2 f_equal.
    fold (int_sum l). lia.
Qed.

Lemma int_volumes_filter (p : trade -> bool) (trades : list trade) :
  Forall int_volume trades ->
  Forall (fun x => exists z, x = PInt z) (map volume (filter p trades)).
Proof.
  intros H. apply Forall_map. apply Forall_forall. intros t Ht.
  apply filter_In in Ht. rewrite Forall_forall in H. apply H. tauto.
Qed.

Lemma int_sum_split (p : trade -> bool) (trades : list trade) :
  int_sum (map volume (filter p trades)) +
  int_sum (map volume (filter (fun t => negb (p t)) trades)) =
  int_sum (map volume trades).
Proof.
  induction trades as [|t trades IH]; [reflexivity|].
  unfold int_sum in *. cbn [filter map]. destruct (p t); cbn [negb map fold_right]; lia.
Qed.

Lemma py_eq_int_refl (z : Z) : py_eq (PInt z) (PInt z) = true.
Proof. unfold py_eq, py_compare. rewrite Z.compare_refl. reflexivity. Qed.

Lemma py_add_zero_l (a : pynum) : unsigned_num a -> py_add (PInt 0) a = Ok a.
Proof.
  destruct a as [x|f]; cbn [unsigned_num]; intros H; [reflexivity|].
  unfold py_add, py_arith.
  change (to_float (PInt 0)) with (@Ok spec_float (S754_zero false)).
  cbn [to_float res_bind].
  destruct f as [s|s| |s m e]; cbn [unsigned_f64] in H; subst; reflexivity.
Qed.

(** A pie of one positive size and a zero can be drawn. *)
Lemma pie_drawable_single (v : pynum) :
  positive_num v = true ->
  pie_drawable [v; PInt 0] = true /\ pie_drawable [PInt 0; v] = true.
Proof.
  intros Hv. pose proof (positive_num_unsigned v Hv) as Hu.
  pose proof (py_gt_not_lt _ _ Hv) as Hlt.
  unfold pie_drawable, py_sum. cbn [forallb py_sum_from]. rewrite Hlt.
  change (py_lt (PInt 0) (PInt 0)) with false.
  change (py_add (PInt 0) (PInt 0)) with (Ok (PInt 0)).
  rewrite (py_add_zero_l v Hu). cbn [res_bind negb andb].
  rewrite (py_add_zero_r v Hu). cbn [res_bind]. rewrite (py_add_zero_l v Hu).
  split; exact Hv.
Qed.

(** The four volume sums of a single trade of positive volume of ordinary
    size. *)
Lemma single_trade_volumes (t : trade) :
  positive_num (volume t) = true -> ordinary (volume t) ->
  exists informed retail buy sell,
    informed_vol [t] = Ok informed /\ retail_vol [t] = Ok retail /\
    buy_vol [t] = Ok buy /\ sell_vol [t] = Ok sell /\
    Forall ordinary [informed; retail; buy; sell] /\
    pie_drawable [informed; retail] = true /\ pie_drawable [buy; sell] = true.
Proof.
  intros Hv Ho. pose proof (positive_num_unsigned _ Hv) as Hu.
  destruct (pie_drawable_single _ Hv) as [P1 P2].
  assert (O0 : ordinary (PInt 0)) by exact eq_refl.
  unfold informed_vol, retail_vol, buy_vol, sell_vol, py_sum.
  cbn [filter]. destruct (isInformed t), (isBuy t);
    cbn [negb map py_sum_from]; rewrite (py_add_zero_l _ Hu); cbn [res_bind];
    eexists _, _, _, _; repeat split; try assumption; repeat constructor; assumption.
Qed.

(** * Runs of main *)

Definition data_path_of (script_dir : string) : string :=
  path_join (path_join script_dir "simulation_results") "simulation_data.json".

Definition output_dir_of (script_dir : string) : string :=
  path_join (path_join script_dir "simulation_results") "graphs".

Definition not_found_line (script_dir : string) : string :=
  "‚ùå Data file not found: " ++ data_path_of script_dir.

(** The command the diagnostic tells the user to run. *)
Definition simulation_command : string := "npx ts-node src/yellow/e2e-simulation.ts".

Definition config_line (data : document) : string :=
  "   Config: " ++ format_general false (simulationDays (config data)) ++
  " days, $" ++ format_general true (initialLPBalance (config data)) ++ " initial".

(** The lines of a run that renders all five charts. *)
Definition success_lines (script_dir : string) (data : document) : list string :=
  [ banner; rule;
    nl ++ "üìÇ Loading: " ++ data_path_of script_dir;
    config_line data;
    nl ++ "üìà Generating charts...";
    "‚úÖ Created: price_chart.png";
    "‚úÖ Created: vpin_chart.png";
    "‚úÖ Created: comparison_chart.png";
    "‚úÖ Created: protection_value_pie.png";
    "‚úÖ Created: trade_distribution.png";
    nl ++ rule;
    "‚úÖ All charts saved to: " ++ output_dir_of script_dir;
    rule ++ nl ].

(** The lines that report a created artifact. *)
Definition created_lines (lines : list string) : list string :=
  filter (String.prefix "‚úÖ Created: ") lines.

Lemma main_missing_run (script_dir : string) (w : world) :
  disk w (data_path_of script_dir) = None ->
  main script_dir w =
  (Ok tt, set_stdout (stdout w ++ [banner; rule; not_found_line script_dir; remediation]) w).
Proof.
  intros Hd. destruct w. cbn [disk] in Hd.
  unfold main. run_simpl. fold (data_path_of script_dir). rewrite Hd. cbn [negb]. run_simpl.
  unfold not_found_line. rewrite <- ?app_assoc. reflexivity.
Qed.

Lemma main_success_run (script_dir : string) (data : document) (w : world)
  (f1 f2 f3 f4 f5 : list draw) :
  disk w (data_path_of script_dir) = Some (Ok data) ->
  (forall w', create_price_chart data (output_dir_of script_dir) w' =
     (Ok tt, rendered (path_join (output_dir_of script_dir) "price_chart.png") f1
                      "‚úÖ Created: price_chart.png" w')) ->
  (forall w', create_vpin_chart data (output_dir_of script_dir) w' =
     (Ok tt, rendered (path_join (output_dir_of script_dir) "vpin_chart.png") f2
                      "‚úÖ Created: vpin_chart.png" w')) ->
  (forall w', create_comparison_chart data (output_dir_of script_dir) w' =
     (Ok tt, rendered (path_join (output_dir_of script_dir) "comparison_chart.png") f3
                      "‚úÖ Created: comparison_chart.png" w')) ->
  (forall w', create_protection_value_pie data (output_dir_of script_dir) w' =
     (Ok tt, rendered (path_join (output_dir_of script_dir) "protection_value_pie.png") f4
                      "‚úÖ Created: protection_value_pie.png" w')) ->
  (forall w', create_trade_distribution_chart data (output_dir_of script_dir) w' =
     (Ok tt, rendered (path_join (output_dir_of script_dir) "trade_distribution.png") f5
                      "‚úÖ Created: trade_distribution.png" w')) ->
  main script_dir w =
  (Ok tt,
   {| disk := disk w;
      directories := if existsb (String.eqb (output_dir_of script_dir)) (directories w)
                     then directories w
                     else directories w ++ [output_dir_of script_dir];
      artifacts := artifacts w ++
        [ (path_join (output_dir_of script_dir) "price_chart.png", f1);
          (path_join (output_dir_of script_dir) "vpin_chart.png", f2);
          (path_join (output_dir_of script_dir) "comparison_chart.png", f3);
          (path_join (output_dir_of script_dir) "protection_value_pie.png", f4);
          (path_join (output_dir_of script_dir) "trade_distribution.png", f5) ];
      stdout := stdout w ++ success_lines script_dir data;
      figure := [] |}).
Proof.
  intros Hd H1 H2 H3 H4 H5. destruct w. cbn [disk directories artifacts stdout] in *.
  unfold main. run_simpl.
  fold (data_path_of script_dir). fold (output_dir_of script_dir).
  rewrite Hd. cbn [negb]. run_simpl.
  try (rewrite Hd; run_simpl).
  rewrite H1. run_simpl. rewrite H2. run_simpl. rewrite H3. run_simpl.
  rewrite H4. run_simpl. rewrite H5. run_simpl.
  unfold success_lines, config_line. rewrite <- ?app_assoc. reflexivity.
Qed.

(** * The regime loop: what it shades *)

(** Label changes in [prev :: regimes]. *)
Fixpoint changes_after (prev : string) (regimes : list string) : nat :=
  match regimes with
  | [] => O
  | regime :: rest =>
      ((if String.eqb regime prev then 0 else 1) + changes_after regime rest)%nat
  end.

Definition label_changes (regimes : list string) : nat :=
  match regimes with
  | [] => O
  | regime :: rest => changes_after regime rest
  end.

(** The value of [start_idx] when the loop ends: the index at which the last
    run of equal labels begins. *)
Fixpoint final_start_idx (regimes : list string) (i : Z) (prev : string) (start_idx : Z) : Z :=
  match regimes with
  | [] => start_idx
  | regime :: rest =>
      if String.eqb regime prev then final_start_idx rest (i + 1) prev start_idx
      else final_start_idx rest (i + 1) regime i
  end.

Definition last_run_start (regimes : list string) : Z :=
  match regimes with
  | [] => 0
  | regime :: rest => final_start_idx rest 1 regime 0
  end.

(** Spans that follow one another with no gap and no overlap, from index
    [a] up to, not including, index [b]. *)
Inductive contiguous : Z -> list span -> Z -> Prop :=
| contiguous_nil (a : Z) : contiguous a [] a
| contiguous_cons (a b : Z) (s : span) (rest : list span) :
    span_start s = a -> a <= span_end s ->
    contiguous (span_end s + 1) rest b ->
    contiguous a (s :: rest) b.

Lemma regime_loop_length (n : Z) (regimes : list string) :
  forall (i : Z) (prev : string) (start_idx : Z),
    List.length (regime_loop n regimes i (Some prev) start_idx) = changes_after prev regimes.
Proof.
  induction regimes as [|regime rest IH]; intros i prev start; [reflexivity|].
  cbn [regime_loop changes_after regime_changed].
  destruct (String.eqb_spec regime prev) as [->|_]; cbn [negb].
  - rewrite IH. reflexivity.
  - rewrite length_app, IH. reflexivity.
Qed.

(** The loop draws one span per label change: the run that is open when the
    sequence ends is never closed. *)
Lemma regime_spans_length (regimes : list string) :
  List.length (regime_spans regimes) = label_changes regimes.
Proof.
  destruct regimes as [|regime rest]; [reflexivity|].
  unfold regime_spans. cbn [regime_loop regime_changed app label_changes].
  apply regime_loop_length.
Qed.

Lemma regime_loop_contiguous (n : Z) (regimes : list string) :
  forall (i : Z) (prev : string) (start_idx : Z),
    start_idx < i ->
    contiguous start_idx (regime_loop n regimes i (Some prev) start_idx)
               (final_start_idx regimes i prev start_idx) /\
    start_idx <= final_start_idx regimes i prev start_idx < i + Z.of_nat (List.length regimes).
Proof.
  induction regimes as [|regime rest IH]; intros i prev start Hlt.
  - cbn. split; [constructor|lia].
  - cbn [regime_loop final_start_idx regime_changed List.length].
    destruct (String.eqb regime prev); cbn [negb].
    + destruct (IH (i + 1) prev start ltac:(lia)) as [Hc Hb]. split; [exact Hc|lia].
    + destruct (IH (i + 1) regime i ltac:(lia)) as [Hc Hb]. split; [|lia].
      cbn [app]. constructor; cbn [span_start span_end]; try lia.
      replace (i - 1 + 1) with i by lia. exact Hc.
Qed.

(** The spans tile the indices from 0 up to the start of the last run, which
    lies inside the sequence: the last run itself has no span. *)
Lemma regime_spans_contiguous (regimes : list string) :
  regimes <> [] ->
  contiguous 0 (regime_spans regimes) (last_run_start regimes) /\
  0 <= last_run_start regimes < Z.of_nat (List.length regimes).
Proof.
  destruct regimes as [|regime rest]; [intros H; contradiction H; reflexivity|intros _].
  unfold regime_spans, last_run_start. cbn [regime_loop regime_changed app].
  destruct (regime_loop_contiguous (Z.of_nat (List.length (regime :: rest))) rest 1 regime 0 ltac:(lia))
    as [Hc Hb].
  split; [exact Hc|]. cbn [List.length]. lia.
Qed.

(** A sequence of one repeated label has no span at all. *)
Lemma regime_spans_constant (label : string) (n : nat) :
  regime_spans (repeat label n) = [].
Proof.
  apply length_zero_iff_nil. rewrite regime_spans_length.
  destruct n as [|n]; [reflexivity|]. cbn [repeat label_changes].
  induction n as [|n IH]; [reflexivity|].
  cbn [repeat changes_after]. rewrite String.eqb_refl. exact IH.
Qed.

(** * Lines that name a text *)

(** [needle] occurs in [line]. *)
Definition names (needle line : string) : Prop :=
  exists before after, line = before ++ needle ++ after.

Fixpoint is_infix (needle line : string) : bool :=
  String.prefix needle line ||
  match line with
  | EmptyString => false
  | String _ rest => is_infix needle rest
  end.

Lemma prefix_append (p rest : string) : String.prefix p (p ++ rest) = true.
Proof.
  induction p as [|a p IH]; [destruct rest; reflexivity|]. cbn.
  destruct (ascii_dec a a) as [_|N]; [exact IH|contradiction N; reflexivity].
Qed.

Lemma names_is_infix (needle line : string) : names needle line -> is_infix needle line = true.
Proof.
  intros (before & after & ->). induction before as [|a before IH].
  - cbn [String.append]. destruct (needle ++ after) eqn:E; cbn [is_infix];
      rewrite <- E, prefix_append; reflexivity.
  - cbn [String.append is_infix]. rewrite IH. apply orb_true_r.
Qed.

Lemma append_empty_r (s : string) : s ++ "" = s.
Proof. induction s as [|a s IH]; [reflexivity|]. cbn. rewrite IH. reflexivity. Qed.

Lemma names_suffix (before needle : string) : names needle (before ++ needle).
Proof. exists before, EmptyString. rewrite append_empty_r. reflexivity. Qed.

(** The lines of a list that name the data path or the simulation command. *)
Definition diagnostic_lines (path : string) (lines : list string) : list string :=
  filter (fun line => is_infix path line || is_infix simulation_command line) lines.

(** * Example inputs *)


Definition example_scenario (net : Z) : scenario :=
  {| feesEarned := PInt 1200; impermanentLoss := PInt 800;
     adverseSelectionLoss := PInt 900; gapLoss := PInt 500;
     gapAuctionGains := PInt 300; netPnL := PInt net |}.

(** A minimal document: one price sample, one VPIN sample, one trade, both
    scenario variants; the net P&L figures and the balance are those of the
    specification's net-improvement example. *)
Definition example_document : document :=
  {| config := {| simulationDays := PInt 5; initialLPBalance := PInt 100000 |};
     priceData := [ {| price_timestamp := PInt 1700000000000;
                       price := f64_lit 15025 100;
                       regime := "CORE_SESSION" |} ];
     vpinData := [ {| vpin_timestamp := PInt 1700000000000; vpin := f64_lit 6 10 |} ];
     tradeData := [ {| volume := PInt 250000; isInformed := true; isBuy := false |} ];
     withoutProtection := example_scenario (-1000);
     withProtection := example_scenario 500;
     comparison := {| feeImprovement := PInt 700;
                      adverseSelectionReduction := PInt (-50);
                      gapProtectionValue := f64_lit 1701 2 |} |}.

(** Three trades with fractional volumes 0.1, 0.2 and 0.3. *)
Definition fractional_trades : list trade :=
  [ {| volume := f64_lit 1 10; isInformed := true; isBuy := true |};
    {| volume := f64_lit 2 10; isInformed := true; isBuy := false |};
    {| volume := f64_lit 3 10; isInformed := false; isBuy := false |} ].

(** A world with nothing on disk and nothing printed. *)
Definition empty_world : world :=
  {| disk := fun _ => None; directories := []; artifacts := []; stdout := []; figure := [] |}.

(** A world whose disk holds [data] at [path]. *)
Definition world_with (path : string) (data : document) : world :=
  {| disk := fun p => if String.eqb p path then Some (Ok data) else None;
     directories := []; artifacts := []; stdout := []; figure := [] |}.

Lemma example_comparison_inputs_ok : comparison_inputs_ok example_document.
Proof.
  unfold comparison_inputs_ok, scenario_ordinary, example_document, example_scenario.
  cbn. repeat split; try lia; try discriminate; reflexivity.
Qed.

(** * The claims *)

(** C1 (regime segmentation), evaluated: on two samples of one regime
    followed by one of another the loop of [create_price_chart] shades the
    single interval 0..1 and leaves index 2 without an interval, where the
    claim asks for two intervals covering 0..2; on a one-sample sequence it
    shades nothing, where the claim asks for one interval. *)
Theorem regime_spans_leave_last_run :
  regime_spans ["CORE_SESSION"; "CORE_SESSION"; "OVERNIGHT"] =
    [ {| span_start := 0; span_end := 1; span_regime := "CORE_SESSION";
         span_label := Some "CORE_SESSION" |} ] /\
  label_changes ["CORE_SESSION"; "CORE_SESSION"; "OVERNIGHT"] = 1%nat /\
  regime_spans ["CORE_SESSION"] = [].
Proof. repeat split; reflexivity. Qed.


(** C3 (protection-value clipping): for every triple of raw contributions
    the pie sizes are [max(0, raw)] each, none is below zero, and their sum
    is the sum of the positive contributions alone; when that clipped total
    is zero the renderer draws no pie and raises nothing: it saves the chart
    with its title only; when the clipped total is positive and the
    contributions are of ordinary size, the sizes handed to [ax.pie] are the
    clipped ones, in the order fees, adverse selection, gap, and the chart
    saved is that pie under the title with the total; a triple with no
    positive contribution has the total 0; on the example document the
    clipped sizes are 700, 0 and 850.5. *)
Theorem protection_value_clipping (data : document) (output_dir : string) (w : world) :
  let comp := comparison data in
  protection_sizes comp = map (py_max2 (PInt 0)) (raw_contributions comp) /\
  Forall (fun size => py_ge size (PInt 0) = true) (protection_sizes comp) /\
  py_sum (protection_sizes comp) = py_sum (filter positive_num (raw_contributions comp)) /\
  (forall total,
      py_sum (protection_sizes comp) = Ok total ->
      py_eq total (PInt 0) = true ->
      create_protection_value_pie data output_dir w =
      (Ok tt, rendered (path_join output_dir "protection_value_pie.png")
                       [SetTitle (protection_title "0")]
                       "‚úÖ Created: protection_value_pie.png" w)) /\
  (forall total,
      Forall ordinary (raw_contributions comp) ->
      py_sum (protection_sizes comp) = Ok total ->
      py_gt total (PInt 0) = true ->
      create_protection_value_pie data output_dir w =
      (Ok tt, rendered (path_join output_dir "protection_value_pie.png")
                       [Pie [py_max2 (PInt 0) (feeImprovement comp);
                             py_max2 (PInt 0) (adverseSelectionReduction comp);
                             py_max2 (PInt 0) (gapProtectionValue comp)]
                            protection_labels;
                        SetTitle (protection_title (shown_fixed true 0 total))]
                       "‚úÖ Created: protection_value_pie.png" w)) /\
  (Forall (fun raw => positive_num raw = false) (raw_contributions comp) ->
   py_sum (protection_sizes comp) = Ok (PInt 0)) /\
  protection_sizes (comparison example_document) = [PInt 700; PInt 0; f64_lit 1701 2].
Proof.
  intros comp. split; [reflexivity|]. split; [|split; [|split; [|split; [|split]]]].
  - unfold protection_sizes. repeat constructor; apply clipped_ge_zero.
  - rewrite protection_sizes_map. apply py_sum_from_clipped. cbn; lia.
  - intros total Hsum Hz.
    assert (Hc : py_compare total (PInt 0) = Some Eq).
    { unfold py_eq in Hz. destruct (py_compare total (PInt 0)) as [[| |]|]; congruence. }
    destruct (zero_total_shown total (protection_total_unsigned _ _ Hsum) Hc) as (Hb & Hs & Hgt).
    rewrite (create_protection_value_pie_run_flat data output_dir w total Hsum Hgt Hb).
    rewrite Hs. reflexivity.
  - intros total Hraw Hsum Hgt.
    destruct (protection_total_defined _ Hraw) as (total' & Hsum' & Hb).
    fold comp in Hsum'. rewrite Hsum in Hsum'. injection Hsum' as <-.
    exact (create_protection_value_pie_run_pie data output_dir w total Hsum Hgt
             (protection_sizes_ordinary _ Hraw) Hb).
  - intros H. unfold raw_contributions in H.
    inversion H as [|? ? H1 H']; subst. inversion H' as [|? ? H2 H'']; subst.
    inversion H'' as [|? ? H3 _]; subst.
    unfold protection_sizes. rewrite !py_max2_zero, H1, H2, H3. reflexivity.
  - vm_compute. reflexivity.
Qed.

(** C4 (volume-split cross-check), amended to integer volumes: for every
    trade sequence whose volumes are integers, the empty one included, the
    four sums are defined, informed plus retail equals buy plus sell, and
    both equal the sum of all volumes, exactly. *)
Theorem volume_split_cross_check (trades : list trade) :
  Forall int_volume trades ->
  cross_check trades /\
  exists informed retail buy sell : Z,
    informed_vol trades = Ok (PInt informed) /\ retail_vol trades = Ok (PInt retail) /\
    buy_vol trades = Ok (PInt buy) /\ sell_vol trades = Ok (PInt sell) /\
    informed + retail = buy + sell /\
    total_vol trades = Ok (PInt (informed + retail)).
Proof.
  intros H.
  pose proof (py_sum_from_ints _ (int_volumes_filter isInformed trades H) 0) as Hi.
  pose proof (py_sum_from_ints _ (int_volumes_filter (fun t => negb (isInformed t)) trades H) 0) as Hr.
  pose proof (py_sum_from_ints _ (int_volumes_filter isBuy trades H) 0) as Hb.
  pose proof (py_sum_from_ints _ (int_volumes_filter (fun t => negb (isBuy t)) trades H) 0) as Hs.
  assert (Ht : py_sum_from (PInt 0) (map volume trades) = Ok (PInt (0 + int_sum (map volume trades)))).
  { apply py_sum_from_ints. apply Forall_map. exact H. }
  pose proof (int_sum_split isInformed trades) as S1.
  pose proof (int_sum_split isBuy trades) as S2.
  cbn [Z.add] in Hi, Hr, Hb, Hs, Ht.
  set (i := int_sum (map volume (filter isInformed trades))) in *.
  set (r := int_sum (map volume (filter (fun t => negb (isInformed t)) trades))) in *.
  set (b := int_sum (map volume (filter isBuy trades))) in *.
  set (s := int_sum (map volume (filter (fun t => negb (isBuy t)) trades))) in *.
  split.
  - exists (PInt i), (PInt r), (PInt b), (PInt s), (PInt (i + r)), (PInt (b + s)),
           (PInt (int_sum (map volume trades))).
    repeat split; try assumption; try reflexivity.
    + replace (b + s) with (i + r) by lia. apply py_eq_int_refl.
    + rewrite S1. apply py_eq_int_refl.
  - exists i, r, b, s. repeat split; try assumption; [lia|].
    rewrite S1. exact Ht.
Qed.

(** C10 (the protection-value artifact is written), amended to
    contributions of ordinary size: the renderer succeeds, writes exactly
    one file, [protection_value_pie.png] in the output directory, and prints
    its created line; when the clipped total is zero the file is still
    written, and the chart in it has the title with a total of $0 and no
    pie; when it is positive the chart is the pie of the clipped sizes under
    the title with the total. *)
Theorem protection_value_pie_written (data : document) (output_dir : string) (w : world) :
  Forall ordinary (raw_contributions (comparison data)) ->
  exists total chart,
    py_sum (protection_sizes (comparison data)) = Ok total /\
    create_protection_value_pie data output_dir w =
      (Ok tt, {| disk := disk w; directories := directories w;
                 artifacts := artifacts w ++
                   [(path_join output_dir "protection_value_pie.png", chart)];
                 stdout := stdout w ++ ["‚úÖ Created: protection_value_pie.png"];
                 figure := [] |}) /\
    (py_eq total (PInt 0) = true ->
     chart = [SetTitle ("Sources of StockShield Protection Value" ++ nl ++ "(Total: $0)")]) /\
    (py_gt total (PInt 0) = true ->
     chart = [Pie (protection_sizes (comparison data))
                  [ "Higher Fees" ++ nl ++ "(Dynamic Pricing)";
                    "Adverse Selection" ++ nl ++ "Reduction";
                    "Gap Auction" ++ nl ++ "Gains" ];
              SetTitle ("Sources of StockShield Protection Value" ++ nl ++
                        "(Total: $" ++ shown_fixed true 0 total ++ ")")]).
Proof.
  intros H. destruct (protection_total_defined _ H) as (total & Hsum & Hb).
  exists total, (protection_figure (comparison data) total).
  split; [exact Hsum|]. split; [|split].
  - rewrite (create_protection_value_pie_run data output_dir w total H Hsum Hb). reflexivity.
  - intros Hz.
    assert (Hc : py_compare total (PInt 0) = Some Eq).
    { unfold py_eq in Hz. destruct (py_compare total (PInt 0)) as [[| |]|]; congruence. }
    destruct (zero_total_shown total (protection_total_unsigned _ _ Hsum) Hc) as (_ & Hs & Hgt).
    unfold protection_figure. rewrite Hgt, Hs. reflexivity.
  - intros Hgt. unfold protection_figure. rewrite Hgt. reflexivity.
Qed.

Lemma compare_zero_neg (a : Z) : (0 ?= - a) = CompOpp (0 ?= a).
Proof. destruct a; reflexivity. Qed.

Lemma compare_zero_opp (f : spec_float) :
  compare_Z_f64 0 (SFopp f) = option_map CompOpp (compare_Z_f64 0 f).
Proof.
  destruct f as [s|s| |s m e]; cbn [SFopp compare_Z_f64 option_map]; try reflexivity.
  - destruct s; reflexivity.
  - f_equal. rewrite !Z.mul_0_l.
    assert (Hv : (if negb s then Z.neg m else Z.pos m) = - (if s then Z.neg m else Z.pos m))
      by (destruct s; reflexivity).
    rewrite Hv. destruct (0 <=? e).
    + rewrite Z.mul_opp_l. apply compare_zero_neg.
    + apply compare_zero_neg.
Qed.

(** A stored magnitude that is not below zero is displayed not above zero. *)
Lemma py_neg_not_positive (x : pynum) :
  py_ge x (PInt 0) = true -> py_ge (PInt 0) (py_neg x) = true.
Proof.
  unfold py_ge. destruct x as [z|f]; cbn [py_neg py_compare].
  - rewrite compare_zero_neg, (Z.compare_antisym 0 z).
    destruct (0 ?= z); cbn; congruence.
  - rewrite compare_zero_opp. trivial.
Qed.

Lemma set_figure_nil (w : world) : w = set_figure (figure w ++ []) w.
Proof. destruct w. unfold set_figure. cbn. rewrite app_nil_r. reflexivity. Qed.

(** A loop of drawing steps: all its steps are drawn, or the steps before
    the first one that raises are drawn and its exception is raised. *)
Lemma for_each_outcome {A : Type} (body : A -> M unit) (l : list A) :
  (forall a w, exists drawn,
      body a w = (Ok tt, set_figure (figure w ++ drawn) w) \/
      exists e, body a w = (Raise e, set_figure (figure w ++ drawn) w)) ->
  forall w, exists drawn,
    for_each l body w = (Ok tt, set_figure (figure w ++ drawn) w) \/
    exists e, for_each l body w = (Raise e, set_figure (figure w ++ drawn) w).
Proof.
  intros Hbody. induction l as [|a l IH]; intros w.
  - exists []. left. cbn. unfold ret. rewrite <- set_figure_nil. reflexivity.
  - cbn [for_each]. unfold bind.
    destruct (Hbody a w) as (first & [H|(e & H)]); rewrite H.
    + destruct (IH (set_figure (figure w ++ first) w)) as (drawn & H').
      exists (first ++ drawn)%list.
      destruct H' as [H'|(e & H')]; [left|right; exists e]; rewrite H';
        destruct w; unfold set_figure; cbn; rewrite <- app_assoc; reflexivity.
    + exists first. right. exists e. reflexivity.
Qed.

(** The value labels of a list of bars: all are drawn, or the labels before
    the first value that does not format are drawn and its exception is
    raised. *)
Lemma annotate_heights_outcome (vs : list pynum) :
  forall w, exists labels,
    for_each vs annotate_height w = (Ok tt, set_figure (figure w ++ labels) w) \/
    exists e, for_each vs annotate_height w = (Raise e, set_figure (figure w ++ labels) w).
Proof.
  apply for_each_outcome. intros v w. unfold annotate_height, bind, lift, emit.
  destruct (format_fixed true 0 (bar_height v)) as [shown|e].
  - eexists [_]. left. reflexivity.
  - exists []. right. exists e. rewrite <- set_figure_nil. reflexivity.
Qed.

Lemma annotate_values_outcome (vs : list pynum) :
  forall w, exists labels,
    for_each vs annotate_value w = (Ok tt, set_figure (figure w ++ labels) w) \/
    exists e, for_each vs annotate_value w = (Raise e, set_figure (figure w ++ labels) w).
Proof.
  apply for_each_outcome. intros v w. unfold annotate_value, bind, lift, emit.
  destruct (format_fixed true 0 v) as [shown|e].
  - eexists [_]. left. reflexivity.
  - exists []. right. exists e. rewrite <- set_figure_nil. reflexivity.
Qed.

(** A plotting call draws its command, or the library refuses the command
    and nothing is drawn. *)
Lemma plot_call_outcome (d : draw) (w : world) :
  (mpl_error d = None /\ plot_call d w = (Ok tt, set_figure (figure w ++ [d]) w)) \/
  (exists e, mpl_error d = Some e /\ plot_call d w = (Raise e, w)).
Proof.
  unfold plot_call. destruct (mpl_error d) as [e|].
  - right. exists e. split; reflexivity.
  - left. split; reflexivity.
Qed.

(** C5 (net-improvement formula): on a document whose plotted numbers are
    of ordinary size and whose balance is not zero, the comparison chart is
    produced and the last thing drawn on it is the annotation, which reads
    "+$" and the improvement on its first line and the percentage followed by
    "% of capital", in parentheses, on its second, where the improvement is
    [withProtection.netPnL - withoutProtection.netPnL], shown with no
    decimals, and the percentage is [improvement / config.initialLPBalance *
    100], shown with one decimal; for net P&L -1000 and 500 on a balance of
    100000 the improvement is 1500, the percentage is 1.5, and the chart of
    the example document ends with the annotation "+$1,500", "(1.5% of
    capital)". *)
Theorem net_improvement_annotation (data : document) (output_dir : string) (w : world) :
  comparison_inputs_ok data ->
  (exists improvement ratio improvement_pct shown shown_pct y,
      py_sub (netPnL (withProtection data)) (netPnL (withoutProtection data)) = Ok improvement /\
      py_truediv improvement (initialLPBalance (config data)) = Ok ratio /\
      py_mul (PFloat ratio) (PInt 100) = Ok improvement_pct /\
      format_fixed true 0 improvement = Ok shown /\
      format_fixed false 1 improvement_pct = Ok shown_pct /\
      create_comparison_chart data output_dir w =
      (Ok tt, rendered (path_join output_dir "comparison_chart.png")
                       (comparison_bars data ++ comparison_labels data ++
                        [Annotate ("üõ°Ô∏è +$" ++ shown ++ nl ++
                                   "(" ++ shown_pct ++ "% of capital)") y])
                       "‚úÖ Created: comparison_chart.png" w)) /\
  improvement_of example_document = Ok (PInt 1500) /\
  improvement_pct_of example_document (PInt 1500) = Ok (f64_lit 3 2) /\
  format_fixed true 0 (PInt 1500) = Ok "1,500" /\
  format_fixed false 1 (f64_lit 3 2) = Ok "1.5" /\
  (exists chart y,
     create_comparison_chart example_document output_dir w =
       (Ok tt, rendered (path_join output_dir "comparison_chart.png") chart
                        "‚úÖ Created: comparison_chart.png" w) /\
     last chart (SetTitle "none") =
       Annotate ("üõ°Ô∏è +$1,500" ++ nl ++ "(1.5% of capital)") y).
Proof.
  assert (G : forall data, comparison_inputs_ok data ->
    exists improvement ratio improvement_pct shown shown_pct y,
      py_sub (netPnL (withProtection data)) (netPnL (withoutProtection data)) = Ok improvement /\
      py_truediv improvement (initialLPBalance (config data)) = Ok ratio /\
      py_mul (PFloat ratio) (PInt 100) = Ok improvement_pct /\
      format_fixed true 0 improvement = Ok shown /\
      format_fixed false 1 improvement_pct = Ok shown_pct /\
      create_comparison_chart data output_dir w =
      (Ok tt, rendered (path_join output_dir "comparison_chart.png")
                       (comparison_bars data ++ comparison_labels data ++
                        [Annotate (improvement_text shown shown_pct) y])
                       "‚úÖ Created: comparison_chart.png" w)).
  { clear data. intros data Hok.
    destruct (improvement_defined data Hok)
      as (imp & ratio & pct & y & Hi & Hr & Hp & Hbi & Hbp & Hy).
    destruct (comparison_values_ordinary data Hok) as (B1 & B2 & B3).
    exists imp, ratio, pct, (shown_fixed true 0 imp), (shown_fixed false 1 pct), y.
    repeat (split; [first [assumption | apply format_fixed_bounded; assumption]|]).
    assert (Hpct : improvement_pct_of data imp = Ok pct)
      by (unfold improvement_pct_of; rewrite Hr; exact Hp).
    rewrite (create_comparison_chart_run data output_dir w imp pct y
               (shown_fixed true 0 imp) (shown_fixed false 1 pct)
               B1 B2 B3 Hi Hpct (format_fixed_bounded true 0 imp Hbi)
               (format_fixed_bounded false 1 pct Hbp) Hy).
    unfold comparison_figure. rewrite <- ?app_assoc. reflexivity. }
  intros Hok. split; [exact (G data Hok)|].
  do 4 (split; [vm_compute; reflexivity|]).
  destruct (G example_document example_comparison_inputs_ok)
    as (imp & ratio & pct & shown & shown_pct & y & Hi & Hr & Hp & Hs & Hsp & Hrun).
  vm_compute in Hi. injection Hi as <-.
  vm_compute in Hr. injection Hr as <-.
  vm_compute in Hp. injection Hp as <-.
  vm_compute in Hs. injection Hs as <-.
  vm_compute in Hsp. injection Hsp as <-.
  eexists _, y. split; [exact Hrun|].
  rewrite app_assoc. apply last_last.
Qed.

(** Steps of the case analysis of a run of the comparison chart: the run has
    raised with the bars on the current figure; a group of value labels is
    drawn or raises; a bar group is drawn or refused; a Python-level
    operation returns or raises. *)
Ltac comparison_raised :=
  right; left; eexists _, _; split; [reflexivity|]; reflexivity.

Ltac comparison_labels_step :=
  match goal with
  | |- context [for_each ?vs annotate_height ?W] =>
      let l := fresh "labels" in let H := fresh "H" in let e := fresh "e" in
      destruct (annotate_heights_outcome vs W) as (l & [H|(e & H)]); rewrite H;
      run_simpl; [|comparison_raised]
  | |- context [for_each ?vs annotate_value ?W] =>
      let l := fresh "labels" in let H := fresh "H" in let e := fresh "e" in
      destruct (annotate_values_outcome vs W) as (l & [H|(e & H)]); rewrite H;
      run_simpl; [|comparison_raised]
  end.

Ltac comparison_lift_step :=
  match goal with
  | |- context [match ?r with Ok _ => _ | Raise _ => _ end] =>
      let x := fresh "x" in let e := fresh "e" in
      destruct r as [x|e]; run_simpl; [|comparison_raised]
  end.

Ltac comparison_plot_step :=
  match goal with
  | |- context [plot_call ?d ?W] =>
      let Hn := fresh "Hn" in let H := fresh "H" in let e := fresh "e" in
      let He := fresh "He" in
      destruct (plot_call_outcome d W) as [[Hn H]|(e & He & H)]; rewrite H; run_simpl
  end.

(** C6 (P&L sign convention): for every pair of scenario records the bar
    vector of the unprotected variant is [feesEarned, -impermanentLoss,
    -adverseSelectionLoss, -gapLoss, 0] and that of the protected variant is
    [feesEarned, -impermanentLoss, -adverseSelectionLoss, -gapLoss,
    gapAuctionGains]; a stored loss that is not below zero is displayed not
    above zero; and these two vectors are the first two things the
    comparison chart draws, whether the run then completes (they open the
    saved chart) or raises (they open the current figure), unless the
    plotting library refuses one of the two vectors itself, in which case
    the run raises the library's exception with the vectors before it on the
    figure; on vectors of ordinary size there is no such refusal. *)
Theorem pnl_sign_convention (data : document) (output_dir : string) (w : world) :
  let without := withoutProtection data in
  let with_prot := withProtection data in
  let bar1 :=
      Bar [feesEarned without; py_neg (impermanentLoss without);
           py_neg (adverseSelectionLoss without); py_neg (gapLoss without); PInt 0]
          ["#e74c3c"] (Some "Without Protection") in
  let bar2 :=
      Bar [feesEarned with_prot; py_neg (impermanentLoss with_prot);
           py_neg (adverseSelectionLoss with_prot); py_neg (gapLoss with_prot);
           gapAuctionGains with_prot]
          ["#27ae60"] (Some "With StockShield") in
  let bars := [bar1; bar2] in
  let r := create_comparison_chart data output_dir w in
  let completes :=
    fst r = Ok tt /\
    exists rest, artifacts (snd r) =
                 (artifacts w ++
                  [(path_join output_dir "comparison_chart.png", (bars ++ rest)%list)])%list in
  let raises_later :=
    exists e rest, fst r = Raise e /\ figure (snd r) = (bars ++ rest)%list in
  let refused :=
    exists e, fst r = Raise e /\
              ((mpl_error bar1 = Some e /\ figure (snd r) = []) \/
               (mpl_error bar1 = None /\ mpl_error bar2 = Some e /\ figure (snd r) = [bar1])) in
  nth_error (without_vals without) 4 = Some (PInt 0) /\
  (forall loss, py_ge loss (PInt 0) = true -> py_ge (PInt 0) (py_neg loss) = true) /\
  (completes \/ raises_later \/ refused) /\
  (Forall ordinary (without_vals without) -> Forall ordinary (with_vals with_prot) ->
   completes \/ raises_later).
Proof.
  intros without with_prot bar1 bar2 bars r completes raises_later refused.
  split; [reflexivity|]. split; [exact py_neg_not_positive|].
  assert (T : completes \/ raises_later \/ refused).
  { subst completes raises_later refused r. destruct w.
    unfold create_comparison_chart. run_simpl.
    fold without with_prot. change (without_vals without) with
      [feesEarned without; py_neg (impermanentLoss without);
       py_neg (adverseSelectionLoss without); py_neg (gapLoss without); PInt 0].
    change (with_vals with_prot) with
      [feesEarned with_prot; py_neg (impermanentLoss with_prot);
       py_neg (adverseSelectionLoss with_prot); py_neg (gapLoss with_prot);
       gapAuctionGains with_prot].
    fold bar1 bar2.
    comparison_plot_step;
      [|right; right; exists e; split; [reflexivity|left; split; [exact He|reflexivity]]].
    comparison_plot_step;
      [|right; right; exists e; split; [reflexivity|
        right; split; [exact Hn|split; [exact He|reflexivity]]]].
    do 2 comparison_labels_step.
    comparison_plot_step; [|comparison_raised].
    comparison_labels_step.
    do 6 comparison_lift_step.
    left. split; [reflexivity|]. eexists. reflexivity. }
  split; [exact T|].
  intros O1 O2. destruct T as [T|[T|(e & _ & [[He _]|(_ & He & _)])]];
    [left; exact T|right; exact T| |].
  - rewrite (mpl_accepts bar1 O1) in He. discriminate.
  - rewrite (mpl_accepts bar2 O2) in He. discriminate.
Qed.

(** The claim on a missing input as the specification words it: among the
    lines of the run exactly one names the data path or the simulation
    command, and that line names both. *)
Definition one_line_diagnostic (script_dir : string) (w : world) : Prop :=
  exists new line,
    stdout (snd (main script_dir w)) = (stdout w ++ new)%list /\
    diagnostic_lines (data_path_of script_dir) new = [line] /\
    names (data_path_of script_dir) line /\ names simulation_command line.

(** A minimal well-formed document: one price sample, one VPIN sample and
    one trade; integer millisecond timestamps up to [MAX_TIMESTAMP_MS]; a
    trade of positive volume; every plotted number (the price, the VPIN
    value, the volume, the scenario fields, the contributions) of ordinary
    size, and a balance that is not zero. *)
Definition minimal_document (data : document) : Prop :=
  (exists p ts, priceData data = [p] /\ price_timestamp p = PInt ts /\
                0 <= ts <= MAX_TIMESTAMP_MS /\ ordinary (price p)) /\
  (exists v ts, vpinData data = [v] /\ vpin_timestamp v = PInt ts /\
                0 <= ts <= MAX_TIMESTAMP_MS /\ ordinary (vpin v)) /\
  (exists t, tradeData data = [t] /\ positive_num (volume t) = true /\
             ordinary (volume t)) /\
  comparison_inputs_ok data /\
  Forall ordinary (raw_contributions (comparison data)).

Lemma fromtimestamp_range (f : spec_float) (d : datetime) :
  fromtimestamp f = Ok d -> MIN_SECOND <= dt_second d <= MAX_SECOND.
Proof.
  unfold fromtimestamp. destruct (f64_trunc f) as [v|]; [|destruct f; discriminate].
  set (us := match f64_round_half_even _ with Some u => u | None => 0 end).
  destruct (if 1000000 <=? us then (v + 1, us - 1000000)
            else if us <? 0 then (v - 1, us + 1000000) else (v, us)) as [sec us'].
  destruct ((sec <? - 2 ^ 63) || (2 ^ 63 - 1 <? sec)); [discriminate|].
  unfold local_second at 1. destruct (localtime_ok sec); [|discriminate].
  destruct ((sec + utc_offset sec <? MIN_SECOND) || (MAX_SECOND <? sec + utc_offset sec)) eqn:E;
    [discriminate|].
  cbn [res_bind].
  destruct (local_second (sec - max_fold_seconds)) as [probe|]; [|discriminate].
  cbn [res_bind]. cbv zeta.
  destruct (if sec + utc_offset sec - probe - max_fold_seconds <? 0
            then local_second (sec + (sec + utc_offset sec - probe - max_fold_seconds))
            else Ok (sec + utc_offset sec)) as [x|]; [|discriminate].
  cbn [res_bind].
  intros H; injection H as <-. cbn [dt_second].
  apply orb_false_iff in E. destruct E as [E1 E2].
  apply Z.ltb_ge in E1, E2. lia.
Qed.

(** C7 (missing input file), amended to two diagnostic lines: when the data
    path does not exist [main] prints, after the two banner lines of every
    run, exactly two more lines, the first naming the path and the second
    naming the command that runs the simulation; it writes no artifact,
    creates no directory and returns normally. *)
Theorem missing_file_diagnostic (script_dir : string) (w : world) :
  disk w (data_path_of script_dir) = None ->
  let r := main script_dir w in
  fst r = Ok tt /\
  artifacts (snd r) = artifacts w /\
  directories (snd r) = directories w /\
  stdout (snd r) = (stdout w ++ [banner; rule; not_found_line script_dir; remediation])%list /\
  names (data_path_of script_dir) (not_found_line script_dir) /\
  names simulation_command remediation.
Proof.
  intros Hd r. subst r. rewrite (main_missing_run script_dir w Hd).
  repeat split.
  - apply names_suffix.
  - exact (names_suffix "   Run the simulation first: " simulation_command).
Qed.

(** C9 (time normalizer), amended to the range of [datetime]: the conversion
    is a function of the timestamp and of the zone's UTC offset, and it is
    total over the integer millisecond timestamps from 0 to
    [MAX_TIMESTAMP_MS] (a date in year 9892): each has a time axis point,
    whose local second lies between 0001-01-01 and 9999-12-31. *)
Theorem timestamp_conversion_in_range (ts : Z) :
  0 <= ts <= MAX_TIMESTAMP_MS ->
  exists d, timestamp_to_datetime (PInt ts) = Ok d /\
            MIN_SECOND <= dt_second d <= MAX_SECOND.
Proof.
  intros H. destruct (timestamp_to_datetime_ok ts H) as (d & Hd).
  exists d. split; [exact Hd|].
  unfold timestamp_to_datetime in Hd.
  destruct (py_truediv (PInt ts) (PInt 1000)) as [t|]; [|discriminate].
  exact (fromtimestamp_range t d Hd).
Qed.

(** C8 (end-to-end success): on a minimal well-formed document found at the
    data path, one run of [main] returns normally, writes exactly five
    artifacts, named price_chart, vpin_chart, comparison_chart,
    protection_value_pie and trade_distribution, in the output directory,
    and prints exactly five created lines, one per artifact. *)
Theorem end_to_end_success (script_dir : string) (data : document) (w : world) :
  disk w (data_path_of script_dir) = Some (Ok data) ->
  minimal_document data ->
  let r := main script_dir w in
  let out := output_dir_of script_dir in
  fst r = Ok tt /\
  (exists c1 c2 c3 c4 c5,
      artifacts (snd r) =
      (artifacts w ++
       [ (path_join out "price_chart.png", c1);
         (path_join out "vpin_chart.png", c2);
         (path_join out "comparison_chart.png", c3);
         (path_join out "protection_value_pie.png", c4);
         (path_join out "trade_distribution.png", c5) ])%list) /\
  (exists new,
      stdout (snd r) = (stdout w ++ new)%list /\
      created_lines new =
      [ "‚úÖ Created: price_chart.png";
        "‚úÖ Created: vpin_chart.png";
        "‚úÖ Created: comparison_chart.png";
        "‚úÖ Created: protection_value_pie.png";
        "‚úÖ Created: trade_distribution.png" ]).
Proof.
  intros Hd ((p & tp & Hp & Htp & Hrp & Hmp) & (v & tv & Hv & Htv & Hrv & Hmv) &
             (t & Ht & Hvol & Hmt) & Hcmp & Hraw) r out.
  destruct (timestamp_to_datetime_ok tp Hrp) as (dp & Hdp).
  destruct (timestamp_to_datetime_ok tv Hrv) as (dv & Hdv).
  destruct (improvement_defined data Hcmp)
    as (imp & ratio & pct & y & Hi & Hr & Hpc & Hbi & Hbp & Hy).
  destruct (comparison_values_ordinary data Hcmp) as (B1 & B2 & B3).
  destruct (protection_total_defined _ Hraw) as (total & Hsum & Hbt).
  destruct (single_trade_volumes t Hvol Hmt)
    as (i & rt & b & s & Hiv & Hrt & Hbv & Hsv & Hvs & P1 & P2).
  assert (Hmain := main_success_run script_dir data w
    (price_figure [dp] (map price (priceData data)) (map regime (priceData data))
                  (price p) (shown_fixed false 2 (price p)))
    (vpin_figure [dv] (map vpin (vpinData data)))
    (comparison_figure data
       (improvement_text (shown_fixed true 0 imp) (shown_fixed false 1 pct)) y)
    (protection_figure (comparison data) total)
    (trade_figure i rt b s) Hd).
  subst r. rewrite Hmain; clear Hmain.
  - split; [reflexivity|]. split.
    + eexists _, _, _, _, _. reflexivity.
    + exists (success_lines script_dir data). split; reflexivity.
  - intros w'. apply (create_price_chart_run data _ w' [dp] p []); [exact Hp| | |].
    + rewrite Hp. cbn [map_res]. rewrite Htp, Hdp. reflexivity.
    + rewrite Hp. repeat constructor. exact Hmp.
    + apply format_fixed_bounded, ordinary_1023; exact Hmp.
  - intros w'. apply create_vpin_chart_run.
    + rewrite Hv. cbn [map_res]. rewrite Htv, Hdv. reflexivity.
    + rewrite Hv. repeat constructor. exact Hmv.
  - intros w'.
    assert (Hpct : improvement_pct_of data imp = Ok pct)
      by (unfold improvement_pct_of; rewrite Hr; exact Hpc).
    exact (create_comparison_chart_run data _ w' imp pct y _ _
             B1 B2 B3 Hi Hpct (format_fixed_bounded true 0 imp Hbi)
             (format_fixed_bounded false 1 pct Hbp) Hy).
  - intros w'. apply create_protection_value_pie_run; assumption.
  - intros w'. apply create_trade_distribution_chart_run; rewrite ?Ht; assumption.
Qed.

(** * Further properties of the renderers and of [main] *)

(** ** Computations that touch the current figure only *)

(** A computation that, whatever it returns or raises, changes nothing of the
    world but the current figure. *)
Definition figure_only {A : Type} (m : M A) : Prop :=
  forall w, exists r fig, m w = (r, set_figure fig w).

(** A renderer's outcomes, from any world: the figure saved under [path] and
    [line] printed, or an exception with nothing but the figure changed. *)
Definition atomic (path line : string) (m : M unit) : Prop :=
  forall w,
    (exists fig, m w = (Ok tt, rendered path fig line w)) \/
    (exists e fig, m w = (Raise e, set_figure fig w)).

Lemma set_figure_same (w : world) : w = set_figure (figure w) w.
Proof. destruct w. reflexivity. Qed.

Lemma figure_only_lift {A : Type} (r : res A) : figure_only (lift r).
Proof. intros w. exists r, (figure w). unfold lift. rewrite <- set_figure_same. reflexivity. Qed.

Lemma figure_only_ret {A : Type} (a : A) : figure_only (ret a).
Proof. exact (figure_only_lift (Ok a)). Qed.

Lemma figure_only_emit (d : draw) : figure_only (emit d).
Proof. intros w. eexists _, _. reflexivity. Qed.

Lemma figure_only_subplots : figure_only plt_subplots.
Proof. intros w. eexists _, _. reflexivity. Qed.

Lemma figure_only_close : figure_only plt_close.
Proof. intros w. eexists _, _. reflexivity. Qed.

Lemma figure_only_bind {A B : Type} (m : M A) (k : A -> M B) :
  figure_only m -> (forall a, figure_only (k a)) -> figure_only (bind m k).
Proof.
  intros Hm Hk w. unfold bind. destruct (Hm w) as (r & fig & E). rewrite E.
  destruct r as [a|e].
  - destruct (Hk a (set_figure fig w)) as (r' & fig' & E'). rewrite E'.
    exists r', fig'. reflexivity.
  - exists (Raise e), fig. reflexivity.
Qed.

Lemma figure_only_for_each {A : Type} (body : A -> M unit) (l : list A) :
  (forall a, figure_only (body a)) -> figure_only (for_each l body).
Proof.
  intros H. induction l as [|a l IH]; cbn [for_each].
  - apply figure_only_ret.
  - apply figure_only_bind; [apply H|intros _; exact IH].
Qed.

Lemma figure_only_if {A : Type} (b : bool) (m1 m2 : M A) :
  figure_only m1 -> figure_only m2 -> figure_only (if b then m1 else m2).
Proof. destruct b; trivial. Qed.

Lemma figure_only_plot_call (d : draw) : figure_only (plot_call d).
Proof.
  intros w. unfold plot_call. destruct (mpl_error d) as [e|].
  - exists (Raise e), (figure w). rewrite <- set_figure_same. reflexivity.
  - eexists _, _. reflexivity.
Qed.

Lemma figure_only_np_greater (ys : list pynum) : figure_only (np_greater ys).
Proof.
  intros w. unfold np_greater.
  destruct (np_error ys) as [e|]; eexists _, (figure w); rewrite <- set_figure_same;
    reflexivity.
Qed.

Lemma figure_only_ax_pie (sizes : list pynum) (labels : list string) (scale : res pynum) :
  figure_only (ax_pie sizes labels scale).
Proof.
  intros w. unfold ax_pie. destruct (mpl_error (Pie sizes labels)) as [e|].
  - exists (Raise e), (figure w). rewrite <- set_figure_same. reflexivity.
  - destruct (let? total := scale in to_float total)%res as [f|e].
    + eexists _, _. reflexivity.
    + exists (Raise e), (figure w). rewrite <- set_figure_same. reflexivity.
Qed.

Create HintDb figure_only.
#[local] Hint Resolve figure_only_lift figure_only_ret figure_only_emit figure_only_subplots
  figure_only_close figure_only_plot_call figure_only_np_greater figure_only_ax_pie
  figure_only_if : figure_only.

Lemma figure_only_draw_span (timestamps : list datetime) (s : span) :
  figure_only (draw_span timestamps s).
Proof.
  unfold draw_span. repeat (apply figure_only_bind; [solve [auto with figure_only]|intros ?]).
  apply figure_only_emit.
Qed.

Lemma figure_only_draw_band (timestamps : list datetime) (b : Z * Z) :
  figure_only (draw_band timestamps b).
Proof.
  unfold draw_band. repeat (apply figure_only_bind; [solve [auto with figure_only]|intros ?]).
  apply figure_only_emit.
Qed.

Lemma figure_only_annotate_value (v : pynum) : figure_only (annotate_value v).
Proof.
  unfold annotate_value. apply figure_only_bind; [auto with figure_only|intros ?].
  apply figure_only_emit.
Qed.

Lemma figure_only_annotate_height (v : pynum) : figure_only (annotate_height v).
Proof.
  unfold annotate_height. apply figure_only_bind; [auto with figure_only|intros ?].
  apply figure_only_emit.
Qed.

#[local] Hint Resolve figure_only_draw_span figure_only_draw_band figure_only_annotate_value
  figure_only_annotate_height : figure_only.
#[local] Hint Extern 1 (figure_only (for_each _ _)) =>
  apply figure_only_for_each; intros ? : figure_only.

Lemma atomic_bind {A : Type} (path line : string) (m : M A) (k : A -> M unit) :
  figure_only m -> (forall a, atomic path line (k a)) -> atomic path line (bind m k).
Proof.
  intros Hm Hk w. unfold bind. destruct (Hm w) as (r & fig & E). rewrite E.
  destruct r as [a|e].
  - destruct (Hk a (set_figure fig w)) as [(fig' & H)|(e & fig' & H)]; rewrite H.
    + left. exists fig'. reflexivity.
    + right. exists e, fig'. reflexivity.
  - right. exists e, fig. reflexivity.
Qed.

(** The closing steps of every renderer: [savefig], [close], [print]. *)
Lemma atomic_save (path line : string) :
  atomic path line (plt_savefig path ;; plt_close ;; print line)%M.
Proof. intros w. left. exists (figure w). reflexivity. Qed.

Ltac atomic_steps :=
  cbv zeta;
  repeat (apply atomic_bind; [solve [auto with figure_only]|intros ?]);
  apply atomic_save.

Lemma create_price_chart_atomic (data : document) (output_dir : string) :
  atomic (path_join output_dir "price_chart.png") "‚úÖ Created: price_chart.png"
         (create_price_chart data output_dir).
Proof. unfold create_price_chart. atomic_steps. Qed.

Lemma create_vpin_chart_atomic (data : document) (output_dir : string) :
  atomic (path_join output_dir "vpin_chart.png") "‚úÖ Created: vpin_chart.png"
         (create_vpin_chart data output_dir).
Proof. unfold create_vpin_chart. atomic_steps. Qed.

Lemma create_comparison_chart_atomic (data : document) (output_dir : string) :
  atomic (path_join output_dir "comparison_chart.png") "‚úÖ Created: comparison_chart.png"
         (create_comparison_chart data output_dir).
Proof. unfold create_comparison_chart. atomic_steps. Qed.

Lemma create_protection_value_pie_atomic (data : document) (output_dir : string) :
  atomic (path_join output_dir "protection_value_pie.png")
         "‚úÖ Created: protection_value_pie.png"
         (create_protection_value_pie data output_dir).
Proof. unfold create_protection_value_pie. atomic_steps. Qed.

Lemma create_trade_distribution_chart_atomic (data : document) (output_dir : string) :
  atomic (path_join output_dir "trade_distribution.png") "‚úÖ Created: trade_distribution.png"
         (create_trade_distribution_chart data output_dir).
Proof. unfold create_trade_distribution_chart. atomic_steps. Qed.

(** ** Outcomes of a renderer and of [main] *)

(** A renderer is all or nothing: it returns with its one file saved, its one
    line printed and the figure closed, or it raises with no file saved and
    no line printed; the disk and the directories are as before either way. *)
Definition all_or_nothing (path line : string) (m : M unit) : Prop :=
  forall w,
    let r := m w in
    disk (snd r) = disk w /\ directories (snd r) = directories w /\
    ((fst r = Ok tt /\ figure (snd r) = [] /\
      stdout (snd r) = (stdout w ++ [line])%list /\
      exists fig, artifacts (snd r) = (artifacts w ++ [(path, fig)])%list) \/
     (exists e, fst r = Raise e /\
                artifacts (snd r) = artifacts w /\ stdout (snd r) = stdout w)).

Lemma atomic_all_or_nothing (path line : string) (m : M unit) :
  atomic path line m -> all_or_nothing path line m.
Proof.
  intros H w r. subst r.
  destruct (H w) as [(fig & E)|(e & fig & E)]; rewrite E; cbn.
  - repeat split; trivial. left. repeat split; trivial. exists fig. reflexivity.
  - repeat split; trivial. right. exists e. repeat split; trivial.
Qed.

(** The file names of the five charts, in the order [main] renders them. *)
Definition artifact_names : list string :=
  [ "price_chart.png"; "vpin_chart.png"; "comparison_chart.png";
    "protection_value_pie.png"; "trade_distribution.png" ].

Ltac renderer_step atomic_lemma :=
  match goal with
  | |- context [?f ?d ?o ?W] =>
      match type of (atomic_lemma d o) with
      | atomic _ _ (f d o) =>
          let fig := fresh "fig" in let e := fresh "e" in let H := fresh "H" in
          destruct (atomic_lemma d o W) as [(fig & H)|(e & fig & H)]; rewrite H; clear H;
          run_simpl
      end
  end.

Ltac main_rest :=
  split; [lia|]; split; [reflexivity|]; split; [reflexivity|];
  split;
  [ intros ? ?; first [discriminate | lia]
  | intros ?; first [discriminate | left; reflexivity | right; split; [reflexivity|first [assumption|reflexivity]]] ].

Ltac main_stopped k :=
  rewrite <- ?app_assoc; cbn [app];
  exists k; eexists _, _, _, _, _; split; [reflexivity|]; main_rest.

(** Every run of [main], whatever the document and whether it returns or
    raises: the files saved are the first [k] of the five charts, and the
    created lines printed are those of the same [k] charts. *)
Lemma main_outcome (script_dir : string) (w : world) :
  exists (k : nat) (added : list (string * list draw)) (new : list string)
         (r : res unit) (dirs : list string) (fig : list draw),
    main script_dir w =
      (r, {| disk := disk w; directories := dirs;
             artifacts := artifacts w ++ added; stdout := stdout w ++ new;
             figure := fig |}) /\
    (k <= 5)%nat /\
    map fst added = map (path_join (output_dir_of script_dir)) (firstn k artifact_names) /\
    created_lines new = map (String.append "‚úÖ Created: ") (firstn k artifact_names) /\
    (forall e, r = Raise e -> (k < 5)%nat) /\
    (r = Ok tt -> k = 5%nat \/ (k = 0%nat /\ disk w (data_path_of script_dir) = None)).
Proof.
  destruct w as [disk0 dirs0 arts0 out0 fig0]. cbn [disk artifacts stdout].
  unfold main. run_simpl.
  fold (data_path_of script_dir). fold (output_dir_of script_dir).
  destruct (disk0 (data_path_of script_dir)) as [[data|e]|] eqn:Hd; cbn [negb]; run_simpl;
    rewrite ?Hd; run_simpl.
  - renderer_step create_price_chart_atomic;
      [|exists 0%nat, []; rewrite <- ?app_assoc; cbn [app];
        eexists _, _, _, _; split; [rewrite app_nil_r; reflexivity|]; main_rest].
    renderer_step create_vpin_chart_atomic; [|main_stopped 1%nat].
    renderer_step create_comparison_chart_atomic; [|main_stopped 2%nat].
    renderer_step create_protection_value_pie_atomic; [|main_stopped 3%nat].
    renderer_step create_trade_distribution_chart_atomic; [|main_stopped 4%nat].
    main_stopped 5%nat.
  - exists 0%nat, []; rewrite <- ?app_assoc; cbn [app].
    eexists _, _, _, _; split; [rewrite app_nil_r; reflexivity|]; main_rest.
  - exists 0%nat, []; rewrite <- ?app_assoc; cbn [app].
    eexists _, _, _, _; split; [rewrite app_nil_r; reflexivity|]; main_rest.
Qed.

(** ** The regime loop on every label sequence *)

(** A span that is a run of its regime: every sample it spans carries the
    span's regime, and the sample after it carries another. *)
Definition run_of (regimes : list string) (s : span) : Prop :=
  (forall i, span_start s <= i <= span_end s -> py_index regimes i = Ok (span_regime s)) /\
  (exists r, py_index regimes (span_end s + 1) = Ok r /\ r <> span_regime s).

Lemma length_snoc {A : Type} (pre : list A) (a : A) :
  Z.of_nat (List.length (pre ++ [a])) = Z.of_nat (List.length pre) + 1.
Proof. rewrite length_app. cbn [List.length]. lia. Qed.

Lemma app_snoc {A : Type} (pre : list A) (a : A) (rest : list A) :
  (pre ++ a :: rest = (pre ++ [a]) ++ rest)%list.
Proof. rewrite <- app_assoc. reflexivity. Qed.

Lemma regime_loop_runs (n : Z) (rest : list string) :
  forall (pre : list string) (prev : string) (start_idx : Z),
    0 <= start_idx < Z.of_nat (List.length pre) ->
    (forall i, start_idx <= i < Z.of_nat (List.length pre) ->
               py_index (pre ++ rest) i = Ok prev) ->
    Forall (run_of (pre ++ rest))
           (regime_loop n rest (Z.of_nat (List.length pre)) (Some prev) start_idx).
Proof.
  induction rest as [|regime rest IH]; intros pre prev start Hs Hrun; cbn [regime_loop];
    [constructor|].
  cbn [regime_changed].
  destruct (String.eqb_spec regime prev) as [->|Hne]; cbn [negb].
  - rewrite (app_snoc pre prev rest), <- (length_snoc pre prev). apply IH.
    + rewrite length_snoc. lia.
    + intros i Hi. rewrite length_snoc in Hi. rewrite <- app_snoc.
      destruct (Z.eq_dec i (Z.of_nat (List.length pre))) as [->|Hi'];
        [apply py_index_app|apply Hrun; lia].
  - cbn [app]. constructor.
    + split; cbn [span_start span_end span_regime].
      * intros i Hi. apply Hrun. lia.
      * exists regime. split; [|exact Hne].
        replace (Z.of_nat (List.length pre) - 1 + 1) with (Z.of_nat (List.length pre)) by lia.
        apply py_index_app.
    + rewrite (app_snoc pre regime rest), <- (length_snoc pre regime). apply IH.
      * rewrite length_snoc. lia.
      * intros i Hi. rewrite length_snoc in Hi. rewrite <- app_snoc.
        replace i with (Z.of_nat (List.length pre)) by lia. apply py_index_app.
Qed.

Lemma regime_loop_labels (n : Z) (regimes : list string) :
  forall (i : Z) (prev_regime : option string) (start_idx : Z),
    Forall (fun s => span_label s =
                     if span_end s =? n - 2 then Some (span_regime s) else None)
           (regime_loop n regimes i prev_regime start_idx).
Proof.
  induction regimes as [|regime rest IH]; intros i prev start; cbn [regime_loop];
    [constructor|].
  destruct (regime_changed regime prev); [|apply IH].
  apply Forall_app. split; [|apply IH].
  destruct prev as [p|]; [|constructor].
  constructor; [|constructor]. cbn [span_label span_end span_regime].
  destruct (Z.eqb_spec i (n - 1)), (Z.eqb_spec (i - 1) (n - 2)); try reflexivity; lia.
Qed.

(** The shaded spans of every label sequence: one per label change, laid end
    to end from index 0 up to the start of the last run, which stays
    unshaded; all indices used are inside the sequence. *)
Theorem regime_spans_tile_up_to_last_run (regimes : list string) :
  let n := Z.of_nat (List.length regimes) in
  List.length (regime_spans regimes) = label_changes regimes /\
  contiguous 0 (regime_spans regimes) (last_run_start regimes) /\
  0 <= last_run_start regimes /\
  (regimes <> [] -> last_run_start regimes < n) /\
  Forall (fun s => 0 <= span_start s <= span_end s /\ span_end s < last_run_start regimes)
         (regime_spans regimes).
Proof.
  intros n. split; [apply regime_spans_length|].
  destruct regimes as [|regime rest].
  - cbn. repeat split; try lia; [constructor|intros H; contradiction H; reflexivity|constructor].
  - destruct (regime_spans_contiguous (regime :: rest)) as [Hc Hb]; [discriminate|].
    split; [exact Hc|]. split; [lia|]. split; [intros _; subst n; lia|].
    clear Hb. revert Hc. generalize (last_run_start (regime :: rest)).
    generalize 0 at 1 2. generalize (regime_spans (regime :: rest)).
    intros spans a b Hc. 
    assert (G : a <= b /\ Forall (fun s => a <= span_start s <= span_end s /\ span_end s < b) spans).
    { induction Hc as [a|a b s rest' Hs Hle Hc [IH1 IH2]]; [split; [lia|constructor]|].
      split; [lia|]. constructor; [lia|].
      eapply Forall_impl; [|exact IH2]. cbn. intros s' H. lia. }
    destruct G as [_ G]. exact G.
Qed.

(** Every shaded span is a run of one regime: all the samples it spans carry
    the regime whose colour it takes, and the sample after it carries another
    regime. *)
Theorem regime_spans_are_runs (regimes : list string) :
  Forall (run_of regimes) (regime_spans regimes).
Proof.
  destruct regimes as [|regime rest]; [constructor|].
  unfold regime_spans. cbn [regime_loop regime_changed app].
  apply (regime_loop_runs _ rest [regime] regime 0); cbn [List.length]; [lia|].
  intros i Hi. replace i with 0 by lia. reflexivity.
Qed.

(** The legend label of a span: a span is labelled, with its regime, exactly
    when it ends at the last but one sample, that is, when it is closed at
    the last sample of the sequence; every other span is unlabelled. *)
Theorem regime_span_labels (regimes : list string) :
  Forall (fun s => span_label s =
                   if span_end s =? Z.of_nat (List.length regimes) - 2
                   then Some (span_regime s) else None)
         (regime_spans regimes).
Proof. apply regime_loop_labels. Qed.

(** ** When the price chart and the VPIN chart are produced *)

Lemma create_price_chart_bad_timestamp (data : document) (output_dir : string) (w : world)
  (e : exn) :
  map_res (fun p => timestamp_to_datetime (price_timestamp p)) (priceData data) = Raise e ->
  create_price_chart data output_dir w = (Raise e, set_figure [] w).
Proof.
  intros H. destruct w. unfold create_price_chart. run_simpl. rewrite H. reflexivity.
Qed.

Lemma create_price_chart_no_sample (data : document) (output_dir : string) (w : world) :
  priceData data = [] ->
  create_price_chart data output_dir w = (Raise IndexError, set_figure [Plot [] []] w).
Proof.
  intros H. destruct w. unfold create_price_chart. run_simpl. rewrite H.
  cbn [map_res map]. run_simpl.
  rewrite (plot_call_run (Plot [] [])) by (split; [reflexivity|constructor]).
  reflexivity.
Qed.

Lemma create_vpin_chart_bad_timestamp (data : document) (output_dir : string) (w : world)
  (e : exn) :
  map_res (fun p => timestamp_to_datetime (vpin_timestamp p)) (vpinData data) = Raise e ->
  create_vpin_chart data output_dir w = (Raise e, set_figure [] w).
Proof.
  intros H. destruct w. unfold create_vpin_chart. run_simpl. rewrite H. reflexivity.
Qed.

(** The number of [axvspan] calls recorded on a figure. *)
Definition count_spans (fig : list draw) : nat :=
  List.length (filter (fun d => match d with AxVSpan _ _ _ _ => true | _ => false end) fig).

Lemma count_spans_app (f g : list draw) :
  count_spans (f ++ g) = (count_spans f + count_spans g)%nat.
Proof. unfold count_spans. rewrite filter_app, length_app. reflexivity. Qed.

Lemma count_spans_map {A : Type} (f : A -> draw) (l : list A) :
  (forall a, exists t0 t1 c lab, f a = AxVSpan t0 t1 c lab) ->
  count_spans (map f l) = List.length l.
Proof.
  intros H. unfold count_spans. induction l as [|a l IH]; [reflexivity|].
  cbn [map filter]. destruct (H a) as (t0 & t1 & c & lab & ->). cbn [List.length].
  f_equal. exact IH.
Qed.

(** The price chart on a document with no price sample: the timestamps and
    the price line are drawn from empty lists, the regime loop does nothing,
    and reading the initial price, [prices[0]], raises IndexError; no file is
    saved and no line is printed. *)
Theorem price_chart_needs_a_sample (data : document) (output_dir : string) (w : world) :
  priceData data = [] ->
  let r := create_price_chart data output_dir w in
  fst r = Raise IndexError /\
  figure (snd r) = [Plot [] []] /\
  artifacts (snd r) = artifacts w /\ stdout (snd r) = stdout w.
Proof.
  intros H r. subst r. rewrite (create_price_chart_no_sample data output_dir w H).
  repeat split.
Qed.

(** The price chart on prices of ordinary size is produced exactly when
    there is a price sample and every timestamp has a time axis point; the
    regime loop itself never raises, and the saved chart holds one shaded
    span per label change. *)
Theorem price_chart_produced_iff (data : document) (output_dir : string) (w : world) :
  Forall ordinary (map price (priceData data)) ->
  let r := create_price_chart data output_dir w in
  (fst r = Ok tt <->
   exists p0 rest timestamps,
     priceData data = p0 :: rest /\
     map_res (fun p => timestamp_to_datetime (price_timestamp p)) (priceData data)
       = Ok timestamps) /\
  (fst r = Ok tt ->
   exists chart,
     artifacts (snd r) = (artifacts w ++ [(path_join output_dir "price_chart.png", chart)])%list /\
     count_spans chart = label_changes (map regime (priceData data))).
Proof.
  intros Hord r. subst r.
  destruct (map_res (fun p => timestamp_to_datetime (price_timestamp p)) (priceData data))
    as [timestamps|e] eqn:Hts.
  2:{ rewrite (create_price_chart_bad_timestamp data output_dir w e Hts).
      split; [split|]; [discriminate| |discriminate].
      intros (? & ? & ? & _ & H). discriminate H. }
  destruct (priceData data) as [|p0 rest] eqn:Hdata.
  { rewrite (create_price_chart_no_sample data output_dir w Hdata).
    split; [split|]; [discriminate| |discriminate].
    intros (? & ? & ? & H & _). discriminate H. }
  assert (Hp0 : ordinary (price p0)) by (inversion Hord; assumption).
  rewrite <- Hdata in Hts, Hord.
  rewrite (create_price_chart_run data output_dir w timestamps p0 rest
             (shown_fixed false 2 (price p0)) Hdata Hts Hord
             (format_fixed_bounded false 2 _ (ordinary_1023 _ Hp0))).
  split; [split|].
  - intros _. exists p0, rest, timestamps. split; reflexivity.
  - reflexivity.
  - intros _. eexists. split; [reflexivity|].
    unfold price_figure. rewrite !count_spans_app.
    rewrite count_spans_map by (intros s; unfold span_draw; eexists _, _, _, _; reflexivity).
    rewrite regime_spans_length. rewrite ?Hdata. cbn. lia.
Qed.

(** The VPIN chart on VPIN values of ordinary size is produced exactly when
    every timestamp has a time axis point: the highlighting loop never
    raises, on an empty sequence included, and the saved chart holds one
    band per sample above 0.5. *)
Theorem vpin_chart_produced_iff (data : document) (output_dir : string) (w : world) :
  Forall ordinary (map vpin (vpinData data)) ->
  let r := create_vpin_chart data output_dir w in
  let vpins := map vpin (vpinData data) in
  (fst r = Ok tt <->
   exists timestamps,
     map_res (fun p => timestamp_to_datetime (vpin_timestamp p)) (vpinData data)
       = Ok timestamps) /\
  (fst r = Ok tt ->
   exists chart,
     artifacts (snd r) = (artifacts w ++ [(path_join output_dir "vpin_chart.png", chart)])%list /\
     count_spans chart =
       List.length (filter (breach vpins) (range (List.length vpins)))) /\
  (vpinData data = [] -> fst r = Ok tt).
Proof.
  intros Hord r vpins. subst r.
  destruct (map_res (fun p => timestamp_to_datetime (vpin_timestamp p)) (vpinData data))
    as [timestamps|e] eqn:Hts.
  - rewrite (create_vpin_chart_run data output_dir w timestamps Hts Hord).
    split; [split|split].
    + intros _. exists timestamps. reflexivity.
    + reflexivity.
    + intros _. eexists. split; [reflexivity|].
      unfold vpin_figure. rewrite !count_spans_app.
      rewrite count_spans_map by (intros b; unfold band_draw; eexists _, _, _, _; reflexivity).
      fold vpins. rewrite vpin_bands_spec. unfold spec_vpin_bands. rewrite length_map.
      cbn. lia.
    + reflexivity.
  - rewrite (create_vpin_chart_bad_timestamp data output_dir w e Hts).
    split; [split|split]; try discriminate.
    + intros (? & H). discriminate H.
    + intros H. rewrite H in Hts. discriminate Hts.
Qed.

(** ** The comparison chart on a zero balance *)

Definition is_zero (x : pynum) : Prop :=
  match x with
  | PInt z => z = 0
  | PFloat f => f64_is_zero f = true
  end.

Lemma py_truediv_by_zero (a b : pynum) :
  bounded 1023 a -> is_zero b -> py_truediv a b = Raise ZeroDivisionError.
Proof.
  intros Ha Hb. destruct a as [x|f], b as [y|g]; cbn [is_zero bounded] in *.
  - subst y. reflexivity.
  - unfold py_truediv. destruct (to_float_int_ok x Ha) as (fx & ->).
    cbn [res_bind to_float]. rewrite Hb. reflexivity.
  - subst y. reflexivity.
  - unfold py_truediv. cbn [res_bind to_float]. rewrite Hb. reflexivity.
Qed.

(** The comparison chart on a balance of zero (the integer 0 or a float
    zero), with scenario figures of ordinary size: the bars and their labels
    are drawn, then the division by the balance raises ZeroDivisionError; no
    file is saved and no line is printed. *)
Theorem comparison_chart_zero_balance (data : document) (output_dir : string) (w : world) :
  scenario_ordinary (withoutProtection data) ->
  scenario_ordinary (withProtection data) ->
  ordinary (gapAuctionGains (withProtection data)) ->
  is_zero (initialLPBalance (config data)) ->
  let r := create_comparison_chart data output_dir w in
  fst r = Raise ZeroDivisionError /\
  figure (snd r) = (comparison_bars data ++ comparison_labels data)%list /\
  artifacts (snd r) = artifacts w /\ stdout (snd r) = stdout w.
Proof.
  intros Hwo Hwi Hga Hz r. subst r.
  destruct (scenario_vectors_ordinary data Hwo Hwi Hga) as (B1 & B2 & B3).
  destruct Hwo as (_ & _ & _ & _ & N1). destruct Hwi as (_ & _ & _ & _ & N2).
  apply ordinary_moderate in N1, N2.
  destruct (py_sub_bounded 1000 _ _ ltac:(lia) N2 N1) as (imp & Himp & Hib).
  assert (Hib' : bounded 1023 imp) by (eapply bounded_weaken; [|exact Hib]; lia).
  change (improvement_of data = Ok imp) in Himp.
  assert (Hpct : improvement_pct_of data imp = Raise ZeroDivisionError).
  { unfold improvement_pct_of. rewrite (py_truediv_by_zero _ _ Hib' Hz). reflexivity. }
  destruct w. unfold create_comparison_chart. run_simpl.
  rewrite (plot_call_run (Bar _ _ _)) by exact B1. run_simpl.
  rewrite (plot_call_run (Bar _ _ _)) by exact B2. run_simpl.
  rewrite (annotate_heights_run _ _ (ordinary_all_1023 _ B1)). run_simpl.
  rewrite (annotate_heights_run _ _ (ordinary_all_1023 _ B2)). run_simpl.
  fold (net_values data).
  rewrite (plot_call_run (Bar _ _ _)) by exact B3. run_simpl.
  rewrite (annotate_values_run _ _ (ordinary_all_1023 _ B3)). run_simpl.
  rewrite Himp, Hpct.
  unfold comparison_labels, comparison_bars. cbn [app]. rewrite <- ?app_assoc.
  repeat split.
Qed.

(** ** The trade distribution chart on integer volumes *)

Definition nat_volume (t : trade) : Prop := exists z, volume t = PInt z /\ 0 <= z.

Lemma int_sum_filter_nonneg (p : trade -> bool) (trades : list trade) :
  Forall nat_volume trades -> 0 <= int_sum (map volume (filter p trades)).
Proof.
  induction 1 as [|t trades (z & Hz & Hpos) _ IH]; cbn [filter map int_sum fold_right]; [lia|].
  destruct (p t); [|exact IH]. cbn [map int_sum fold_right]. rewrite Hz. cbn [int_of].
  fold (int_sum (map volume (filter p trades))). lia.
Qed.

Lemma int_sum_positive (trades : list trade) :
  Forall nat_volume trades ->
  Exists (fun t => exists z, volume t = PInt z /\ 0 < z) trades ->
  0 < int_sum (map volume trades).
Proof.
  intros HF HE. induction HE as [t trades (z & Hz & Hpos)|t trades HE IH].
  - inversion HF as [|? ? _ HF']; subst.
    pose proof (int_sum_filter_nonneg (fun _ => true) trades HF') as Hn.
    replace (filter (fun _ => true) trades) with trades in Hn
      by (clear; induction trades as [|a l IHl]; cbn; [|rewrite <- IHl]; reflexivity).
    cbn [map int_sum fold_right]. rewrite Hz. cbn [int_of].
    fold (int_sum (map volume trades)). lia.
  - inversion HF as [|? ? (z & Hz & Hpos) HF']; subst.
    specialize (IH HF'). cbn [map int_sum fold_right]. rewrite Hz. cbn [int_of].
    fold (int_sum (map volume trades)). lia.
Qed.

Lemma pie_drawable_ints (a b : Z) :
  0 <= a -> 0 <= b -> 0 < a + b -> pie_drawable [PInt a; PInt b] = true.
Proof.
  intros Ha Hb Hab. unfold pie_drawable, py_sum, py_lt, py_gt.
  cbn [forallb py_compare py_sum_from py_add py_arith res_bind Z.add].
  destruct (Z.compare_spec a 0), (Z.compare_spec b 0), (Z.compare_spec (a + b) 0);
    try lia; reflexivity.
Qed.

Lemma nat_volume_int (trades : list trade) : Forall nat_volume trades -> Forall int_volume trades.
Proof. apply Forall_impl. intros t (z & Hz & _). exists z. exact Hz. Qed.

(** The four sums of a list of integer volumes. *)
Definition int_informed (trades : list trade) : Z :=
  int_sum (map volume (filter isInformed trades)).
Definition int_retail (trades : list trade) : Z :=
  int_sum (map volume (filter (fun t => negb (isInformed t)) trades)).
Definition int_buy (trades : list trade) : Z :=
  int_sum (map volume (filter isBuy trades)).
Definition int_sell (trades : list trade) : Z :=
  int_sum (map volume (filter (fun t => negb (isBuy t)) trades)).

Lemma trade_chart_integer_run (data : document) (output_dir : string) (w : world) :
  Forall nat_volume (tradeData data) ->
  Exists (fun t => exists z, volume t = PInt z /\ 0 < z) (tradeData data) ->
  int_sum (map volume (tradeData data)) < 2 ^ 62 ->
  create_trade_distribution_chart data output_dir w =
  (Ok tt, rendered (path_join output_dir "trade_distribution.png")
                   (trade_figure (PInt (int_informed (tradeData data)))
                                 (PInt (int_retail (tradeData data)))
                                 (PInt (int_buy (tradeData data)))
                                 (PInt (int_sell (tradeData data))))
                   "‚úÖ Created: trade_distribution.png" w).
Proof.
  intros HF HE Hlt. unfold int_informed, int_retail, int_buy, int_sell.
  set (trades := tradeData data) in *.
  pose proof (nat_volume_int trades HF) as HI.
  pose proof (py_sum_from_ints _ (int_volumes_filter isInformed trades HI) 0) as Hi.
  pose proof (py_sum_from_ints _ (int_volumes_filter (fun t => negb (isInformed t)) trades HI) 0) as Hr.
  pose proof (py_sum_from_ints _ (int_volumes_filter isBuy trades HI) 0) as Hb.
  pose proof (py_sum_from_ints _ (int_volumes_filter (fun t => negb (isBuy t)) trades HI) 0) as Hs.
  pose proof (int_sum_split isInformed trades) as S1.
  pose proof (int_sum_split isBuy trades) as S2.
  pose proof (int_sum_positive trades HF HE) as Hpos.
  pose proof (int_sum_filter_nonneg isInformed trades HF) as Pi.
  pose proof (int_sum_filter_nonneg (fun t => negb (isInformed t)) trades HF) as Pr.
  pose proof (int_sum_filter_nonneg isBuy trades HF) as Pb.
  pose proof (int_sum_filter_nonneg (fun t => negb (isBuy t)) trades HF) as Ps.
  cbn [Z.add] in Hi, Hr, Hb, Hs.
  apply create_trade_distribution_chart_run; try assumption;
    [repeat constructor; cbn [ordinary]; lia | |]; apply pie_drawable_ints; lia.
Qed.

(** The trade distribution chart on integer volumes that are not negative,
    at least one of them positive, with a total below 2^62: the four sums
    are the exact integer sums, informed plus retail equals buy plus sell and
    is positive, both pies are drawn and the chart is saved. *)
Theorem trade_chart_on_integer_volumes (data : document) (output_dir : string) (w : world) :
  Forall nat_volume (tradeData data) ->
  Exists (fun t => exists z, volume t = PInt z /\ 0 < z) (tradeData data) ->
  int_sum (map volume (tradeData data)) < 2 ^ 62 ->
  exists informed retail buy sell : Z,
    informed_vol (tradeData data) = Ok (PInt informed) /\
    retail_vol (tradeData data) = Ok (PInt retail) /\
    buy_vol (tradeData data) = Ok (PInt buy) /\
    sell_vol (tradeData data) = Ok (PInt sell) /\
    0 <= informed /\ 0 <= retail /\ 0 <= buy /\ 0 <= sell /\
    informed + retail = buy + sell /\ 0 < informed + retail /\
    create_trade_distribution_chart data output_dir w =
    (Ok tt, rendered (path_join output_dir "trade_distribution.png")
                     (trade_figure (PInt informed) (PInt retail) (PInt buy) (PInt sell))
                     "‚úÖ Created: trade_distribution.png" w).
Proof.
  intros HF HE Hlt.
  exists (int_informed (tradeData data)), (int_retail (tradeData data)),
         (int_buy (tradeData data)), (int_sell (tradeData data)).
  pose proof (nat_volume_int _ HF) as HI.
  pose proof (int_sum_split isInformed (tradeData data)) as S1.
  pose proof (int_sum_split isBuy (tradeData data)) as S2.
  pose proof (int_sum_positive _ HF HE) as Hpos.
  unfold int_informed, int_retail, int_buy, int_sell,
         informed_vol, retail_vol, buy_vol, sell_vol, py_sum in *.
  split; [exact (py_sum_from_ints _ (int_volumes_filter _ _ HI) 0)|].
  split; [exact (py_sum_from_ints _ (int_volumes_filter _ _ HI) 0)|].
  split; [exact (py_sum_from_ints _ (int_volumes_filter _ _ HI) 0)|].
  split; [exact (py_sum_from_ints _ (int_volumes_filter _ _ HI) 0)|].
  split; [apply int_sum_filter_nonneg; exact HF|].
  split; [apply int_sum_filter_nonneg; exact HF|].
  split; [apply int_sum_filter_nonneg; exact HF|].
  split; [apply int_sum_filter_nonneg; exact HF|].
  split; [lia|]. split; [lia|].
  exact (trade_chart_integer_run data output_dir w HF HE Hlt).
Qed.

Lemma int_sum_filter_permutation (p : trade -> bool) (l1 l2 : list trade) :
  Permutation l1 l2 ->
  int_sum (map volume (filter p l1)) = int_sum (map volume (filter p l2)).
Proof.
  induction 1 as [|x l1 l2 _ IH|x y l|l1 l2 l3 _ IH1 _ IH2].
  - reflexivity.
  - cbn [filter]. destruct (p x); cbn [map int_sum fold_right]; [|exact IH].
    fold (int_sum (map volume (filter p l1))) (int_sum (map volume (filter p l2))). lia.
  - cbn [filter]. destruct (p x), (p y); cbn [map int_sum fold_right]; lia.
  - congruence.
Qed.

(** On integer volumes the four sums do not depend on the order of the
    trades: any reordering of the trade list gives the same four sums. *)
Theorem integer_sums_ignore_trade_order (trades1 trades2 : list trade) :
  Permutation trades1 trades2 ->
  Forall int_volume trades1 ->
  informed_vol trades1 = informed_vol trades2 /\
  retail_vol trades1 = retail_vol trades2 /\
  buy_vol trades1 = buy_vol trades2 /\
  sell_vol trades1 = sell_vol trades2.
Proof.
  intros HP H1.
  assert (H2 : Forall int_volume trades2) by (eapply Permutation_Forall; eassumption).
  unfold informed_vol, retail_vol, buy_vol, sell_vol, py_sum.
  rewrite !(fun p l H => py_sum_from_ints _ (int_volumes_filter p l H) 0) by assumption.
  rewrite (int_sum_filter_permutation isInformed _ _ HP),
          (int_sum_filter_permutation (fun t => negb (isInformed t)) _ _ HP),
          (int_sum_filter_permutation isBuy _ _ HP),
          (int_sum_filter_permutation (fun t => negb (isBuy t)) _ _ HP).
  repeat split.
Qed.

(** ** [main] on every input *)

(** Each of the five renderers is all or nothing, on every document and from
    every world: it returns with its one file saved under its own name, its
    created line printed and the figure closed, or it raises with no file
    saved and no line printed. *)
Theorem renderers_all_or_nothing (data : document) (output_dir : string) :
  all_or_nothing (path_join output_dir "price_chart.png")
                 "‚úÖ Created: price_chart.png"
                 (create_price_chart data output_dir) /\
  all_or_nothing (path_join output_dir "vpin_chart.png")
                 "‚úÖ Created: vpin_chart.png"
                 (create_vpin_chart data output_dir) /\
  all_or_nothing (path_join output_dir "comparison_chart.png")
                 "‚úÖ Created: comparison_chart.png"
                 (create_comparison_chart data output_dir) /\
  all_or_nothing (path_join output_dir "protection_value_pie.png")
                 "‚úÖ Created: protection_value_pie.png"
                 (create_protection_value_pie data output_dir) /\
  all_or_nothing (path_join output_dir "trade_distribution.png")
                 "‚úÖ Created: trade_distribution.png"
                 (create_trade_distribution_chart data output_dir).
Proof.
  split; [|split; [|split; [|split]]]; apply atomic_all_or_nothing.
  - apply create_price_chart_atomic.
  - apply create_vpin_chart_atomic.
  - apply create_comparison_chart_atomic.
  - apply create_protection_value_pie_atomic.
  - apply create_trade_distribution_chart_atomic.
Qed.

(** On every run of [main], whether it returns or raises: the files saved are
    the first [k] of the five charts, in rendering order, and the created
    lines printed are those of the same [k] charts; the disk is not written;
    a run that raises has saved fewer than five, and a run that returns has
    saved all five, or none because the data file is missing. *)
Theorem main_created_lines_match_artifacts (script_dir : string) (w : world) :
  let r := main script_dir w in
  exists (k : nat) (added : list (string * list draw)) (new : list string),
    (k <= 5)%nat /\
    artifacts (snd r) = (artifacts w ++ added)%list /\
    map fst added = map (path_join (output_dir_of script_dir)) (firstn k artifact_names) /\
    stdout (snd r) = (stdout w ++ new)%list /\
    created_lines new = map (String.append "‚úÖ Created: ") (firstn k artifact_names) /\
    disk (snd r) = disk w /\
    (forall e, fst r = Raise e -> (k < 5)%nat) /\
    (fst r = Ok tt -> k = 5%nat \/ (k = 0%nat /\ disk w (data_path_of script_dir) = None)).
Proof.
  intros r. subst r.
  destruct (main_outcome script_dir w)
    as (k & added & new & r & dirs & fig & -> & Hk & Ha & Hn & Hr & Hok).
  exists k, added, new. cbn [fst snd artifacts stdout disk].
  repeat split; assumption.
Qed.

Definition loading_line (script_dir : string) : string :=
  nl ++ "üìÇ Loading: " ++ data_path_of script_dir.

Definition generating_line : string := nl ++ "üìà Generating charts...".

(** A data file that exists and cannot be loaded: [main] has no handler, the
    exception of [load_data] leaves [main] after the banner, the rule and
    the loading line; the output directory is not created and nothing is
    saved. *)
Theorem main_propagates_load_error (script_dir : string) (w : world) (e : exn) :
  disk w (data_path_of script_dir) = Some (Raise e) ->
  let r := main script_dir w in
  fst r = Raise e /\
  stdout (snd r) =
    (stdout w ++ [banner; rule; loading_line script_dir])%list /\
  directories (snd r) = directories w /\
  artifacts (snd r) = artifacts w.
Proof.
  intros Hd r. subst r. destruct w. cbn [disk directories artifacts stdout] in *.
  unfold main. run_simpl.
  fold (data_path_of script_dir). rewrite Hd. cbn [negb]. run_simpl.
  rewrite Hd. rewrite <- ?app_assoc. cbn [app]. repeat split.
Qed.

(** [main] stops at the first renderer that raises: on a document with no
    price sample the output directory is created, the price chart raises
    IndexError, and [main] raises it with no chart saved and no created line
    printed; the four other renderers are not run. *)
Theorem main_stops_at_first_failure (script_dir : string) (data : document) (w : world) :
  disk w (data_path_of script_dir) = Some (Ok data) ->
  priceData data = [] ->
  let r := main script_dir w in
  fst r = Raise IndexError /\
  artifacts (snd r) = artifacts w /\
  In (output_dir_of script_dir) (directories (snd r)) /\
  stdout (snd r) =
    (stdout w ++ [banner; rule; loading_line script_dir;
                  config_line data; generating_line])%list.
Proof.
  intros Hd Hp r. subst r. destruct w as [disk0 dirs0 arts0 out0 fig0].
  cbn [disk directories artifacts stdout] in *.
  unfold main. run_simpl.
  fold (data_path_of script_dir). fold (output_dir_of script_dir).
  rewrite Hd. cbn [negb]. run_simpl. rewrite Hd. run_simpl.
  rewrite (create_price_chart_no_sample data _ _ Hp). run_simpl.
  rewrite <- ?app_assoc. cbn [app]. repeat split.
  destruct (existsb (String.eqb (output_dir_of script_dir)) dirs0) eqn:E.
  - apply existsb_exists in E. destruct E as (d & Hin & Heq).
    apply String.eqb_eq in Heq. subst d. exact Hin.
  - apply in_or_app. right. left. reflexivity.
Qed.

(** ** [main] on a well-formed document of any size *)

Definition timestamp_in_range (x : pynum) : Prop :=
  exists ts, x = PInt ts /\ 0 <= ts <= MAX_TIMESTAMP_MS.

(** A well-formed document: at least one price sample; integer millisecond
    timestamps up to [MAX_TIMESTAMP_MS]; every price and every VPIN value of
    ordinary size; integer trade volumes, none negative and one positive,
    with a total below 2^62; scenario figures and contributions of ordinary
    size and a balance that is not zero. *)
Definition well_formed_document (data : document) : Prop :=
  (exists p0 rest, priceData data = p0 :: rest) /\
  Forall ordinary (map price (priceData data)) /\
  Forall (fun p => timestamp_in_range (price_timestamp p)) (priceData data) /\
  Forall ordinary (map vpin (vpinData data)) /\
  Forall (fun v => timestamp_in_range (vpin_timestamp v)) (vpinData data) /\
  Forall nat_volume (tradeData data) /\
  Exists (fun t => exists z, volume t = PInt z /\ 0 < z) (tradeData data) /\
  int_sum (map volume (tradeData data)) < 2 ^ 62 /\
  comparison_inputs_ok data /\
  Forall ordinary (raw_contributions (comparison data)).

Lemma map_res_ok {A B : Type} (f : A -> res B) (l : list A) :
  Forall (fun a => exists b, f a = Ok b) l -> exists bs, map_res f l = Ok bs.
Proof.
  induction 1 as [|a l (b & Hb) _ (bs & IH)]; cbn [map_res].
  - eexists; reflexivity.
  - rewrite Hb, IH. eexists; reflexivity.
Qed.

Lemma timestamps_convert {A : Type} (stamp : A -> pynum) (l : list A) :
  Forall (fun a => timestamp_in_range (stamp a)) l ->
  exists timestamps, map_res (fun a => timestamp_to_datetime (stamp a)) l = Ok timestamps.
Proof.
  intros H. apply map_res_ok. eapply Forall_impl; [|exact H].
  intros a (ts & -> & Hts). apply timestamp_to_datetime_ok. exact Hts.
Qed.

(** The five charts of a well-formed document, from any world. *)
Lemma well_formed_charts (data : document) (output_dir : string) :
  well_formed_document data ->
  exists f1 f2 f3 f4 f5,
    (forall w, create_price_chart data output_dir w =
       (Ok tt, rendered (path_join output_dir "price_chart.png") f1
                        "‚úÖ Created: price_chart.png" w)) /\
    (forall w, create_vpin_chart data output_dir w =
       (Ok tt, rendered (path_join output_dir "vpin_chart.png") f2
                        "‚úÖ Created: vpin_chart.png" w)) /\
    (forall w, create_comparison_chart data output_dir w =
       (Ok tt, rendered (path_join output_dir "comparison_chart.png") f3
                        "‚úÖ Created: comparison_chart.png" w)) /\
    (forall w, create_protection_value_pie data output_dir w =
       (Ok tt, rendered (path_join output_dir "protection_value_pie.png") f4
                        "‚úÖ Created: protection_value_pie.png" w)) /\
    (forall w, create_trade_distribution_chart data output_dir w =
       (Ok tt, rendered (path_join output_dir "trade_distribution.png") f5
                        "‚úÖ Created: trade_distribution.png" w)).
Proof.
  intros ((p0 & rest & Hp) & Hpo & Hpt & Hvo & Hvt & Hnat & Hpos & Hlt & Hcmp & Hraw).
  assert (Hmp : ordinary (price p0)).
  { rewrite Hp in Hpo. cbn [map] in Hpo. inversion Hpo; assumption. }
  destruct (timestamps_convert price_timestamp _ Hpt) as (tp & Htp).
  destruct (timestamps_convert vpin_timestamp _ Hvt) as (tv & Htv).
  destruct (improvement_defined data Hcmp)
    as (imp & ratio & pct & y & Hi & Hr & Hpc & Hbi & Hbp & Hy).
  destruct (comparison_values_ordinary data Hcmp) as (B1 & B2 & B3).
  destruct (protection_total_defined _ Hraw) as (total & Hsum & Hbt).
  assert (Hpct : improvement_pct_of data imp = Ok pct)
    by (unfold improvement_pct_of; rewrite Hr; exact Hpc).
  eexists _, _, _, _, _. split; [|split; [|split; [|split]]]; intros w.
  - apply (create_price_chart_run data output_dir w tp p0 rest);
      [exact Hp|exact Htp|exact Hpo|].
    apply format_fixed_bounded, ordinary_1023; exact Hmp.
  - apply create_vpin_chart_run; [exact Htv|exact Hvo].
  - exact (create_comparison_chart_run data _ w imp pct y _ _
             B1 B2 B3 Hi Hpct (format_fixed_bounded true 0 imp Hbi)
             (format_fixed_bounded false 1 pct Hbp) Hy).
  - apply create_protection_value_pie_run; eassumption.
  - exact (trade_chart_integer_run data output_dir w Hnat Hpos Hlt).
Qed.

Lemma main_well_formed_run (script_dir : string) (data : document) :
  well_formed_document data ->
  exists f1 f2 f3 f4 f5,
    forall w,
      disk w (data_path_of script_dir) = Some (Ok data) ->
      main script_dir w =
      (Ok tt,
       {| disk := disk w;
          directories := if existsb (String.eqb (output_dir_of script_dir)) (directories w)
                         then directories w
                         else directories w ++ [output_dir_of script_dir];
          artifacts := artifacts w ++
            [ (path_join (output_dir_of script_dir) "price_chart.png", f1);
              (path_join (output_dir_of script_dir) "vpin_chart.png", f2);
              (path_join (output_dir_of script_dir) "comparison_chart.png", f3);
              (path_join (output_dir_of script_dir) "protection_value_pie.png", f4);
              (path_join (output_dir_of script_dir) "trade_distribution.png", f5) ];
          stdout := stdout w ++ success_lines script_dir data;
          figure := [] |}).
Proof.
  intros H.
  destruct (well_formed_charts data (output_dir_of script_dir) H)
    as (f1 & f2 & f3 & f4 & f5 & H1 & H2 & H3 & H4 & H5).
  exists f1, f2, f3, f4, f5. intros w Hd. apply main_success_run; assumption.
Qed.

Lemma makedirs_present (dir : string) (dirs : list string) :
  let dirs' := if existsb (String.eqb dir) dirs then dirs else (dirs ++ [dir])%list in
  In dir dirs' /\ existsb (String.eqb dir) dirs' = true.
Proof.
  intros dirs'. subst dirs'. destruct (existsb (String.eqb dir) dirs) eqn:E.
  - split; [|exact E]. apply existsb_exists in E. destruct E as (d & Hin & Heq).
    apply String.eqb_eq in Heq. subst d. exact Hin.
  - split; [apply in_or_app; right; left; reflexivity|].
    rewrite existsb_app. cbn [existsb]. rewrite String.eqb_refl, orb_true_r. reflexivity.
Qed.

(** [main] on a well-formed document of any size found at the data path: it
    returns, the output directory exists afterwards, the five charts are
    saved in rendering order, the figure is closed, and the lines printed
    are exactly the thirteen lines of a successful run. *)
Theorem main_succeeds_on_well_formed (script_dir : string) (data : document) (w : world) :
  disk w (data_path_of script_dir) = Some (Ok data) ->
  well_formed_document data ->
  let r := main script_dir w in
  let out := output_dir_of script_dir in
  fst r = Ok tt /\
  (exists c1 c2 c3 c4 c5,
      artifacts (snd r) =
      (artifacts w ++
       [ (path_join out "price_chart.png", c1);
         (path_join out "vpin_chart.png", c2);
         (path_join out "comparison_chart.png", c3);
         (path_join out "protection_value_pie.png", c4);
         (path_join out "trade_distribution.png", c5) ])%list) /\
  stdout (snd r) = (stdout w ++ success_lines script_dir data)%list /\
  List.length (success_lines script_dir data) = 13%nat /\
  In out (directories (snd r)) /\
  figure (snd r) = [] /\
  disk (snd r) = disk w.
Proof.
  intros Hd Hwf r out. subst r out.
  destruct (main_well_formed_run script_dir data Hwf) as (f1 & f2 & f3 & f4 & f5 & Hrun).
  rewrite (Hrun w Hd). cbn [fst snd artifacts stdout directories figure disk].
  split; [reflexivity|]. split; [exists f1, f2, f3, f4, f5; reflexivity|].
  split; [reflexivity|]. split; [reflexivity|].
  split; [apply makedirs_present|]. split; reflexivity.
Qed.

(** [main] run a second time on the world the first run left: the directory
    is there and [os.makedirs] leaves the directories as they are, the same
    five charts are saved again after the first five, and the same thirteen
    lines are printed again. *)
Theorem main_run_again (script_dir : string) (data : document) (w : world) :
  disk w (data_path_of script_dir) = Some (Ok data) ->
  well_formed_document data ->
  let r1 := main script_dir w in
  let r2 := main script_dir (snd r1) in
  fst r2 = Ok tt /\
  directories (snd r2) = directories (snd r1) /\
  (exists charts,
      List.length charts = 5%nat /\
      artifacts (snd r1) = (artifacts w ++ charts)%list /\
      artifacts (snd r2) = (artifacts w ++ charts ++ charts)%list) /\
  stdout (snd r2) =
    (stdout w ++ success_lines script_dir data ++ success_lines script_dir data)%list.
Proof.
  intros Hd Hwf r1 r2. subst r2 r1.
  destruct (main_well_formed_run script_dir data Hwf) as (f1 & f2 & f3 & f4 & f5 & Hrun).
  rewrite (Hrun w Hd). cbn [snd].
  rewrite Hrun by exact Hd.
  cbn [fst snd artifacts stdout directories figure disk].
  destruct (makedirs_present (output_dir_of script_dir) (directories w)) as [_ ->].
  split; [reflexivity|]. split; [reflexivity|]. split.
  - eexists. split; [|split; [reflexivity|]]; [reflexivity|].
    rewrite <- app_assoc. reflexivity.
  - rewrite <- app_assoc. reflexivity.
Qed.

End Program.

(** * Concrete inputs: witnesses and counterexamples *)

(** A platform for the concrete runs: a [localtime] that converts every
    second count, the UTC zone, a stand-in for the shortest-repr printing of
    a float (one decimal place), which no claim depends on, and plotting and
    array libraries that refuse nothing. *)
Definition every_second (_ : Z) : bool := true.

Definition utc_zone (_ : Z) : Z := 0.

Definition fixed_repr (grouped : bool) (f : spec_float) : string :=
  format_fixed_f64 grouped 1 f.

Definition lenient_mpl (_ : draw) : option exn := None.

Definition lenient_np (_ : list pynum) : option exn := None.

Lemma every_second_range : forall s, - 2 ^ 55 <= s <= 2 ^ 55 -> every_second s = true.
Proof. intros s _. reflexivity. Defined.

Lemma utc_zone_range : forall s, -86400 < utc_zone s < 86400.
Proof. intros s. unfold utc_zone. lia. Defined.

Lemma lenient_mpl_accepts : forall d, accepted d -> lenient_mpl d = None.
Proof. intros d _. reflexivity. Defined.

Lemma lenient_np_accepts : forall ys, Forall ordinary ys -> lenient_np ys = None.
Proof. intros ys _. reflexivity. Defined.

(** [main] and the renderers on this platform. *)
Definition run_main : string -> M unit :=
  main every_second utc_zone fixed_repr lenient_mpl lenient_np.

Ltac ordinary_literal := vm_compute; split; intros H; discriminate H.

Ltac ordinary_literals :=
  repeat (apply Forall_cons; [first [reflexivity | ordinary_literal]|]); apply Forall_nil.

Lemma example_prices_ordinary : ordinary (f64_lit 15025 100) /\ ordinary (f64_lit 15031 100).
Proof. split; ordinary_literal. Qed.

Lemma example_vpin_ordinary : ordinary (f64_lit 6 10) /\ ordinary (f64_lit 2 10).
Proof. split; ordinary_literal. Qed.

Lemma example_raw_contributions_ordinary :
  Forall ordinary (raw_contributions (comparison example_document)).
Proof.
  unfold raw_contributions, example_document; cbn [comparison feeImprovement
    adverseSelectionReduction gapProtectionValue].
  ordinary_literals.
Qed.

(** Three trades with integer volumes. *)
Definition integer_trades : list trade :=
  [ {| volume := PInt 100; isInformed := true; isBuy := true |};
    {| volume := PInt 250; isInformed := true; isBuy := false |};
    {| volume := PInt 75; isInformed := false; isBuy := false |} ].

Lemma protection_value_clipping_witness :
  create_protection_value_pie lenient_mpl example_document "graphs" empty_world =
  (Ok tt, rendered (path_join "graphs" "protection_value_pie.png")
                   [Pie [PInt 700; PInt 0; f64_lit 1701 2] protection_labels;
                    SetTitle (protection_title "1,550")]
                   "‚úÖ Created: protection_value_pie.png" empty_world).
Proof.
  pose proof (protection_value_clipping lenient_mpl lenient_mpl_accepts example_document
                "graphs" empty_world) as (_ & _ & _ & _ & Hpie & _).
  exact (Hpie (f64_lit 3101 2) example_raw_contributions_ordinary eq_refl eq_refl).
Defined.

(** C4, the claim as stated fails on fractional volumes: with volumes 0.1,
    0.2 (informed) and 0.3 (retail), of which 0.1 is a buy, informed plus
    retail is (0.1 + 0.2) + 0.3 = 0.6000000000000001 and buy plus sell is
    0.1 + (0.2 + 0.3) = 0.6. *)
Lemma cross_check_fails_on_fractions : ~ cross_check fractional_trades.
Proof.
  intros (i & r & b & s & by_type & by_direction & total &
          Hi & Hr & Hb & Hs & Ht & Hd & _ & Heq & _).
  vm_compute in Hi, Hr, Hb, Hs.
  injection Hi as <-. injection Hr as <-. injection Hb as <-. injection Hs as <-.
  vm_compute in Ht, Hd. injection Ht as <-. injection Hd as <-.
  vm_compute in Heq. discriminate Heq.
Qed.

Lemma volume_split_cross_check_witness :
  Forall int_volume integer_trades /\
  cross_check integer_trades /\
  exists informed retail buy sell : Z,
    informed_vol integer_trades = Ok (PInt informed) /\
    retail_vol integer_trades = Ok (PInt retail) /\
    buy_vol integer_trades = Ok (PInt buy) /\ sell_vol integer_trades = Ok (PInt sell) /\
    informed + retail = buy + sell /\
    total_vol integer_trades = Ok (PInt (informed + retail)).
Proof.
  assert (H : Forall int_volume integer_trades)
    by (repeat constructor; eexists; reflexivity).
  split; [exact H|]. exact (volume_split_cross_check integer_trades H).
Defined.

Lemma net_improvement_annotation_witness :
  comparison_inputs_ok example_document /\
  improvement_of example_document = Ok (PInt 1500) /\
  improvement_pct_of example_document (PInt 1500) = Ok (f64_lit 3 2).
Proof.
  split; [exact example_comparison_inputs_ok|].
  pose proof (net_improvement_annotation lenient_mpl lenient_mpl_accepts example_document
                "graphs" empty_world example_comparison_inputs_ok) as (_ & H1 & H2 & _).
  split; [exact H1|exact H2].
Defined.

Lemma pnl_sign_convention_witness :
  nth_error (without_vals (withoutProtection example_document)) 4 = Some (PInt 0).
Proof.
  exact (proj1 (pnl_sign_convention lenient_mpl lenient_mpl_accepts example_document
                  "graphs" empty_world)).
Defined.

(** C7, the claim as stated fails: on a missing data file the run prints
    two lines that name the path or the command, not one, and neither line
    names both. *)
Lemma two_diagnostic_lines :
  ~ one_line_diagnostic every_second utc_zone fixed_repr lenient_mpl lenient_np
      "/app" empty_world.
Proof.
  intros (new & line & Hnew & Hd & _).
  rewrite (main_missing_run every_second utc_zone fixed_repr lenient_mpl lenient_np
             "/app" empty_world eq_refl) in Hnew.
  cbn [snd set_stdout stdout empty_world app] in Hnew. subst new.
  vm_compute in Hd. discriminate Hd.
Qed.

Lemma missing_file_diagnostic_witness :
  disk empty_world (data_path_of "/app") = None /\
  fst (run_main "/app" empty_world) = Ok tt /\
  artifacts (snd (run_main "/app" empty_world)) = [].
Proof.
  split; [reflexivity|].
  pose proof (missing_file_diagnostic every_second utc_zone fixed_repr lenient_mpl lenient_np
                "/app" empty_world eq_refl) as (H1 & H2 & _).
  split; [exact H1|exact H2].
Defined.

(** C9, the claim as stated fails: the timestamp 10^18 ms, a second count
    in year 31690708, is a non-negative integer with no time axis point
    ([datetime.fromtimestamp] raises ValueError: year out of range). *)
Lemma timestamp_conversion_not_total :
  ~ (forall ts, 0 <= ts ->
       exists d, timestamp_to_datetime every_second utc_zone (PInt ts) = Ok d).
Proof.
  intros H. destruct (H (10 ^ 18) ltac:(lia)) as (d & Hd).
  vm_compute in Hd. discriminate Hd.
Qed.

Lemma timestamp_conversion_in_range_witness :
  0 <= 1700000000000 <= MAX_TIMESTAMP_MS /\
  exists d, timestamp_to_datetime every_second utc_zone (PInt 1700000000000) = Ok d /\
            MIN_SECOND <= dt_second d <= MAX_SECOND.
Proof.
  assert (H : 0 <= 1700000000000 <= MAX_TIMESTAMP_MS) by (unfold MAX_TIMESTAMP_MS; lia).
  split; [exact H|].
  exact (timestamp_conversion_in_range every_second utc_zone every_second_range
           utc_zone_range 1700000000000 H).
Defined.

Lemma example_document_minimal : minimal_document example_document.
Proof.
  unfold minimal_document. split; [|split; [|split; [|split]]].
  - eexists _, _. split; [reflexivity|]. split; [reflexivity|].
    split; [unfold MAX_TIMESTAMP_MS; lia|exact (proj1 example_prices_ordinary)].
  - eexists _, _. split; [reflexivity|]. split; [reflexivity|].
    split; [unfold MAX_TIMESTAMP_MS; lia|exact (proj1 example_vpin_ordinary)].
  - eexists. split; [reflexivity|]. split; reflexivity.
  - exact example_comparison_inputs_ok.
  - exact example_raw_contributions_ordinary.
Defined.

Lemma end_to_end_success_witness :
  let w := world_with (data_path_of "/app") example_document in
  disk w (data_path_of "/app") = Some (Ok example_document) /\
  minimal_document example_document /\
  fst (run_main "/app" w) = Ok tt /\
  map fst (artifacts (snd (run_main "/app" w))) =
    [ "/app/simulation_results/graphs/price_chart.png";
      "/app/simulation_results/graphs/vpin_chart.png";
      "/app/simulation_results/graphs/comparison_chart.png";
      "/app/simulation_results/graphs/protection_value_pie.png";
      "/app/simulation_results/graphs/trade_distribution.png" ].
Proof.
  intros w.
  assert (Hd : disk w (data_path_of "/app") = Some (Ok example_document)) by reflexivity.
  split; [exact Hd|]. split; [exact example_document_minimal|].
  pose proof (end_to_end_success every_second utc_zone fixed_repr
                every_second_range utc_zone_range
                lenient_mpl lenient_np lenient_mpl_accepts lenient_np_accepts
                "/app" example_document w Hd example_document_minimal)
    as (Hok & (c1 & c2 & c3 & c4 & c5 & Ha) & _).
  split; [exact Hok|]. unfold run_main. rewrite Ha. reflexivity.
Defined.

(** The example document with a fee improvement of 10^400. *)
Definition huge_fee_document : document :=
  {| config := config example_document;
     priceData := priceData example_document;
     vpinData := vpinData example_document;
     tradeData := tradeData example_document;
     withoutProtection := withoutProtection example_document;
     withProtection := withProtection example_document;
     comparison := {| feeImprovement := PInt (10 ^ 400);
                      adverseSelectionReduction := PInt 0;
                      gapProtectionValue := f64_lit 3 2 |} |}.

(** C10, the claim as stated fails: with contributions 10^400, 0 and 1.5 the
    sum of the clipped sizes, [sum(sizes)], adds the float 1.5 to the integer
    10^400 and raises OverflowError before anything is drawn; the renderer
    writes no file and prints no line. *)
Lemma protection_pie_not_written :
  py_sum (protection_sizes (comparison huge_fee_document)) = Raise OverflowError /\
  fst (create_protection_value_pie lenient_mpl huge_fee_document "graphs" empty_world)
    = Raise OverflowError /\
  artifacts (snd (create_protection_value_pie lenient_mpl huge_fee_document "graphs"
                    empty_world)) = [] /\
  stdout (snd (create_protection_value_pie lenient_mpl huge_fee_document "graphs"
                 empty_world)) = [].
Proof. vm_compute. repeat split. Qed.

Lemma protection_value_pie_written_witness :
  Forall ordinary (raw_contributions (comparison example_document)) /\
  fst (create_protection_value_pie lenient_mpl example_document "graphs" empty_world) = Ok tt.
Proof.
  split; [exact example_raw_contributions_ordinary|].
  destruct (protection_value_pie_written lenient_mpl lenient_mpl_accepts example_document
              "graphs" empty_world example_raw_contributions_ordinary)
    as (total & chart & _ & Hrun & _).
  rewrite Hrun. reflexivity.
Defined.

(** ** Further concrete inputs *)

(** A document with three price samples in two regimes, two VPIN samples and
    two trades. *)
Definition sample_document : document :=
  {| config := {| simulationDays := PInt 5; initialLPBalance := PInt 100000 |};
     priceData :=
       [ {| price_timestamp := PInt 1700000000000; price := f64_lit 15025 100;
            regime := "PRE_MARKET" |};
         {| price_timestamp := PInt 1700000060000; price := f64_lit 15031 100;
            regime := "CORE_SESSION" |};
         {| price_timestamp := PInt 1700000120000; price := PInt 151;
            regime := "CORE_SESSION" |} ];
     vpinData :=
       [ {| vpin_timestamp := PInt 1700000000000; vpin := f64_lit 2 10 |};
         {| vpin_timestamp := PInt 1700000060000; vpin := f64_lit 6 10 |} ];
     tradeData :=
       [ {| volume := PInt 250000; isInformed := true; isBuy := false |};
         {| volume := PInt 0; isInformed := false; isBuy := true |} ];
     withoutProtection := example_scenario (-1000);
     withProtection := example_scenario 500;
     comparison := {| feeImprovement := PInt 700;
                      adverseSelectionReduction := PInt (-50);
                      gapProtectionValue := f64_lit 1701 2 |} |}.

(** The example document without its price samples. *)
Definition no_price_document : document :=
  {| config := config example_document;
     priceData := [];
     vpinData := vpinData example_document;
     tradeData := tradeData example_document;
     withoutProtection := withoutProtection example_document;
     withProtection := withProtection example_document;
     comparison := comparison example_document |}.

(** The example document with a balance of zero. *)
Definition zero_balance_document : document :=
  {| config := {| simulationDays := PInt 5; initialLPBalance := PInt 0 |};
     priceData := priceData example_document;
     vpinData := vpinData example_document;
     tradeData := tradeData example_document;
     withoutProtection := withoutProtection example_document;
     withProtection := withProtection example_document;
     comparison := comparison example_document |}.

(** A world whose data file exists and does not load. *)
Definition unreadable_world (path : string) : world :=
  {| disk := fun p => if String.eqb p path then Some (Raise LoadError) else None;
     directories := []; artifacts := []; stdout := []; figure := [] |}.

Lemma example_scenario_ordinary (net : Z) :
  Z.abs net < 2 ^ 62 -> scenario_ordinary (example_scenario net).
Proof.
  intros H. unfold scenario_ordinary, example_scenario; cbn.
  repeat split; try reflexivity. exact H.
Defined.

Lemma sample_prices_ordinary : Forall ordinary (map price (priceData sample_document)).
Proof.
  cbn [map priceData sample_document price]. ordinary_literals.
Qed.

Lemma sample_vpins_ordinary : Forall ordinary (map vpin (vpinData sample_document)).
Proof.
  cbn [map vpinData sample_document vpin]. ordinary_literals.
Qed.

Lemma sample_document_well_formed : well_formed_document sample_document.
Proof.
  unfold well_formed_document.
  split; [eexists _, _; reflexivity|].
  split; [exact sample_prices_ordinary|].
  split; [repeat constructor; eexists; (split; [reflexivity|unfold MAX_TIMESTAMP_MS; lia])|].
  split; [exact sample_vpins_ordinary|].
  split; [repeat constructor; eexists; (split; [reflexivity|unfold MAX_TIMESTAMP_MS; lia])|].
  split; [repeat constructor; eexists; (split; [reflexivity|lia])|].
  split; [left; eexists; split; [reflexivity|lia]|].
  split; [reflexivity|].
  split; [exact example_comparison_inputs_ok|].
  exact example_raw_contributions_ordinary.
Defined.

Lemma price_chart_needs_a_sample_witness :
  priceData no_price_document = [] /\
  fst (create_price_chart every_second utc_zone lenient_mpl no_price_document "graphs"
         empty_world) = Raise IndexError.
Proof.
  split; [reflexivity|].
  exact (proj1 (price_chart_needs_a_sample every_second utc_zone lenient_mpl
                  lenient_mpl_accepts no_price_document "graphs" empty_world eq_refl)).
Defined.

Lemma price_chart_produced_iff_witness :
  Forall ordinary (map price (priceData sample_document)) /\
  fst (create_price_chart every_second utc_zone lenient_mpl sample_document "graphs"
         empty_world) = Ok tt.
Proof.
  split; [exact sample_prices_ordinary|].
  apply (proj1 (price_chart_produced_iff every_second utc_zone lenient_mpl
                  lenient_mpl_accepts sample_document "graphs" empty_world
                  sample_prices_ordinary)).
  eexists _, _, _. split; [reflexivity|]. vm_compute. reflexivity.
Defined.

Lemma vpin_chart_produced_iff_witness :
  Forall ordinary (map vpin (vpinData sample_document)) /\
  fst (create_vpin_chart every_second utc_zone lenient_mpl lenient_np sample_document
         "graphs" empty_world) = Ok tt.
Proof.
  split; [exact sample_vpins_ordinary|].
  apply (proj1 (vpin_chart_produced_iff every_second utc_zone lenient_mpl lenient_np
                  lenient_mpl_accepts lenient_np_accepts sample_document "graphs"
                  empty_world sample_vpins_ordinary)).
  eexists. vm_compute. reflexivity.
Defined.

Lemma comparison_chart_zero_balance_witness :
  is_zero (initialLPBalance (config zero_balance_document)) /\
  fst (create_comparison_chart lenient_mpl zero_balance_document "graphs" empty_world)
    = Raise ZeroDivisionError.
Proof.
  split; [reflexivity|].
  refine (proj1 (comparison_chart_zero_balance lenient_mpl lenient_mpl_accepts
                   zero_balance_document "graphs" empty_world
                   (example_scenario_ordinary (-1000) _) (example_scenario_ordinary 500 _)
                   _ eq_refl)); reflexivity.
Defined.

Lemma trade_chart_on_integer_volumes_witness :
  Forall nat_volume (tradeData sample_document) /\
  Exists (fun t => exists z, volume t = PInt z /\ 0 < z) (tradeData sample_document) /\
  int_sum (map volume (tradeData sample_document)) < 2 ^ 62 /\
  fst (create_trade_distribution_chart lenient_mpl sample_document "graphs" empty_world)
    = Ok tt.
Proof.
  assert (H1 : Forall nat_volume (tradeData sample_document))
    by (repeat constructor; eexists; (split; [reflexivity|lia])).
  assert (H2 : Exists (fun t => exists z, volume t = PInt z /\ 0 < z)
                      (tradeData sample_document))
    by (left; eexists; split; [reflexivity|lia]).
  assert (H3 : int_sum (map volume (tradeData sample_document)) < 2 ^ 62) by reflexivity.
  split; [exact H1|]. split; [exact H2|]. split; [exact H3|].
  destruct (trade_chart_on_integer_volumes lenient_mpl lenient_mpl_accepts sample_document
              "graphs" empty_world H1 H2 H3)
    as (i & r & b & s & _ & _ & _ & _ & _ & _ & _ & _ & _ & _ & Hrun).
  rewrite Hrun. reflexivity.
Defined.

Lemma integer_sums_ignore_trade_order_witness :
  Permutation integer_trades (rev integer_trades) /\
  Forall int_volume integer_trades /\
  informed_vol integer_trades = informed_vol (rev integer_trades) /\
  buy_vol integer_trades = buy_vol (rev integer_trades).
Proof.
  assert (H1 : Permutation integer_trades (rev integer_trades)) by apply Permutation_rev.
  assert (H2 : Forall int_volume integer_trades)
    by (repeat constructor; eexists; reflexivity).
  split; [exact H1|]. split; [exact H2|].
  destruct (integer_sums_ignore_trade_order integer_trades (rev integer_trades) H1 H2)
    as (Hi & _ & Hb & _).
  split; [exact Hi|exact Hb].
Defined.

Lemma main_propagates_load_error_witness :
  disk (unreadable_world (data_path_of "/app")) (data_path_of "/app") = Some (Raise LoadError) /\
  fst (run_main "/app" (unreadable_world (data_path_of "/app"))) = Raise LoadError /\
  directories (snd (run_main "/app" (unreadable_world (data_path_of "/app")))) = [].
Proof.
  split; [reflexivity|].
  pose proof (main_propagates_load_error every_second utc_zone fixed_repr lenient_mpl
                lenient_np "/app" (unreadable_world (data_path_of "/app")) LoadError eq_refl)
    as (H1 & _ & H2 & _).
  split; [exact H1|exact H2].
Defined.

Lemma main_stops_at_first_failure_witness :
  let w := world_with (data_path_of "/app") no_price_document in
  disk w (data_path_of "/app") = Some (Ok no_price_document) /\
  priceData no_price_document = [] /\
  fst (run_main "/app" w) = Raise IndexError /\
  artifacts (snd (run_main "/app" w)) = [].
Proof.
  intros w.
  assert (Hd : disk w (data_path_of "/app") = Some (Ok no_price_document)) by reflexivity.
  split; [exact Hd|]. split; [reflexivity|].
  pose proof (main_stops_at_first_failure every_second utc_zone fixed_repr lenient_mpl
                lenient_np lenient_mpl_accepts "/app" no_price_document w Hd eq_refl)
    as (H1 & H2 & _).
  split; [exact H1|exact H2].
Defined.

Lemma main_succeeds_on_well_formed_witness :
  let w := world_with (data_path_of "/app") sample_document in
  disk w (data_path_of "/app") = Some (Ok sample_document) /\
  well_formed_document sample_document /\
  fst (run_main "/app" w) = Ok tt /\
  List.length (artifacts (snd (run_main "/app" w))) = 5%nat.
Proof.
  intros w.
  assert (Hd : disk w (data_path_of "/app") = Some (Ok sample_document)) by reflexivity.
  split; [exact Hd|]. split; [exact sample_document_well_formed|].
  pose proof (main_succeeds_on_well_formed every_second utc_zone fixed_repr
                every_second_range utc_zone_range
                lenient_mpl lenient_np lenient_mpl_accepts lenient_np_accepts
                "/app" sample_document w Hd sample_document_well_formed)
    as (Hok & (c1 & c2 & c3 & c4 & c5 & Ha) & _).
  split; [exact Hok|]. unfold run_main. rewrite Ha. reflexivity.
Defined.

Lemma main_run_again_witness :
  let w := world_with (data_path_of "/app") sample_document in
  disk w (data_path_of "/app") = Some (Ok sample_document) /\
  well_formed_document sample_document /\
  fst (run_main "/app" (snd (run_main "/app" w))) = Ok tt /\
  List.length (artifacts (snd (run_main "/app" (snd (run_main "/app" w))))) = 10%nat.
Proof.
  intros w.
  assert (Hd : disk w (data_path_of "/app") = Some (Ok sample_document)) by reflexivity.
  split; [exact Hd|]. split; [exact sample_document_well_formed|].
  pose proof (main_run_again every_second utc_zone fixed_repr
                every_second_range utc_zone_range
                lenient_mpl lenient_np lenient_mpl_accepts lenient_np_accepts
                "/app" sample_document w Hd sample_document_well_formed)
    as (Hok & _ & (charts & Hlen & _ & Ha) & _).
  split; [exact Hok|]. unfold run_main. rewrite Ha. cbn [artifacts world_with w].
  rewrite !length_app, Hlen. reflexivity.
Defined.
